(** * ERA5_functions.py: a shallow embedding and its verification

    The Python module reads subsets of ERA5 reanalysis files.  Its logic is
    index arithmetic over coordinate axes, a scan over the time-partitioned
    file list, and slicing / concatenation of numpy arrays.  The embedding
    below keeps that structure:

    - Python exceptions are an explicit [result] type;
    - floating-point values (times, coordinates, field values) are exact
      rationals [Q]: rounding is not modelled;
    - a numpy array is its shape together with its row-major buffer;
    - a netCDF [Dataset] is a record of its coordinate axes and variables;
    - string timestamps are taken after conversion by [tfns.time_since],
      i.e. the locators receive the numeric time directly. *)

From Stdlib Require Import String.
From Stdlib Require Import List Arith Lia QArith Qabs Lqa Bool Sorted.
Import ListNotations.
Close Scope Q_scope.

Set Implicit Arguments.

(* ================================================================== *)
(** ** Python values and exceptions *)
(* ================================================================== *)

Module py.

Inductive exn : Type :=
| ValueError (msg : string)
| IndexError
| TypeError
| KeyError (key : string)
| UnboundLocalError (name : string).

Inductive result (A : Type) : Type :=
| Ok (a : A)
| Raise (e : exn).

Arguments Ok {A} a.
Arguments Raise {A} e.

Definition bind {A B} (c : result A) (k : A -> result B) : result B :=
  match c with
  | Ok a => k a
  | Raise e => Raise e
  end.

(** [l[i]] for a non-negative index. *)
Definition item {A} (l : list A) (i : nat) : result A :=
  match nth_error l i with
  | Some x => Ok x
  | None => Raise IndexError
  end.

(** [l[-1]]. *)
Definition last_item {A} (l : list A) : result A :=
  item l (length l - 1).

(** [l[lo:hi]] and [l[lo:]] for non-negative bounds. *)
Definition slice {A} (lo hi : nat) (l : list A) : list A :=
  firstn (hi - lo) (skipn lo l).

Definition slice_from {A} (lo : nat) (l : list A) : list A :=
  skipn lo l.

(** Reading a local variable that may not have been assigned. *)
Definition local {A} (name : string) (v : option A) : result A :=
  match v with
  | Some a => Ok a
  | None => Raise (UnboundLocalError name)
  end.

(** Comparisons on floats. *)
Definition ltb (x y : Q) : bool := negb (Qle_bool y x).
Definition leb (x y : Q) : bool := Qle_bool x y.
Definition eqb (x y : Q) : bool := Qeq_bool x y.

(** The chained comparison [a <= x <= b]. *)
Definition between (a x b : Q) : bool := leb a x && leb x b.

(** The chained comparison [a < x < b]. *)
Definition strictly_between (a x b : Q) : bool := ltb a x && ltb x b.

(** [x in l] and [l.index(x)] on a list of floats. *)
Definition contains (x : Q) (l : list Q) : bool := existsb (eqb x) l.

Fixpoint list_index (x : Q) (l : list Q) : result nat :=
  match l with
  | [] => Raise (ValueError "x is not in list")
  | y :: l' => if eqb y x then Ok 0
               else bind (list_index x l') (fun i => Ok (S i))
  end.

End py.

Import py.

Notation "x <- c ;; k" := (py.bind c (fun x => k))
  (at level 61, c at next level, right associativity).
Notation "' pat <- c ;; k" := (py.bind c (fun x => match x with pat => k end))
  (at level 61, pat pattern, c at next level, right associativity).

(* ================================================================== *)
(** ** numpy arrays *)
(* ================================================================== *)

Module np.

(** An array is a shape and a row-major buffer. *)
Record ndarray : Type := mk { shape : list nat; data : list Q }.

Definition size (sh : list nat) : nat := fold_right Nat.mul 1 sh.

Definition wf (a : ndarray) : Prop := length (data a) = size (shape a).

(** A Python list of floats, or a one-dimensional array. *)
Definition array1 (l : list Q) : ndarray := mk [length l] l.

(** [np.squeeze]: drop every axis of length one. *)
Definition squeeze (a : ndarray) : ndarray :=
  mk (filter (fun n => negb (n =? 1)) (shape a)) (data a).

(** One entry of a subscript: an integer, a slice [lo:hi] / [lo:], or a
    list of integers. *)
Inductive index : Type :=
| Idx (i : nat)
| Slice (lo : nat) (hi : option nat)
| Fancy (l : list nat).

Definition stop (n : nat) (hi : option nat) : nat :=
  match hi with
  | None => n
  | Some h => Nat.min h n
  end.

(** The [k]-th block of [m] consecutive elements of a buffer. *)
Definition block (m k : nat) (d : list Q) : list Q :=
  firstn m (skipn (k * m) d).

(** Positions selected along an axis of length [n]. *)
Definition selected (n : nat) (ix : index) : list nat :=
  match ix with
  | Idx i => [i]
  | Slice lo hi => seq lo (stop n hi - lo)
  | Fancy l => l
  end.

Fixpoint getitem_shape (ixs : list index) (sh : list nat)
  : result (list nat) :=
  match ixs, sh with
  | [], _ => Ok sh
  | _ :: _, [] => Raise IndexError
  | ix :: ixs', n :: sh' =>
      if forallb (fun i => i <? n)
           (match ix with Slice _ _ => [] | _ => selected n ix end)
      then
        r <- getitem_shape ixs' sh' ;;
        Ok (match ix with
            | Idx _ => r
            | Slice lo hi => (stop n hi - lo) :: r
            | Fancy l => length l :: r
            end)
      else Raise IndexError
  end.

Fixpoint getitem_data (ixs : list index) (sh : list nat) (d : list Q)
  : list Q :=
  match ixs, sh with
  | ix :: ixs', n :: sh' =>
      flat_map (fun k => getitem_data ixs' sh' (block (size sh') k d))
               (selected n ix)
  | _, _ => d
  end.

(** [a[ix0, ix1, ...]]. *)
Definition getitem (a : ndarray) (ixs : list index) : result ndarray :=
  sh <- getitem_shape ixs (shape a) ;;
  Ok (mk sh (getitem_data ixs (shape a) (data a))).

(** [a[None,:,:]]: a new leading axis of length one. *)
Definition newaxis (a : ndarray) : result ndarray :=
  if 2 <=? length (shape a) then Ok (mk (1 :: shape a) (data a))
  else Raise IndexError.

Fixpoint shape_eqb (s1 s2 : list nat) : bool :=
  match s1, s2 with
  | [], [] => true
  | n1 :: r1, n2 :: r2 => (n1 =? n2) && shape_eqb r1 r2
  | _, _ => false
  end.

(** Alternate blocks of [ma] elements of [da] and [mb] elements of [db]. *)
Fixpoint interleave (outer ma mb : nat) (da db : list Q) : list Q :=
  match outer with
  | O => []
  | S o => firstn ma da ++ firstn mb db
           ++ interleave o ma mb (skipn ma da) (skipn mb db)
  end.

(** [np.concatenate((a, b), axis)]. *)
Definition concatenate (a b : ndarray) (axis : nat) : result ndarray :=
  let sa := shape a in
  let sb := shape b in
  if negb (length sa =? length sb) then
    Raise (ValueError
             "all the input arrays must have same number of dimensions")
  else if negb (axis <? length sa) then
    Raise (ValueError "axis is out of bounds")
  else if shape_eqb (firstn axis sa) (firstn axis sb)
          && shape_eqb (skipn (S axis) sa) (skipn (S axis) sb) then
    Ok (mk (firstn axis sa ++ (nth axis sa 0 + nth axis sb 0)
              :: skipn (S axis) sa)
           (interleave (size (firstn axis sa))
                       (size (skipn axis sa)) (size (skipn axis sb))
                       (data a) (data b)))
  else
    Raise (ValueError
             "all the input array dimensions except for the concatenation axis must match exactly").

Fixpoint zip_with (f : Q -> Q -> Q) (x y : list Q) : list Q :=
  match x, y with
  | a :: x', b :: y' => f a b :: zip_with f x' y'
  | _, _ => []
  end.

(** [a - b] for arrays of one shape.  Broadcasting between different
    shapes is not modelled: every subtraction in the module is between
    two reads that differ only in an integer level index. *)
Definition subtract (a b : ndarray) : result ndarray :=
  if shape_eqb (shape a) (shape b)
  then Ok (mk (shape a) (zip_with Qminus (data a) (data b)))
  else Raise (ValueError "operands could not be broadcast together").

(** Pointwise sum of the [n] consecutive blocks of [m] elements of a
    buffer, added in storage order starting from the first block. *)
Definition sum_blocks (n m : nat) (d : list Q) : list Q :=
  fold_left (fun acc l => zip_with Qplus acc (block m l d))
            (seq 1 (n - 1)) (block m 0 d).

(** [np.mean(a, axis=1)].  The mean over an axis of length zero is NaN in
    numpy, which has no counterpart in [Q]; that case is an error here. *)
Definition mean_axis1 (a : ndarray) : result ndarray :=
  match shape a with
  | n0 :: n1 :: rest =>
      if n1 =? 0 then Raise (ValueError "Mean of empty slice")
      else
        let m := size rest in
        Ok (mk (n0 :: rest)
               (flat_map
                  (fun k =>
                     map (fun x => (x / inject_Z (Z.of_nat n1))%Q)
                         (sum_blocks n1 m (block (n1 * m) k (data a))))
                  (seq 0 n0)))
  | _ => Raise (ValueError "axis 1 is out of bounds")
  end.

End np.

(* ================================================================== *)
(** ** scipy.interpolate.interp1d, linear, along axis 0 *)
(* ================================================================== *)

Module scipy.

Import np.

(** A sample: an abscissa and the block of values stored at it. *)
Definition sample : Type := (Q * list Q)%type.

(** Stable sort of the samples by abscissa ([assume_sorted=False]). *)
Fixpoint insert (s : sample) (l : list sample) : list sample :=
  match l with
  | [] => [s]
  | t :: l' => if py.leb (fst s) (fst t) then s :: l
               else t :: insert s l'
  end.

Definition sort (l : list sample) : list sample :=
  fold_right insert [] l.

Fixpoint blocks (n m : nat) (d : list Q) : list (list Q) :=
  match n with
  | O => []
  | S n' => firstn m d :: blocks n' m (skipn m d)
  end.

(** [np.searchsorted(x, v)]: the number of abscissae below [v]. *)
Fixpoint searchsorted (x : list Q) (v : Q) : nat :=
  match x with
  | [] => 0
  | a :: x' => if py.ltb a v then S (searchsorted x' v) else 0
  end.

(** scipy's formula [slope * (x_new - x_lo) + y_lo], evaluated exactly:
    identities of exact arithmetic, such as the midpoint being the
    mean, hold for the code only up to rounding. *)
Definition lerp (xlo xhi v : Q) (ylo yhi : Q) : Q :=
  ((yhi - ylo) / (xhi - xlo)) * (v - xlo) + ylo.

(** [interp1d(x, y, axis=0)(v)].  Fewer than two samples make scipy
    return NaN, which has no counterpart here; that case is an error. *)
Definition interp1d (x : list Q) (y : ndarray) (v : Q) : result ndarray :=
  match shape y with
  | [] => Raise (ValueError "the y array must have at least one dimension")
  | n :: sh =>
      if negb (length x =? n) then
        Raise (ValueError
          "x and y arrays must be equal in length along interpolation axis")
      else if n <? 2 then
        Raise (ValueError "x and y arrays must have at least 2 entries")
      else
        let s := sort (combine x (blocks n (size sh) (data y))) in
        let xs := map fst s in
        if py.ltb v (hd 0%Q xs) then
          Raise (ValueError
                   "A value in x_new is below the interpolation range")
        else if py.ltb (last xs 0%Q) v then
          Raise (ValueError
                   "A value in x_new is above the interpolation range")
        else
          let hi := Nat.min (Nat.max (searchsorted xs v) 1) (n - 1) in
          let lo := hi - 1 in
          let slo := nth lo s (0%Q, []) in
          let shi := nth hi s (0%Q, []) in
          Ok (mk sh (zip_with (lerp (fst slo) (fst shi) v)
                              (snd slo) (snd shi)))
  end.

End scipy.

(* ================================================================== *)
(** ** misc_functions.k_closest *)
(* ================================================================== *)

Module mfns.

(** Modelled from the spec: the candidate (index, distance) nearest the
    target, the earlier one on a tie; a step of [k_closest], which is
    not among the sources. *)
Fixpoint closest (cands : list (nat * Q)) : option (nat * Q) :=
  match cands with
  | [] => None
  | c :: rest =>
      match closest rest with
      | None => Some c
      | Some b => if py.leb (snd c) (snd b) then Some c else Some b
      end
  end.

(** Modelled from the spec: the [k] nearest candidates in turn; the body
    of [k_closest], which is not among the sources. *)
Fixpoint select (k : nat) (cands : list (nat * Q)) : list nat :=
  match k with
  | O => []
  | S k' =>
      match closest cands with
      | None => []
      | Some (i, _) =>
          i :: select k' (filter (fun c => negb (fst c =? i)) cands)
      end
  end.

(** Modelled from the spec: [misc_functions.py] is not among the sources.
    [k_closest lst value k] returns the [k] indices of the elements of
    [lst] nearest [value], ties broken by first occurrence.  The spec
    does not fix the order of the returned indices; they are listed
    nearest first. *)
Definition k_closest (lst : list Q) (value : Q) (k : nat) : list nat :=
  select k (combine (seq 0 (length lst))
                    (map (fun x => Qabs (x - value)) lst)).

End mfns.

(* ================================================================== *)
(** ** netCDF4 datasets *)
(* ================================================================== *)

Import np.

(** An open file: its four coordinate axes and its named fields. *)
Record Dataset : Type := mkDataset {
  time : list Q;
  level : list Q;
  latitude : list Q;
  longitude : list Q;
  variables : list (string * ndarray)
}.

Fixpoint lookup (key : string) (vars : list (string * ndarray))
  : result ndarray :=
  match vars with
  | [] => Raise (KeyError key)
  | (k, v) :: vars' => if String.eqb k key then Ok v else lookup key vars'
  end.

(** [fh.variables[varname]]. *)
Definition variable (fh : Dataset) (varname : string) : result ndarray :=
  lookup varname (variables fh).

(** [np.squeeze([a, b])] for two results of [k_closest(.., .., 1)], used
    afterwards as a pair of integer indices. *)
Definition squeeze_pair (a b : list nat) : result (nat * nat) :=
  match a, b with
  | [i], [j] => Ok (i, j)
  | _, _ => Raise TypeError
  end.

(* ================================================================== *)
(** ** get_E5_ss_4D_fiti *)
(* ================================================================== *)

(** The locals of the file scan. *)
Record fiti_locals : Type := mkLocals {
  append : bool;
  ssfiles : list Dataset;
  times : option (list Q);
  timi1 : option nat;
  timi2 : option nat
}.

Fixpoint fiti_4D_loop (time1 time2 : Q) (allfiles : list Dataset)
  (s : fiti_locals) : result fiti_locals :=
  match allfiles with
  | [] => Ok s
  | fi :: rest =>
      let times1 := time fi in
      t0 <- item times1 0 ;;
      tN <- last_item times1 ;;
      (* first and second time within the current file *)
      if between t0 time1 tN && between t0 time2 tN then
        i1 <- item (mfns.k_closest times1 time1 1) 0 ;;
        i2 <- item (mfns.k_closest times1 time2 1) 0 ;;
        Ok (mkLocals (append s) (ssfiles s ++ [fi])
                     (Some (slice i1 (i2 + 1) times1)) (Some i1) (Some i2))
      (* first time only within the current file *)
      else if between t0 time1 tN && negb (between t0 time2 tN) then
        i1 <- item (mfns.k_closest times1 time1 1) 0 ;;
        fiti_4D_loop time1 time2 rest
          (mkLocals true (ssfiles s ++ [fi])
                    (Some (slice_from i1 times1)) (Some i1) (timi2 s))
      (* last time within the current file *)
      else if between t0 time2 tN then
        i2 <- item (mfns.k_closest times1 time2 1) 0 ;;
        ts <- local "times" (times s) ;;
        Ok (mkLocals (append s) (ssfiles s ++ [fi])
                     (Some (ts ++ slice 0 (i2 + 1) times1))
                     (timi1 s) (Some i2))
      (* middle times *)
      else if append s then
        ts <- local "times" (times s) ;;
        fiti_4D_loop time1 time2 rest
          (mkLocals (append s) (ssfiles s ++ [fi])
                    (Some (ts ++ times1)) (timi1 s) (timi2 s))
      else fiti_4D_loop time1 time2 rest s
  end.

Definition get_E5_ss_4D_fiti (allfiles : list Dataset) (time1 time2 : Q)
  : result (list Dataset * (nat * nat) * list Q) :=
  _ <- item allfiles 0 ;;
  s <- fiti_4D_loop time1 time2 allfiles
         (mkLocals false [] None None None) ;;
  i1 <- local "timi1" (timi1 s) ;;
  i2 <- local "timi2" (timi2 s) ;;
  ts <- local "times" (times s) ;;
  Ok (ssfiles s, (i1, i2), ts).

(* ================================================================== *)
(** ** get_E5_ss_4D_coords, get_E5_ss_4D_levels *)
(* ================================================================== *)

(** [if lon<0: lon = lon+360]. *)
Definition normalize_lon (lon : Q) : Q :=
  if ltb lon 0%Q then (lon + 360)%Q else lon.

(** The loop body building [lons1]: values past 180 become negative. *)
Definition signed_lon (l : Q) : Q :=
  if ltb l 180%Q then l else (l - 360)%Q.

Definition get_E5_ss_4D_coords (fh : Dataset) (lat1 lat2 lon1 lon2 : Q)
  : result ((nat * nat) * (nat * nat) * ndarray * ndarray) :=
  let lon1 := normalize_lon lon1 in
  let lon2 := normalize_lon lon2 in
  let lat := latitude fh in
  let lon := longitude fh in
  lati <- squeeze_pair (mfns.k_closest lat lat2 1)
                       (mfns.k_closest lat lat1 1) ;;
  loni <- squeeze_pair (mfns.k_closest lon lon1 1)
                       (mfns.k_closest lon lon2 1) ;;
  let coords :=
    if fst loni <? snd loni then
      Some (squeeze (array1 (slice (fst lati) (snd lati + 1) lat)),
            squeeze (array1 (slice (fst loni) (snd loni + 1) lon)))
    else None in
  let coords :=
    if snd loni <? fst loni then
      let lons1 := map signed_lon (slice_from (fst loni) lon) in
      let lons2 := slice 0 (snd loni + 1) lon in
      Some (array1 (slice (fst lati) (snd lati + 1) lat),
            array1 (lons1 ++ lons2))
    else coords in
  '(lats, lons) <- local "lats" coords ;;
  Ok (lati, loni, lats, lons).

Definition get_E5_ss_4D_levels (fh : Dataset) (lev1 lev2 : Q)
  : result ((nat * nat) * ndarray) :=
  let lev := level fh in
  levi <- squeeze_pair (mfns.k_closest lev lev1 1)
                       (mfns.k_closest lev lev2 1) ;;
  Ok (levi, squeeze (array1 (slice (fst levi) (snd levi + 1) lev))).

(** The two level indices alone, as the level-difference reader takes
    them. *)
Definition get_E5_ss_4D_2levels (fh : Dataset) (lev1 lev2 : Q)
  : result (nat * nat) :=
  let lev := level fh in
  squeeze_pair (mfns.k_closest lev lev1 1) (mfns.k_closest lev lev2 1).

(* ================================================================== *)
(** ** get_E5_ss_4D_var *)
(* ================================================================== *)

(** The read of one file for a time subscript [ts].  The source writes it
    out for each of the three time cases; only the time subscript
    differs.  When [loni[0] = loni[1]] neither branch runs and nothing is
    assigned. *)
Definition read_4D (fh : Dataset) (varname : string) (ts : index)
  (levi lati loni : nat * nat) : result (option ndarray) :=
  let levs := Slice (fst levi) (Some (snd levi)) in
  let lats := Slice (fst lati) (Some (snd lati + 1)) in
  (* not over the Greenwich meridian *)
  if fst loni <? snd loni then
    v <- variable fh varname ;;
    a <- getitem v [ts; levs; lats;
                    Slice (fst loni) (Some (snd loni + 1))] ;;
    Ok (Some a)
  (* over the Greenwich meridian: concatenate in longitude *)
  else if snd loni <? fst loni then
    v <- variable fh varname ;;
    varss1 <- getitem v [ts; levs; lats; Slice (fst loni) None] ;;
    varss2 <- getitem v [ts; levs; lats; Slice 0 (Some (snd loni + 1))] ;;
    a <- concatenate varss1 varss2 3 ;;
    Ok (Some a)
  else Ok None.

(** The loop over [files]; [n] is [len(files)], [c] the counter and
    [varss] the accumulated array, unassigned at first. *)
Fixpoint var_loop (n : nat) (varname : string)
  (timi levi lati loni : nat * nat) (files : list Dataset) (c : nat)
  (varss : option ndarray) : result (option ndarray) :=
  match files with
  | [] => Ok varss
  | fh :: rest =>
      varss' <-
        (* at first time *)
        (if c =? 0 then
           read_4D fh varname (Slice (fst timi) None) levi lati loni
         (* at last time *)
         else if c =? n - 1 then
           varss3 <- read_4D fh varname (Slice 0 (Some (snd timi + 1)))
                       levi lati loni ;;
           a <- local "varss" varss ;;
           b <- local "varss3" varss3 ;;
           r <- concatenate a b 0 ;;
           Ok (Some r)
         (* middle times *)
         else
           varss3 <- read_4D fh varname (Slice 0 None) levi lati loni ;;
           a <- local "varss" varss ;;
           b <- local "varss3" varss3 ;;
           r <- concatenate a b 0 ;;
           Ok (Some (squeeze r))) ;;
      var_loop n varname timi levi lati loni rest (S c) varss'
  end.

Definition get_E5_ss_4D_var (files : list Dataset) (varname : string)
  (timi levi lati loni : nat * nat) : result ndarray :=
  varss <- var_loop (length files) varname timi levi lati loni
             files 0 None ;;
  local "varss" varss.

(* ================================================================== *)
(** ** get_E5_ss_4D_levavgvar *)
(* ================================================================== *)

(** The read of one file in level-mean mode: the read of [read_4D] with
    each piece averaged over its level axis, the two pieces of a window
    over the Greenwich meridian joined along the last of the three axes
    that remain. *)
Definition read_levavg (fh : Dataset) (varname : string) (ts : index)
  (levi lati loni : nat * nat) : result (option ndarray) :=
  let levs := Slice (fst levi) (Some (snd levi)) in
  let lats := Slice (fst lati) (Some (snd lati + 1)) in
  let avg (lons : index) : result ndarray :=
    v <- variable fh varname ;;
    a <- getitem v [ts; levs; lats; lons] ;;
    mean_axis1 a in
  if fst loni <? snd loni then
    a <- avg (Slice (fst loni) (Some (snd loni + 1))) ;;
    Ok (Some a)
  else if snd loni <? fst loni then
    varss1 <- avg (Slice (fst loni) None) ;;
    varss2 <- avg (Slice 0 (Some (snd loni + 1))) ;;
    a <- concatenate varss1 varss2 2 ;;
    Ok (Some a)
  else Ok None.

Fixpoint levavg_loop (n : nat) (varname : string)
  (timi levi lati loni : nat * nat) (files : list Dataset) (c : nat)
  (varss : option ndarray) : result (option ndarray) :=
  match files with
  | [] => Ok varss
  | fh :: rest =>
      varss' <-
        (if c =? 0 then
           read_levavg fh varname (Slice (fst timi) None) levi lati loni
         else if c =? n - 1 then
           varss3 <- read_levavg fh varname
                       (Slice 0 (Some (snd timi + 1))) levi lati loni ;;
           a <- local "varss" varss ;;
           b <- local "varss3" varss3 ;;
           r <- concatenate a b 0 ;;
           Ok (Some r)
         else
           varss3 <- read_levavg fh varname (Slice 0 None)
                       levi lati loni ;;
           a <- local "varss" varss ;;
           b <- local "varss3" varss3 ;;
           r <- concatenate a b 0 ;;
           Ok (Some (squeeze r))) ;;
      levavg_loop n varname timi levi lati loni rest (S c) varss'
  end.

Definition get_E5_ss_4D_levavgvar (files : list Dataset)
  (varname : string) (timi levi lati loni : nat * nat) : result ndarray :=
  varss <- levavg_loop (length files) varname timi levi lati loni
             files 0 None ;;
  local "varss" varss.

(* ================================================================== *)
(** ** get_E5_ss_4D_levdiffvar *)
(* ================================================================== *)

(** The read of one file in level-difference mode: the field at level
    index [levi[0]] minus the field at level index [levi[1]]. *)
Definition read_levdiff (fh : Dataset) (varname : string) (ts : index)
  (levi lati loni : nat * nat) : result (option ndarray) :=
  let lats := Slice (fst lati) (Some (snd lati + 1)) in
  let diff (lons : index) : result ndarray :=
    v <- variable fh varname ;;
    a <- getitem v [ts; Idx (fst levi); lats; lons] ;;
    b <- getitem v [ts; Idx (snd levi); lats; lons] ;;
    subtract a b in
  if fst loni <? snd loni then
    a <- diff (Slice (fst loni) (Some (snd loni + 1))) ;;
    Ok (Some a)
  else if snd loni <? fst loni then
    varss1 <- diff (Slice (fst loni) None) ;;
    varss2 <- diff (Slice 0 (Some (snd loni + 1))) ;;
    a <- concatenate varss1 varss2 2 ;;
    Ok (Some a)
  else Ok None.

Fixpoint levdiff_loop (n : nat) (varname : string)
  (timi levi lati loni : nat * nat) (files : list Dataset) (c : nat)
  (varss : option ndarray) : result (option ndarray) :=
  match files with
  | [] => Ok varss
  | fh :: rest =>
      varss' <-
        (if c =? 0 then
           read_levdiff fh varname (Slice (fst timi) None) levi lati loni
         else if c =? n - 1 then
           varss3 <- read_levdiff fh varname
                       (Slice 0 (Some (snd timi + 1))) levi lati loni ;;
           a <- local "varss" varss ;;
           b <- local "varss3" varss3 ;;
           r <- concatenate a b 0 ;;
           Ok (Some r)
         else
           varss3 <- read_levdiff fh varname (Slice 0 None)
                       levi lati loni ;;
           a <- local "varss" varss ;;
           b <- local "varss3" varss3 ;;
           r <- concatenate a b 0 ;;
           Ok (Some (squeeze r))) ;;
      levdiff_loop n varname timi levi lati loni rest (S c) varss'
  end.

Definition get_E5_ss_4D_levdiffvar (files : list Dataset)
  (varname : string) (timi levi lati loni : nat * nat) : result ndarray :=
  varss <- levdiff_loop (length files) varname timi levi lati loni
             files 0 None ;;
  local "varss" varss.

(* ================================================================== *)
(** ** get_E5_ss_4D *)
(* ================================================================== *)

Definition get_E5_ss_4D (allfiles : list Dataset) (varname : string)
  (time1 time2 lev1 lev2 lat1 lat2 lon1 lon2 : Q)
  : result (ndarray * list Q * ndarray * ndarray * ndarray) :=
  '(files, timi, times) <- get_E5_ss_4D_fiti allfiles time1 time2 ;;
  fh <- item files 0 ;;
  '(lati, loni, lats, lons) <- get_E5_ss_4D_coords fh lat1 lat2 lon1 lon2 ;;
  '(levi, levs) <- get_E5_ss_4D_levels fh lev1 lev2 ;;
  var <- get_E5_ss_4D_var files varname timi levi lati loni ;;
  Ok (var, times, levs, lats, lons).

(* ================================================================== *)
(** ** get_E5_ss_files *)
(* ================================================================== *)

(** The locals of the scan: [prev] holds [pfi] and [ptimes1], which are
    assigned together. *)
Record files_locals : Type := mkFilesLocals {
  f_append : bool;
  f_ssfiles : list Dataset;
  f_ifi : nat;
  f_prev : option (Dataset * list Q)
}.

(** [ptimes1[-1]]. *)
Definition prev_last (s : files_locals) : result Q :=
  p <- local "ptimes1" (f_prev s) ;;
  last_item (snd p).

(** [ifi>0 and c], with [c] evaluated only when [ifi>0]. *)
Definition when_later (s : files_locals) (c : Q -> bool) : result bool :=
  if 0 <? f_ifi s then pN <- prev_last s ;; Ok (c pN) else Ok false.

Fixpoint files_loop (time1 time2 : Q) (allfiles : list Dataset)
  (s : files_locals) : result (list Dataset) :=
  match allfiles with
  | [] => Ok (f_ssfiles s)
  | fi :: rest =>
      let times1 := time fi in
      t0 <- item times1 0 ;;
      (* missing data *)
      if (f_ifi s =? 0) && ltb time1 t0 then
        Raise (ValueError "Data is unavailable")
      else
      tN <- last_item times1 ;;
      (* first and second time within the current file *)
      if between t0 time1 tN && between t0 time2 tN then
        Ok (f_ssfiles s ++ [fi])
      (* first time only within the current file *)
      else if between t0 time1 tN && negb (between t0 time2 tN) then
        files_loop time1 time2 rest
          (mkFilesLocals true (f_ssfiles s ++ [fi]) (f_ifi s + 1)
                         (Some (fi, times1)))
      else
      (* first and second time between current and past files *)
      both <- when_later s (fun pN =>
                strictly_between pN time1 t0
                && strictly_between pN time2 t0) ;;
      if both then
        p <- local "pfi" (f_prev s) ;;
        Ok (f_ssfiles s ++ [fst p; fi])
      else
      (* first time between current and past files, second is not *)
      first <- when_later s (fun pN =>
                 strictly_between pN time1 t0
                 && negb (strictly_between pN time2 t0)) ;;
      s1 <- (if first then
               p <- local "pfi" (f_prev s) ;;
               Ok (mkFilesLocals true (f_ssfiles s ++ [fst p])
                                 (f_ifi s + 1) (Some (fi, times1)))
             else Ok s) ;;
      (* last time between current and past files *)
      last <- when_later s1 (fun pN => strictly_between pN time2 t0) ;;
      if last then Ok (f_ssfiles s1 ++ [fi])
      (* last time within the current file *)
      else if between t0 time2 tN then Ok (f_ssfiles s1 ++ [fi])
      else
      (* middle times *)
      let ss := if f_append s1 then f_ssfiles s1 ++ [fi]
                else f_ssfiles s1 in
      files_loop time1 time2 rest
        (mkFilesLocals (f_append s1) ss (f_ifi s1 + 1) (Some (fi, times1)))
  end.

Definition get_E5_ss_files (allfiles : list Dataset) (time1 time2 : Q)
  : result (list Dataset) :=
  _ <- item allfiles 0 ;;
  files_loop time1 time2 allfiles (mkFilesLocals false [] 0 None).

(* ================================================================== *)
(** ** get_E5_ss_fiti *)
(* ================================================================== *)

(** A time index that is either one integer or a list of them. *)
Inductive pyindex : Type :=
| Int (i : nat)
| Ints (l : list nat).

(** The scan for the file holding [ctime]; [fh] is the last file opened. *)
Fixpoint fiti_scan (ctime : Q) (allfiles : list Dataset)
  (fh : option Dataset) : result (option Dataset) :=
  match allfiles with
  | [] => Ok fh
  | fi :: rest =>
      t0 <- item (time fi) 0 ;;
      tN <- last_item (time fi) ;;
      if between t0 ctime tN then Ok (Some fi)
      else fiti_scan ctime rest (Some fi)
  end.

Definition get_E5_ss_fiti (allfiles : list Dataset) (ctime : Q)
  : result (Dataset * pyindex * list Q * Q) :=
  _ <- item allfiles 0 ;;
  r <- fiti_scan ctime allfiles None ;;
  fh <- local "fh" r ;;
  let times := time fh in
  timi <- (if contains ctime times then
             i <- list_index ctime times ;; Ok (Int i)
           else Ok (Ints (mfns.k_closest times ctime 2))) ;;
  Ok (fh, timi, times, ctime).

(* ================================================================== *)
(** ** get_E5_ss_coords *)
(* ================================================================== *)

(** The index pairs of the window of half-width [hda] around
    ([clon], [clat]); no coordinate list is built. *)
Definition get_E5_ss_coords (fh : Dataset) (clon clat hda : Q)
  : result ((nat * nat) * (nat * nat)) :=
  let clon := normalize_lon clon in
  let lat := latitude fh in
  let lon := longitude fh in
  (* lat and lon ranges *)
  let clatp := (clat + hda)%Q in
  let clatp := if ltb 90%Q clatp then 90%Q else clatp in
  let clatm := (clat - hda)%Q in
  let clatm := if ltb clatm (-90)%Q then (-90)%Q else clatm in
  let clonp := (clon + hda)%Q in
  let clonp := if ltb 360%Q clonp then (clonp - 360)%Q else clonp in
  let clonm := (clon - hda)%Q in
  let clonm := if ltb clonm 0%Q then (clonm + 360)%Q else clonm in
  (* indices *)
  lati <- squeeze_pair (mfns.k_closest lat clatp 1)
                       (mfns.k_closest lat clatm 1) ;;
  loni <- squeeze_pair (mfns.k_closest lon clonm 1)
                       (mfns.k_closest lon clonp 1) ;;
  Ok (loni, lati).

(* ================================================================== *)
(** ** get_E5_ss_2D_fiti *)
(* ================================================================== *)

(** The time(s) returned next to the indices: one float on an exact
    match, otherwise a list of two. *)
Inductive pytimes : Type :=
| Float (t : Q)
| Floats (l : list Q).

(** The scan; [n] is [len(allfiles)], [it] the counter and [prev] the
    pair [ltinpf], [pf], assigned together.  [None] is returned when the
    loop ends without assigning [files]. *)
Fixpoint fiti_2D_loop (ctime : Q) (n : nat) (allfiles : list Dataset)
  (it : nat) (prev : option (Q * Dataset))
  : result (option (list Dataset)) :=
  match allfiles with
  | [] => Ok None
  | fh :: rest =>
      t0 <- item (time fh) 0 ;;
      (* at first file, time before first time *)
      if ltb ctime t0 && (it =? 0) then
        Raise (ValueError "Time is before range of times in files")
      else
      tN <- last_item (time fh) ;;
      (* at last file, time after last time *)
      if ltb tN ctime && (it =? n - 1) then
        Raise (ValueError "Time is after range of times in files")
      (* time within current file *)
      else if between t0 ctime tN then Ok (Some [fh])
      else
        match prev with
        | Some (ltinpf, pf) =>
            (* after last time of previous file, before first of current *)
            if between ltinpf ctime t0 then Ok (Some [pf; fh])
            else fiti_2D_loop ctime n rest (S it) (Some (tN, fh))
        | None => fiti_2D_loop ctime n rest (S it) (Some (tN, fh))
        end
  end.

(** The selection of the time index(es) once [files] is known. *)
Definition fiti_2D_select (files : list Dataset) (ctime : Q)
  : result (list nat * pytimes) :=
  if length files =? 1 then
    f0 <- item files 0 ;;
    let times := time f0 in
    (* at exact time *)
    if contains ctime times then
      i <- list_index ctime times ;;
      t <- item times i ;;
      Ok ([i], Float t)
    (* between two times *)
    else
      let timi := mfns.k_closest times ctime 2 in
      i0 <- item timi 0 ;;
      a <- item times i0 ;;
      i1 <- item timi 1 ;;
      b <- item times i1 ;;
      Ok (timi, Floats [a; b])
  (* between two files *)
  else
    f0 <- item files 0 ;;
    a <- last_item (time f0) ;;
    f1 <- item files 1 ;;
    b <- item (time f1) 0 ;;
    Ok ([length (time f0) - 1; 0], Floats [a; b]).

Definition get_E5_ss_2D_fiti (allfiles : list Dataset) (ctime : Q)
  : result (list Dataset * list nat * pytimes * Q) :=
  _ <- item allfiles 0 ;;
  r <- fiti_2D_loop ctime (length allfiles) allfiles 0 None ;;
  files <- local "files" r ;;
  '(timi, times) <- fiti_2D_select files ctime ;;
  Ok (files, timi, times, ctime).

(* ================================================================== *)
(** ** get_E5_ss_2D_coords *)
(* ================================================================== *)

Definition get_E5_ss_2D_coords (fh : Dataset) (clon clat hda : Q)
  : result ((nat * nat) * (nat * nat) * ndarray * ndarray) :=
  let clon := normalize_lon clon in
  let lat := latitude fh in
  let lon := longitude fh in
  (* lat and lon ranges *)
  let clatp := (clat + hda)%Q in
  let clatp := if ltb 90%Q clatp then 90%Q else clatp in
  let clatm := (clat - hda)%Q in
  let clatm := if ltb clatm (-90)%Q then (-90)%Q else clatm in
  let clonp := (clon + hda)%Q in
  let clonp := if ltb 360%Q clonp then (clonp - 360)%Q else clonp in
  let clonm := (clon - hda)%Q in
  let clonm := if ltb clonm 0%Q then (clonm + 360)%Q else clonm in
  (* cyclical lons *)
  lonN <- last_item lon ;;
  lon_1 <- item lon 1 ;;
  lon_0 <- item lon 0 ;;
  let edge := (lonN + (lon_1 - lon_0) / 2)%Q in
  let clonp := if ltb edge clonp then (clonp - 360)%Q else clonp in
  let clonm := if ltb edge clonm then (clonm - 360)%Q else clonm in
  (* indices *)
  lati <- squeeze_pair (mfns.k_closest lat clatp 1)
                       (mfns.k_closest lat clatm 1) ;;
  loni <- squeeze_pair (mfns.k_closest lon clonm 1)
                       (mfns.k_closest lon clonp 1) ;;
  (* coordinates of the subset *)
  let lats := array1 (slice (fst lati) (snd lati + 1) lat) in
  let lons :=
    if fst loni <? snd loni then
      Some (array1 (slice (fst loni) (snd loni + 1) lon))
    else None in
  let lons :=
    if snd loni <? fst loni then
      Some (array1 (slice_from (fst loni) lon
                    ++ slice 0 (snd loni + 1) lon))
    else lons in
  lons <- local "lons" lons ;;
  Ok (loni, lati, lons, lats).

(* ================================================================== *)
(** ** get_E5_ss_2D_var *)
(* ================================================================== *)

(** [interp1d(times, varall, axis=0)(ctime)]: a single float is not a
    sequence of abscissae. *)
Definition interp_time (times : pytimes) (varall : ndarray) (ctime : Q)
  : result ndarray :=
  match times with
  | Float _ =>
      Raise (ValueError "the x array must have exactly one dimension.")
  | Floats x => scipy.interp1d x varall ctime
  end.

Definition get_E5_ss_2D_var (fh : list Dataset) (varname : string)
  (timi : list nat) (loni lati : nat * nat) (times : pytimes) (ctime : Q)
  : result ndarray :=
  let lats := Slice (fst lati) (Some (snd lati + 1)) in
  let lons := Slice (fst loni) (Some (snd loni + 1)) in
  let lonsE := Slice (fst loni) None in
  let lonsW := Slice 0 (Some (snd loni + 1)) in
  let all := Slice 0 None in
  (* at exact time *)
  if (length fh =? 1) && (length timi =? 1) then
    (* not looped over longitude end *)
    varss <-
      (if fst loni <? snd loni then
         f0 <- item fh 0 ;;
         v <- variable f0 varname ;;
         a <- getitem v [Fancy timi; lats; lons] ;;
         Ok (Some (squeeze a))
       else Ok None) ;;
    (* looped over longitude end *)
    varss <-
      (if snd loni <? fst loni then
         f0 <- item fh 0 ;;
         v <- variable f0 varname ;;
         a <- getitem v [Fancy timi; lats; lonsE] ;;
         a0 <- getitem a [Idx 0; all; all] ;;
         b <- getitem v [Fancy timi; lats; lonsW] ;;
         b0 <- getitem b [Idx 0; all; all] ;;
         r <- concatenate a0 b0 1 ;;
         Ok (Some r)
       else Ok varss) ;;
    local "varss" varss
  (* between times in one file: interpolation required *)
  else if (length fh =? 1) && (length timi =? 2) then
    varall <-
      (if fst loni <? snd loni then
         f0 <- item fh 0 ;;
         v <- variable f0 varname ;;
         t0 <- item timi 0 ;;
         t1 <- item timi 1 ;;
         a <- getitem v [Slice t0 (Some (t1 + 1)); lats; lons] ;;
         Ok (Some a)
       else if snd loni <? fst loni then
         f0 <- item fh 0 ;;
         v <- variable f0 varname ;;
         t0 <- item timi 0 ;;
         t1 <- item timi 1 ;;
         a <- getitem v [Slice t0 (Some (t1 + 1)); lats; lonsE] ;;
         b <- getitem v [Slice t0 (Some (t1 + 1)); lats; lonsW] ;;
         r <- concatenate a b 2 ;;
         Ok (Some r)
       else Ok None) ;;
    va <- local "varall" varall ;;
    interp_time times va ctime
  (* between two files *)
  else if (length fh =? 2) && (length timi =? 2) then
    varall <-
      (if fst loni <? snd loni then
         f0 <- item fh 0 ;;
         v0 <- variable f0 varname ;;
         t0 <- item timi 0 ;;
         a <- getitem v0 [Idx t0; lats; lons] ;;
         a' <- newaxis a ;;
         f1 <- item fh 1 ;;
         v1 <- variable f1 varname ;;
         t1 <- item timi 1 ;;
         b <- getitem v1 [Idx t1; lats; lons] ;;
         b' <- newaxis b ;;
         r <- concatenate a' b' 0 ;;
         Ok (Some r)
       else if snd loni <? fst loni then
         f0 <- item fh 0 ;;
         v0 <- variable f0 varname ;;
         t0 <- item timi 0 ;;
         aE <- getitem v0 [Idx t0; lats; lonsE] ;;
         aE' <- newaxis aE ;;
         aW <- getitem v0 [Idx t0; lats; lonsW] ;;
         aW' <- newaxis aW ;;
         a <- concatenate aE' aW' 2 ;;
         f1 <- item fh 1 ;;
         v1 <- variable f1 varname ;;
         t1 <- item timi 1 ;;
         bE <- getitem v1 [Idx t1; lats; lonsE] ;;
         bE' <- newaxis bE ;;
         bW <- getitem v1 [Idx t1; lats; lonsW] ;;
         bW' <- newaxis bW ;;
         b <- concatenate bE' bW' 2 ;;
         r <- concatenate a b 0 ;;
         Ok (Some r)
       else Ok None) ;;
    va <- local "varall" varall ;;
    interp_time times va ctime
  (* any other instance *)
  else Raise (ValueError "Something went wrong in selecting times").

(* ================================================================== *)
(** ** Reference definitions used by the statements *)
(* ================================================================== *)

(** The time stitching common to the readers, over an arbitrary read of
    one file: the first file is read from [timi[0]] on, the last file up
    to [timi[1]], every other file whole, and the pieces are joined along
    axis 0 in file order.  [var_loop] and [levdiff_loop] are instances
    ([var_loop_stitch], [levdiff_loop_stitch]). *)
Definition stitch_step (read : Dataset -> index -> result (option ndarray))
  (n : nat) (timi : nat * nat) (fh : Dataset) (c : nat)
  (varss : option ndarray) : result (option ndarray) :=
  if c =? 0 then read fh (Slice (fst timi) None)
  else if c =? n - 1 then
    varss3 <- read fh (Slice 0 (Some (snd timi + 1))) ;;
    a <- local "varss" varss ;;
    b <- local "varss3" varss3 ;;
    r <- concatenate a b 0 ;;
    Ok (Some r)
  else
    varss3 <- read fh (Slice 0 None) ;;
    a <- local "varss" varss ;;
    b <- local "varss3" varss3 ;;
    r <- concatenate a b 0 ;;
    Ok (Some (squeeze r)).

Fixpoint stitch (read : Dataset -> index -> result (option ndarray))
  (n : nat) (timi : nat * nat) (files : list Dataset) (c : nat)
  (varss : option ndarray) : result (option ndarray) :=
  match files with
  | [] => Ok varss
  | fh :: rest =>
      varss' <- stitch_step read n timi fh c varss ;;
      stitch read n timi rest (S c) varss'
  end.

(** Raw mode at one level index: the read of [read_4D] with the level
    slice replaced by the integer [lev]. *)
Definition read_level (lev : nat) (lati loni : nat * nat)
  (varname : string) (fh : Dataset) (ts : index)
  : result (option ndarray) :=
  let lats := Slice (fst lati) (Some (snd lati + 1)) in
  if fst loni <? snd loni then
    v <- variable fh varname ;;
    a <- getitem v [ts; Idx lev; lats;
                    Slice (fst loni) (Some (snd loni + 1))] ;;
    Ok (Some a)
  else if snd loni <? fst loni then
    v <- variable fh varname ;;
    varss1 <- getitem v [ts; Idx lev; lats; Slice (fst loni) None] ;;
    varss2 <- getitem v [ts; Idx lev; lats;
                         Slice 0 (Some (snd loni + 1))] ;;
    a <- concatenate varss1 varss2 2 ;;
    Ok (Some a)
  else Ok None.

Definition raw_at_level (files : list Dataset) (varname : string)
  (timi : nat * nat) (lev : nat) (lati loni : nat * nat)
  : result ndarray :=
  varss <- stitch (read_level lev lati loni varname) (length files) timi
             files 0 None ;;
  local "varss" varss.

(** The array accumulated in level-difference mode against the arrays
    accumulated by raw mode at the two levels: all three unassigned, or
    the first the elementwise difference of the other two. *)
Definition difference_of (d a b : option ndarray) : Prop :=
  match d, a, b with
  | None, None, None => True
  | Some d, Some a, Some b => wf a /\ wf b /\ subtract a b = Ok d
  | _, _, _ => False
  end.

(** Three reads of one file correspond when the first returns exactly
    when the other two do, and then returns their difference. *)
Definition reads_agree (rd r1 r2 : Dataset -> index -> result (option ndarray))
  (fh : Dataset) : Prop :=
  forall ts,
    (forall x, rd fh ts = Ok x ->
               exists y z, r1 fh ts = Ok y /\ r2 fh ts = Ok z
                           /\ difference_of x y z)
    /\ (forall y z, r1 fh ts = Ok y -> r2 fh ts = Ok z ->
                    exists x, rd fh ts = Ok x /\ difference_of x y z).

(** The stored field of a three-dimensional variable at time index [i],
    restricted to the latitude and longitude window: a raw read. *)
Definition raw_read_2D (fh : Dataset) (varname : string) (i : nat)
  (lati loni : nat * nat) : result ndarray :=
  let lats := Slice (fst lati) (Some (snd lati + 1)) in
  v <- variable fh varname ;;
  if fst loni <? snd loni then
    getitem v [Idx i; lats; Slice (fst loni) (Some (snd loni + 1))]
  else
    a <- getitem v [Idx i; lats; Slice (fst loni) None] ;;
    b <- getitem v [Idx i; lats; Slice 0 (Some (snd loni + 1))] ;;
    concatenate a b 1.

(** Elements of a two- and of a three-dimensional array, [a[r, c]] and
    [v[i, la, lo]], read from the row-major buffer. *)
Definition at2 (a : ndarray) (r c : nat) : Q :=
  nth (r * nth 1 (shape a) 0 + c) (data a) 0%Q.

Definition at3 (v : ndarray) (i la lo : nat) : Q :=
  nth ((i * nth 1 (shape v) 0 + la) * nth 2 (shape v) 0 + lo) (data v) 0%Q.

(** The level, latitude and longitude extents of a window cut from a
    variable that stores [L] levels, [LA] latitudes and [LO] longitudes:
    the level slice excludes [levi[1]], the other two include their
    upper index, and a window across the seam adds up its two pieces. *)
Definition window_extent (L LA LO : nat) (levi lati loni : nat * nat)
  : list nat :=
  [Nat.min (snd levi) L - fst levi;
   Nat.min (snd lati + 1) LA - fst lati;
   if fst loni <? snd loni then Nat.min (snd loni + 1) LO - fst loni
   else (LO - fst loni) + Nat.min (snd loni + 1) LO].

(** Coordinate axes. *)
Definition ascending (l : list Q) : Prop := StronglySorted Qlt l.
Definition descending (l : list Q) : Prop :=
  StronglySorted (fun x y => (y < x)%Q) l.

(** A time within the span of a file, from its first stored time to its
    last: the test [times1[0] <= t <= times1[-1]] of the locators. *)
Definition within (t : Q) (f : Dataset) : Prop :=
  (nth 0 (time f) 0 <= t /\ t <= nth (length (time f) - 1) (time f) 0)%Q.

(** The files of a series hold successive stretches of the time axis. *)
Definition chronological (allfiles : list Dataset) : Prop :=
  StronglySorted Qle (flat_map time allfiles).

(* ================================================================== *)
(** ** Sample files *)
(* ================================================================== *)

Definition ramp (start n : nat) : list Q :=
  map (fun k => inject_Z (Z.of_nat k)) (seq start n).

(** A file on a 3-level, 3-latitude, 4-longitude grid holding two time
    steps from [t0] on, a 4-D field "T" and a 3-D field "CAPE". *)
Definition sample_file (t0 base : nat) : Dataset :=
  mkDataset (ramp t0 2)
            [100; 200; 300]%Q
            [10; 0; -10]%Q
            [0; 90; 180; 270]%Q
            [("T"%string, mk [2; 3; 3; 4] (ramp base 72));
             ("CAPE"%string, mk [2; 3; 4] (ramp base 24))].

Definition file_a : Dataset := sample_file 0 0.
Definition file_b : Dataset := sample_file 2 100.
Definition file_c : Dataset := sample_file 4 200.

(** The same grid with latitude stored south to north. *)
Definition file_north_up : Dataset :=
  mkDataset (ramp 0 2) [100; 200; 300]%Q [-10; 0; 10]%Q
            [0; 90; 180; 270]%Q
            [("T"%string, mk [2; 3; 3; 4] (ramp 0 72))].

(* ================================================================== *)
(** * Properties *)
(* ================================================================== *)

(** ** Comparisons *)

Lemma ltb_lt (x y : Q) : ltb x y = true <-> (x < y)%Q.
Proof.
  unfold ltb. rewrite negb_true_iff.
  destruct (Qle_bool y x) eqn:E.
  - apply Qle_bool_iff in E. split; [discriminate | intro; lra].
  - split; [intros _ | reflexivity].
    destruct (Qlt_le_dec x y) as [H | H]; [exact H |].
    apply Qle_bool_iff in H. congruence.
Qed.

Lemma ltb_ge (x y : Q) : ltb x y = false <-> (y <= x)%Q.
Proof.
  unfold ltb. rewrite negb_false_iff. apply Qle_bool_iff.
Qed.

Lemma leb_le (x y : Q) : leb x y = true <-> (x <= y)%Q.
Proof. apply Qle_bool_iff. Qed.

Lemma leb_gt (x y : Q) : leb x y = false <-> (y < x)%Q.
Proof.
  rewrite <- ltb_lt. unfold ltb, leb.
  destruct (Qle_bool x y); simpl; split; congruence.
Qed.

Lemma between_true (a x b : Q) :
  between a x b = true <-> (a <= x /\ x <= b)%Q.
Proof. unfold between. rewrite andb_true_iff, !leb_le. tauto. Qed.

Lemma between_false (a x b : Q) :
  between a x b = false <-> (x < a \/ b < x)%Q.
Proof. unfold between. rewrite andb_false_iff, !leb_gt. tauto. Qed.

(** ** The time-bracketing cases of [get_E5_ss_2D_var] *)

(** C8.  A call of [get_E5_ss_2D_var] whose numbers of file handles and
    of time indices are not (1,1), (1,2) or (2,2) raises the ValueError
    of the final [else] and returns nothing. *)
Theorem unexpected_combination_raises :
  forall fh varname timi loni lati times ctime,
    (length fh, length timi) <> (1, 1) ->
    (length fh, length timi) <> (1, 2) ->
    (length fh, length timi) <> (2, 2) ->
    get_E5_ss_2D_var fh varname timi loni lati times ctime
    = Raise (ValueError "Something went wrong in selecting times").
Proof.
  intros fh varname timi loni lati times ctime H11 H12 H22.
  unfold get_E5_ss_2D_var.
  destruct (length fh =? 1) eqn:F1; destruct (length timi =? 1) eqn:T1;
    destruct (length timi =? 2) eqn:T2; destruct (length fh =? 2) eqn:F2;
    simpl; try reflexivity;
    repeat match goal with
           | H : (_ =? _) = true |- _ => apply Nat.eqb_eq in H
           end;
    exfalso;
    solve [ apply H11; congruence | apply H12; congruence
          | apply H22; congruence | congruence ].
Qed.

Lemma unexpected_combination_raises_witness :
  get_E5_ss_2D_var [file_a; file_b; file_c] "CAPE" [1; 0] (0, 2) (0, 2)
                   (Floats [1; 2]%Q) (3 # 2)%Q
  = Raise (ValueError "Something went wrong in selecting times").
Proof.
  apply unexpected_combination_raises; simpl; discriminate.
Defined.

(** ** Shapes and buffers of the array operations *)

Lemma bind_ok {A B} (c : result A) (k : A -> result B) (b : B) :
  (x <- c ;; k x) = Ok b -> exists a, c = Ok a /\ k a = Ok b.
Proof. destruct c as [a | e]; simpl; [eauto | discriminate]. Qed.

Ltac bind_inv H :=
  let a := fresh "a" in
  let Ha := fresh "Ha" in
  apply bind_ok in H; destruct H as (a & Ha & H).

Lemma shape_eqb_eq (s1 s2 : list nat) :
  shape_eqb s1 s2 = true <-> s1 = s2.
Proof.
  revert s2; induction s1 as [| n s1 IH]; intros [| m s2]; simpl;
    try (split; [discriminate | congruence]); [tauto |].
  rewrite andb_true_iff, Nat.eqb_eq, IH. split.
  - intros [-> ->]; reflexivity.
  - intros E; injection E; auto.
Qed.

Lemma shape_eqb_refl (s : list nat) : shape_eqb s s = true.
Proof. apply shape_eqb_eq; reflexivity. Qed.

Lemma size_app (s1 s2 : list nat) : size (s1 ++ s2) = size s1 * size s2.
Proof.
  induction s1 as [| n s1 IH]; simpl; [lia |]. rewrite IH; lia.
Qed.

Lemma getitem_slice_hd {v a : ndarray} {lo hi ixs} :
  getitem v (Slice lo hi :: ixs) = Ok a ->
  hd 0 (shape a) = stop (hd 0 (shape v)) hi - lo.
Proof.
  unfold getitem; intro H. bind_inv H. injection H as <-; simpl.
  destruct (shape v) as [| n sh]; simpl in Ha; [discriminate |].
  bind_inv Ha. injection Ha as <-. reflexivity.
Qed.

Lemma concatenate_inner_hd {a b r : ndarray} {k : nat} :
  concatenate a b (S k) = Ok r -> hd 0 (shape r) = hd 0 (shape a).
Proof.
  unfold concatenate; intro H.
  destruct (negb (length (shape a) =? length (shape b)));
    [discriminate |].
  destruct (negb (S k <? length (shape a))) eqn:E; [discriminate |].
  destruct (_ && _); [| discriminate].
  injection H as <-; simpl.
  destruct (shape a); [discriminate | reflexivity].
Qed.

(** ** One file: the upper time index is not applied *)

Lemma read_4D_time_extent fh varname t0 levi lati loni arr :
  read_4D fh varname (Slice t0 None) levi lati loni = Ok (Some arr) ->
  exists v, variable fh varname = Ok v
            /\ hd 0 (shape arr) = hd 0 (shape v) - t0.
Proof.
  unfold read_4D; intro H.
  destruct (fst loni <? snd loni).
  - bind_inv H. bind_inv H. injection H as <-.
    exists a; split; [assumption |].
    now rewrite (getitem_slice_hd Ha0).
  - destruct (snd loni <? fst loni); [| discriminate].
    bind_inv H. do 3 bind_inv H. injection H as <-.
    exists a; split; [assumption |].
    rewrite (concatenate_inner_hd Ha2).
    now rewrite (getitem_slice_hd Ha0).
Qed.

(** C10.  With exactly one file, [get_E5_ss_4D_var] returns the read of
    the first-file case: its time axis runs from [timi[0]] to the last
    stored time index, and the result is the same for every value of the
    upper index [timi[1]]. *)
Theorem single_file_ignores_upper_time_index :
  forall fh varname t0 t1 levi lati loni arr,
    get_E5_ss_4D_var [fh] varname (t0, t1) levi lati loni = Ok arr ->
    read_4D fh varname (Slice t0 None) levi lati loni = Ok (Some arr)
    /\ (exists v, variable fh varname = Ok v
                  /\ hd 0 (shape arr) = hd 0 (shape v) - t0)
    /\ (forall t1',
          get_E5_ss_4D_var [fh] varname (t0, t1') levi lati loni = Ok arr).
Proof.
  intros fh varname t0 t1 levi lati loni arr H.
  unfold get_E5_ss_4D_var in H; simpl in H.
  bind_inv H. bind_inv Ha. injection Ha as <-.
  destruct a0 as [r |]; simpl in H; [| discriminate].
  injection H as ->.
  split; [assumption |]. split.
  - eapply read_4D_time_extent; eassumption.
  - intro t1'. unfold get_E5_ss_4D_var; simpl.
    rewrite Ha0; reflexivity.
Qed.

Lemma single_file_ignores_upper_time_index_witness :
  read_4D file_a "T" (Slice 1 None) (0, 2) (0, 2) (3, 1)
  = Ok (Some (mk [1; 2; 3; 3]
                 [39; 36; 37; 43; 40; 41; 47; 44; 45;
                  51; 48; 49; 55; 52; 53; 59; 56; 57]%Q))
  /\ (exists v, variable file_a "T" = Ok v
                /\ hd 0 [1; 2; 3; 3] = hd 0 (shape v) - 1)
  /\ (forall t1',
        get_E5_ss_4D_var [file_a] "T" (1, t1') (0, 2) (0, 2) (3, 1)
        = Ok (mk [1; 2; 3; 3]
                 [39; 36; 37; 43; 40; 41; 47; 44; 45;
                  51; 48; 49; 55; 52; 53; 59; 56; 57]%Q)).
Proof.
  apply (@single_file_ignores_upper_time_index
           file_a "T"%string 1 0 (0, 2) (0, 2) (3, 1)).
  vm_compute. reflexivity.
Defined.

(** ** Well-formed arrays *)

Lemma flat_map_length_const {A} (f : A -> list Q) (l : list A) (c : nat) :
  (forall k, In k l -> length (f k) = c) ->
  length (flat_map f l) = length l * c.
Proof.
  induction l as [| k l IH]; intro H; simpl; [reflexivity |].
  rewrite length_app, (H k (or_introl eq_refl)), IH; [reflexivity |].
  intros j Hj; apply H; right; exact Hj.
Qed.

Lemma block_length (m k n : nat) (d : list Q) :
  length d = n * m -> k < n -> length (block m k d) = m.
Proof.
  intros Hd Hk. unfold block.
  rewrite length_firstn, length_skipn, Hd. nia.
Qed.

Lemma selected_in_range (n : nat) (ix : index) :
  forallb (fun i => i <? n)
          (match ix with Slice _ _ => [] | _ => selected n ix end) = true ->
  forall k, In k (selected n ix) -> k < n.
Proof.
  intros H k Hk. destruct ix as [i | lo hi | l]; simpl in *.
  - destruct Hk as [<- | []]. rewrite andb_true_r in H.
    now apply Nat.ltb_lt.
  - apply in_seq in Hk. destruct hi as [h |]; simpl in Hk; lia.
  - rewrite forallb_forall in H. apply Nat.ltb_lt. now apply H.
Qed.

Lemma getitem_data_length (ixs : list index) :
  forall sh r d,
    getitem_shape ixs sh = Ok r ->
    length d = size sh ->
    length (getitem_data ixs sh d) = size r.
Proof.
  induction ixs as [| ix ixs IH]; intros sh r d Hs Hd.
  - simpl in Hs. injection Hs as <-. destruct sh; exact Hd.
  - destruct sh as [| n sh]; [discriminate |].
    simpl in Hs.
    destruct (forallb _ _) eqn:Hsel; [| discriminate].
    bind_inv Hs. injection Hs as <-.
    simpl getitem_data.
    rewrite (flat_map_length_const _ _ (c := size a)).
    + destruct ix as [i | lo hi | l]; simpl;
        rewrite ?length_seq; lia.
    + intros k Hk. apply IH; [assumption |].
      apply block_length with (n := n).
      * simpl in Hd. lia.
      * eapply selected_in_range; eassumption.
Qed.

Lemma getitem_wf (v a : ndarray) (ixs : list index) :
  wf v -> getitem v ixs = Ok a -> wf a.
Proof.
  unfold getitem, wf; intros Hv H. bind_inv H. injection H as <-; simpl.
  now apply getitem_data_length.
Qed.

Lemma interleave_length (outer ma mb : nat) :
  forall da db,
    length da = outer * ma -> length db = outer * mb ->
    length (interleave outer ma mb da db) = outer * (ma + mb).
Proof.
  induction outer as [| o IH]; intros da db Ha Hb; simpl; [reflexivity |].
  rewrite !length_app, !length_firstn, IH
    by (rewrite length_skipn; lia).
  simpl in Ha, Hb. nia.
Qed.

Lemma size_split (k : nat) (sh : list nat) :
  size sh = size (firstn k sh) * size (skipn k sh).
Proof. rewrite <- size_app, firstn_skipn; reflexivity. Qed.

Lemma skipn_cons_nth {k : nat} {sh : list nat} :
  k < length sh -> skipn k sh = nth k sh 0 :: skipn (S k) sh.
Proof.
  revert sh; induction k as [| k IH]; intros [| n sh] H; simpl in *;
    try lia; [reflexivity |].
  apply IH; lia.
Qed.

Lemma concatenate_wf (a b r : ndarray) (k : nat) :
  wf a -> wf b -> concatenate a b k = Ok r -> wf r.
Proof.
  unfold concatenate, wf; intros Ha Hb H.
  set (ra := skipn (S k) (shape a)) in *.
  set (rb := skipn (S k) (shape b)) in *.
  destruct (length (shape a) =? length (shape b)) eqn:El;
    [| discriminate]; cbn [negb] in H.
  destruct (k <? length (shape a)) eqn:Ek; [| discriminate];
    cbn [negb] in H.
  destruct (_ && _) eqn:Es; [| discriminate].
  injection H as <-; cbn [shape data].
  apply andb_true_iff in Es; destruct Es as [E1 E2].
  apply shape_eqb_eq in E1, E2.
  apply Nat.eqb_eq in El. apply Nat.ltb_lt in Ek.
  assert (Ekb : k < length (shape b)) by lia.
  rewrite (size_split k (shape a)) in Ha.
  rewrite (size_split k (shape b)), <- E1 in Hb.
  rewrite interleave_length by assumption.
  rewrite size_app. f_equal.
  rewrite (skipn_cons_nth Ek), (skipn_cons_nth Ekb).
  fold ra rb. rewrite <- E2.
  change (size (nth k (shape a) 0 :: ra))
    with (nth k (shape a) 0 * size ra).
  change (size (nth k (shape b) 0 :: ra))
    with (nth k (shape b) 0 * size ra).
  change (size ((nth k (shape a) 0 + nth k (shape b) 0) :: ra))
    with ((nth k (shape a) 0 + nth k (shape b) 0) * size ra).
  nia.
Qed.

Lemma squeeze_wf (a : ndarray) : wf a -> wf (squeeze a).
Proof.
  unfold wf, squeeze; simpl; intros ->.
  induction (shape a) as [| n sh IH]; simpl; [reflexivity |].
  destruct (n =? 1) eqn:E; simpl.
  - apply Nat.eqb_eq in E; subst. lia.
  - now rewrite IH.
Qed.

(** Joining along axis 0 appends the buffers. *)
Lemma concatenate_axis0 (a b r : ndarray) :
  wf a -> wf b -> concatenate a b 0 = Ok r ->
  shape r = (hd 0 (shape a) + hd 0 (shape b)) :: tl (shape a)
  /\ tl (shape b) = tl (shape a)
  /\ data r = data a ++ data b.
Proof.
  unfold concatenate, wf; intros Ha Hb H.
  destruct (length (shape a) =? length (shape b)) eqn:El;
    [| discriminate]; cbn [negb] in H.
  destruct (0 <? length (shape a)) eqn:E; [| discriminate];
    cbn [negb] in H.
  destruct (_ && _) eqn:Es; [| discriminate].
  injection H as <-.
  apply andb_true_iff in Es; destruct Es as [_ E2].
  apply shape_eqb_eq in E2.
  apply Nat.eqb_eq in El. apply Nat.ltb_lt in E.
  destruct (shape a) as [| na sa]; [simpl in E; lia |].
  destruct (shape b) as [| nb sb]; [discriminate |].
  simpl in E2; subst sb. cbn [shape data hd tl nth firstn skipn app].
  split; [reflexivity |]. split; [reflexivity |].
  unfold size in *. cbn [fold_right interleave] in *.
  rewrite <- Ha, <- Hb, !firstn_all, app_nil_r. reflexivity.
Qed.

(** ** The stitched time axis *)

Lemma concatenate_axis0_ok (a b : ndarray) (na nb : nat) (s : list nat) :
  wf a -> wf b -> shape a = na :: s -> shape b = nb :: s ->
  concatenate a b 0 = Ok (mk ((na + nb) :: s) (data a ++ data b)).
Proof.
  intros Ha Hb Sa Sb.
  destruct (concatenate a b 0) as [r | e] eqn:E.
  - destruct (concatenate_axis0 Ha Hb E) as (Hs & _ & Hd).
    rewrite Sa, Sb in Hs; simpl in Hs.
    destruct r as [sr dr]; simpl in *; subst; reflexivity.
  - exfalso. unfold concatenate in E. rewrite Sa, Sb in E.
    cbn [length firstn skipn] in E.
    rewrite Nat.eqb_refl in E; simpl in E.
    rewrite shape_eqb_refl in E. discriminate.
Qed.

Lemma read_4D_wf fh varname ts levi lati loni v a :
  variable fh varname = Ok v -> wf v ->
  read_4D fh varname ts levi lati loni = Ok (Some a) -> wf a.
Proof.
  unfold read_4D; intros Hv Wv H. rewrite Hv in H; simpl in H.
  destruct (fst loni <? snd loni).
  - bind_inv H. injection H as <-. eapply getitem_wf; eassumption.
  - destruct (snd loni <? fst loni); [| discriminate].
    do 3 bind_inv H. injection H as <-.
    eapply concatenate_wf; [| | eassumption];
      eapply getitem_wf; eassumption.
Qed.

(** Two files: the result is the read of the first file from [timi[0]]
    on followed by the read of the second file up to [timi[1]]; its time
    extent is the sum of the two, each stored row appearing once. *)
Lemma two_file_time_axis f0 f1 varname t0 t1 levi lati loni v0 v1 a b
      na nb s :
  variable f0 varname = Ok v0 -> wf v0 ->
  variable f1 varname = Ok v1 -> wf v1 ->
  read_4D f0 varname (Slice t0 None) levi lati loni = Ok (Some a) ->
  read_4D f1 varname (Slice 0 (Some (t1 + 1))) levi lati loni
  = Ok (Some b) ->
  shape a = na :: s -> shape b = nb :: s ->
  get_E5_ss_4D_var [f0; f1] varname (t0, t1) levi lati loni
  = Ok (mk ((na + nb) :: s) (data a ++ data b)).
Proof.
  intros Hv0 W0 Hv1 W1 Ra Rb Sa Sb.
  unfold get_E5_ss_4D_var; cbn [length var_loop Nat.eqb Nat.sub fst snd].
  rewrite Ra; cbn [bind]. rewrite Rb; cbn [bind local].
  rewrite (concatenate_axis0_ok (na := na) (nb := nb) (s := s));
    try assumption.
  - reflexivity.
  - eapply read_4D_wf; [exact Hv0 | |]; eassumption.
  - eapply read_4D_wf; [exact Hv1 | |]; eassumption.
Qed.

(** C3.  Three files and a window of a single latitude row: the middle
    case squeezes the joined array to three dimensions, and joining the
    four-dimensional read of the last file to it raises instead of
    returning the concatenation in file order. *)
Theorem middle_file_squeeze_breaks_stitching :
  (exists a b c,
     read_4D file_a "T" (Slice 1 None) (0, 2) (1, 1) (0, 3) = Ok (Some a)
     /\ read_4D file_b "T" (Slice 0 None) (0, 2) (1, 1) (0, 3)
        = Ok (Some b)
     /\ read_4D file_c "T" (Slice 0 (Some 1)) (0, 2) (1, 1) (0, 3)
        = Ok (Some c)
     /\ shape a = [1; 2; 1; 4] /\ shape b = [2; 2; 1; 4]
     /\ shape c = [1; 2; 1; 4])
  /\ get_E5_ss_4D_var [file_a; file_b; file_c] "T" (1, 0) (0, 2) (1, 1)
                      (0, 3)
     = Raise (ValueError
                "all the input arrays must have same number of dimensions")
  /\ get_E5_ss_4D [file_a; file_b; file_c] "T" 1 4 100 300 0 0 0 270
     = Raise (ValueError
                "all the input arrays must have same number of dimensions").
Proof.
  split; [| split; vm_compute; reflexivity].
  do 3 eexists. repeat split; vm_compute; reflexivity.
Qed.

(** C4.  On a query over three files the returned array agrees with the
    returned time, latitude and longitude vectors, but its level axis
    has two entries where the returned level list has three: the level
    slice of the read stops one short of [levi[1]]. *)
Theorem level_extent_is_one_short :
  exists var times levs lats lons,
    get_E5_ss_4D [file_a; file_b; file_c] "T" 1 4 100 300 (-10) 10 0 270
    = Ok (var, times, levs, lats, lons)
    /\ shape var = [4; 2; 3; 4]
    /\ length times = 4
    /\ shape levs = [3]
    /\ shape lats = [3]
    /\ shape lons = [4].
Proof.
  do 5 eexists. repeat split; vm_compute; reflexivity.
Qed.

(** ** Nearest-neighbour index *)

Lemma closest_cons (c : nat * Q) (rest : list (nat * Q)) :
  mfns.closest (c :: rest)
  = match mfns.closest rest with
    | None => Some c
    | Some b => if leb (snd c) (snd b) then Some c else Some b
    end.
Proof. reflexivity. Qed.

Section Closest.

Variable f : Q -> Q.

Lemma closest_combine (l : list Q) :
  forall s, l <> [] ->
  exists i,
    mfns.closest (combine (seq s (length l)) (map f l))
    = Some (s + i, f (nth i l 0%Q))
    /\ i < length l
    /\ (forall j, j < length l -> (f (nth i l 0) <= f (nth j l 0))%Q)
    /\ (forall j, j < i -> (f (nth i l 0) < f (nth j l 0))%Q).
Proof.
  induction l as [| x l IH]; intros s Hne; [congruence |].
  destruct l as [| y l'].
  - exists 0. simpl. rewrite Nat.add_0_r.
    repeat split; [lia | | intros; lia].
    intros [| j] Hj; [cbn [nth]; lra | simpl in Hj; lia].
  - destruct (IH (S s)) as (i & Hc & Hi & Hmin & Hfirst); [discriminate |].
    change (combine (seq s (length (x :: y :: l'))) (map f (x :: y :: l')))
      with ((s, f x) :: combine (seq (S s) (length (y :: l')))
                                (map f (y :: l'))).
    rewrite closest_cons, Hc. cbn [snd].
    destruct (leb (f x) (f (nth i (y :: l') 0%Q))) eqn:E.
    + apply leb_le in E. exists 0. rewrite Nat.add_0_r.
      repeat split; [simpl; lia | | intros; lia].
      intros [| j] Hj; [cbn [nth]; lra |].
      change (nth (S j) (x :: y :: l') 0%Q) with (nth j (y :: l') 0%Q).
      change (nth 0 (x :: y :: l') 0%Q) with x.
      assert (Hj' : j < length (y :: l')) by (simpl in Hj |- *; lia).
      specialize (Hmin j Hj'). lra.
    + apply leb_gt in E. exists (S i).
      replace (s + S i) with (S s + i) by lia.
      repeat split; [simpl in *; lia | |].
      * intros j Hj.
        change (nth (S i) (x :: y :: l') 0%Q) with (nth i (y :: l') 0%Q).
        destruct j as [| j].
        -- change (nth 0 (x :: y :: l') 0%Q) with x. lra.
        -- change (nth (S j) (x :: y :: l') 0%Q) with (nth j (y :: l') 0%Q).
           apply Hmin. simpl in Hj |- *; lia.
      * intros j Hj.
        change (nth (S i) (x :: y :: l') 0%Q) with (nth i (y :: l') 0%Q).
        destruct j as [| j].
        -- change (nth 0 (x :: y :: l') 0%Q) with x. lra.
        -- change (nth (S j) (x :: y :: l') 0%Q) with (nth j (y :: l') 0%Q).
           apply Hfirst. lia.
Qed.

End Closest.

(** The distance minimised by [k_closest]. *)
Definition dist (v x : Q) : Q := Qabs (x - v).

Lemma k_closest_one (l : list Q) (v : Q) :
  l <> [] ->
  exists i,
    mfns.k_closest l v 1 = [i]
    /\ i < length l
    /\ (forall j, j < length l ->
                  (dist v (nth i l 0) <= dist v (nth j l 0))%Q)
    /\ (forall j, j < i -> (dist v (nth i l 0) < dist v (nth j l 0))%Q).
Proof.
  intro Hne.
  destruct (closest_combine (fun x => Qabs (x - v)) 0 Hne)
    as (i & Hc & Hi & Hmin & Hfirst).
  exists i. unfold mfns.k_closest, mfns.select. rewrite Hc.
  repeat split; assumption.
Qed.

Lemma k_closest_one_inv (l : list Q) (v : Q) (i : nat) :
  mfns.k_closest l v 1 = [i] ->
  i < length l
  /\ (forall j, j < length l ->
                (dist v (nth i l 0) <= dist v (nth j l 0))%Q)
  /\ (forall j, j < i -> (dist v (nth i l 0) < dist v (nth j l 0))%Q).
Proof.
  intro H. destruct l as [| x l]; [discriminate |].
  destruct (@k_closest_one (x :: l) v) as (i' & Hk & Hrest);
    [discriminate |].
  rewrite Hk in H. injection H as <-. exact Hrest.
Qed.

Lemma squeeze_pair_ok (a b : list nat) (p : nat * nat) :
  squeeze_pair a b = Ok p -> a = [fst p] /\ b = [snd p].
Proof.
  destruct a as [| i [| ? ?]]; try discriminate.
  destruct b as [| j [| ? ?]]; try discriminate.
  simpl. intro H; injection H as <-. auto.
Qed.

Lemma sorted_nth (R : Q -> Q -> Prop) (l : list Q) :
  StronglySorted R l ->
  forall i j, i < j -> j < length l -> R (nth i l 0%Q) (nth j l 0%Q).
Proof.
  induction 1 as [| x l Hs IH Hall]; intros i j Hij Hj; [simpl in Hj; lia |].
  destruct j as [| j]; [lia |].
  destruct i as [| i]; cbn [nth].
  - rewrite Forall_forall in Hall. apply Hall, nth_In. simpl in Hj; lia.
  - apply IH; simpl in Hj; lia.
Qed.

Lemma dist_cases (v x : Q) :
  (x <= v /\ dist v x == v - x)%Q \/ (v <= x /\ dist v x == x - v)%Q.
Proof.
  unfold dist. destruct (Qlt_le_dec x v) as [H | H].
  - left. split; [lra |]. rewrite Qabs_neg by lra. ring.
  - right. split; [lra |]. rewrite Qabs_pos by lra. ring.
Qed.

(** On an ascending axis the nearest index grows with the target; on a
    descending axis it shrinks. *)
Lemma nearest_ascending (l : list Q) (v1 v2 : Q) (i1 i2 : nat) :
  ascending l -> (v1 <= v2)%Q ->
  mfns.k_closest l v1 1 = [i1] -> mfns.k_closest l v2 1 = [i2] ->
  i1 <= i2.
Proof.
  intros Hs Hv H1 H2.
  apply k_closest_one_inv in H1, H2.
  destruct H1 as (L1 & Min1 & First1), H2 as (L2 & Min2 & First2).
  destruct (Nat.le_gt_cases i1 i2) as [| Hlt]; [assumption | exfalso].
  pose proof (sorted_nth Hs Hlt L1) as Hx.
  specialize (First1 i2 Hlt). specialize (Min2 i1 L1).
  destruct (dist_cases v1 (nth i1 l 0%Q)) as [[? E1] | [? E1]];
    destruct (dist_cases v1 (nth i2 l 0%Q)) as [[? E2] | [? E2]];
    destruct (dist_cases v2 (nth i1 l 0%Q)) as [[? E3] | [? E3]];
    destruct (dist_cases v2 (nth i2 l 0%Q)) as [[? E4] | [? E4]];
    rewrite E1, E2 in First1; rewrite E3, E4 in Min2; lra.
Qed.

Lemma nearest_descending (l : list Q) (v1 v2 : Q) (i1 i2 : nat) :
  descending l -> (v1 <= v2)%Q ->
  mfns.k_closest l v1 1 = [i1] -> mfns.k_closest l v2 1 = [i2] ->
  i2 <= i1.
Proof.
  intros Hs Hv H1 H2.
  apply k_closest_one_inv in H1, H2.
  destruct H1 as (L1 & Min1 & First1), H2 as (L2 & Min2 & First2).
  destruct (Nat.le_gt_cases i2 i1) as [| Hlt]; [assumption | exfalso].
  pose proof (sorted_nth Hs Hlt L2) as Hx. simpl in Hx.
  specialize (First2 i1 Hlt). specialize (Min1 i2 L2).
  destruct (dist_cases v1 (nth i1 l 0%Q)) as [[? E1] | [? E1]];
    destruct (dist_cases v1 (nth i2 l 0%Q)) as [[? E2] | [? E2]];
    destruct (dist_cases v2 (nth i1 l 0%Q)) as [[? E3] | [? E3]];
    destruct (dist_cases v2 (nth i2 l 0%Q)) as [[? E4] | [? E4]];
    rewrite E3, E4 in First2; rewrite E1, E2 in Min1; lra.
Qed.

(** ** The level window against the level axis of a read *)

(** The level axis of a read is one entry shorter than the level list
    of [get_E5_ss_4D_levels], for every window with start <= end. *)
Lemma level_axis_is_one_short fh varname v lo hi levi lati loni arr
      lev1 lev2 levs (T LA LO : nat) :
  variable fh varname = Ok v ->
  shape v = [T; length (level fh); LA; LO] ->
  get_E5_ss_4D_levels fh lev1 lev2 = Ok (levi, levs) ->
  fst levi <= snd levi ->
  read_4D fh varname (Slice lo hi) levi lati loni = Ok (Some arr) ->
  length (data levs) = nth 1 (shape arr) 0 + 1.
Proof.
  intros Hv Hs Hl Hle Hr.
  unfold get_E5_ss_4D_levels in Hl.
  apply bind_ok in Hl as (p & Hp & Hl). injection Hl as -> <-.
  apply squeeze_pair_ok in Hp. destruct Hp as [_ H2].
  apply k_closest_one_inv in H2. destruct H2 as (Hlt & _).
  cbn [squeeze data array1]. unfold slice.
  rewrite length_firstn, length_skipn.
  unfold read_4D in Hr. rewrite Hv in Hr. cbn [bind] in Hr.
  unfold getitem in Hr. rewrite Hs in Hr.
  cbn [getitem_shape forallb bind shape] in Hr.
  assert (Hstop : stop (length (level fh)) (Some (snd levi)) - fst levi
                  = snd levi - fst levi) by (cbn [stop]; lia).
  rewrite Hstop in Hr.
  destruct (fst loni <? snd loni).
  - injection Hr as <-. cbn [shape nth]. lia.
  - destruct (snd loni <? fst loni); [| discriminate].
    apply bind_ok in Hr as (r & Cr & Hr). injection Hr as <-.
    unfold concatenate in Cr. cbn [shape length] in Cr.
    cbn [Nat.eqb negb Nat.ltb Nat.leb] in Cr.
    destruct (_ && _); [| discriminate].
    injection Cr as <-. cbn [shape nth firstn app]. lia.
Qed.

(** ** Index windows of the coordinate resolver *)

Ltac sorted_list :=
  repeat first [ apply SSorted_nil | apply SSorted_cons
               | apply Forall_nil | apply Forall_cons
               | reflexivity | discriminate ].

Lemma get_E5_ss_4D_coords_inv fh lat1 lat2 lon1 lon2 lati loni lats lons :
  get_E5_ss_4D_coords fh lat1 lat2 lon1 lon2 = Ok (lati, loni, lats, lons) ->
  mfns.k_closest (latitude fh) lat2 1 = [fst lati]
  /\ mfns.k_closest (latitude fh) lat1 1 = [snd lati]
  /\ mfns.k_closest (longitude fh) (normalize_lon lon1) 1 = [fst loni]
  /\ mfns.k_closest (longitude fh) (normalize_lon lon2) 1 = [snd loni]
  /\ fst loni <> snd loni
  /\ data lats = slice (fst lati) (snd lati + 1) (latitude fh)
  /\ (snd loni < fst loni ->
      lons = array1 (map signed_lon (slice_from (fst loni) (longitude fh))
                     ++ slice 0 (snd loni + 1) (longitude fh))).
Proof.
  unfold get_E5_ss_4D_coords; intro H.
  bind_inv H. bind_inv H.
  apply squeeze_pair_ok in Ha, Ha0.
  destruct Ha as [La1 La2], Ha0 as [Lo1 Lo2].
  destruct (snd a0 <? fst a0) eqn:Ew.
  - cbn [local bind] in H. injection H as <- <- <- <-.
    apply Nat.ltb_lt in Ew.
    repeat split; try assumption; try lia; intros _; reflexivity.
  - destruct (fst a0 <? snd a0) eqn:En; [| discriminate].
    cbn [local bind] in H. injection H as <- <- <- <-.
    apply Nat.ltb_lt in En. apply Nat.ltb_ge in Ew.
    repeat split; try assumption; try lia; intros; lia.
Qed.

(** C9, counterexample.  Over a latitude axis stored in ascending order
    and bounds [lat1 <= lat2], the returned window has
    [lati[0] > lati[1]] and the sliced latitude list is empty. *)
Lemma ascending_latitude_window_is_reversed :
  ascending (latitude file_north_up)
  /\ (-10 <= 10)%Q
  /\ get_E5_ss_4D_coords file_north_up (-10) 10 0 180
     = Ok ((2, 0), (0, 2), mk [0] [], mk [3] [0; 90; 180]%Q)
  /\ ~ (2 <= 0).
Proof.
  split; [unfold ascending; simpl; sorted_list |].
  split; [discriminate |].
  split; [vm_compute; reflexivity | lia].
Qed.

(** C9, amended.  Both indices of the latitude and longitude windows
    returned by [get_E5_ss_4D_coords] are valid positions.  The longitude
    window of a request with [lon1 <= lon2] (after normalisation) over
    an ascending axis has start < end.  The latitude window is
    (index nearest [lat2], index nearest [lat1]): for [lat1 <= lat2] it
    has start <= end, and a non-empty latitude list, over a descending
    latitude axis, and end <= start over an ascending one. *)
Theorem index_window_follows_axis_order :
  forall fh lat1 lat2 lon1 lon2 lati loni lats lons,
    get_E5_ss_4D_coords fh lat1 lat2 lon1 lon2
    = Ok (lati, loni, lats, lons) ->
    (lat1 <= lat2)%Q ->
    (fst lati < length (latitude fh) /\ snd lati < length (latitude fh)
     /\ fst loni < length (longitude fh)
     /\ snd loni < length (longitude fh))
    /\ (ascending (longitude fh) ->
        (normalize_lon lon1 <= normalize_lon lon2)%Q ->
        fst loni < snd loni)
    /\ (descending (latitude fh) ->
        fst lati <= snd lati /\ data lats <> [])
    /\ (ascending (latitude fh) -> snd lati <= fst lati).
Proof.
  intros fh lat1 lat2 lon1 lon2 lati loni lats lons H Hlat.
  apply get_E5_ss_4D_coords_inv in H.
  destruct H as (La1 & La2 & Lo1 & Lo2 & Hne & Hlats & _).
  pose proof (k_closest_one_inv _ _ La1) as (V1 & _).
  pose proof (k_closest_one_inv _ _ La2) as (V2 & _).
  pose proof (k_closest_one_inv _ _ Lo1) as (V3 & _).
  pose proof (k_closest_one_inv _ _ Lo2) as (V4 & _).
  split; [auto |]. split; [| split].
  - intros Hs Hlon.
    pose proof (nearest_ascending Hs Hlon Lo1 Lo2). lia.
  - intros Hs.
    pose proof (nearest_descending Hs Hlat La2 La1) as Hle.
    split; [assumption |].
    rewrite Hlats. unfold slice. intro E.
    apply (f_equal (@length Q)) in E.
    rewrite length_firstn, length_skipn in E. simpl in E. lia.
  - intros Hs. exact (nearest_ascending Hs Hlat La2 La1).
Qed.

Lemma index_window_follows_axis_order_witness :
  (fst (0, 2) < length (latitude file_a)
   /\ snd (0, 2) < length (latitude file_a)
   /\ fst (1, 3) < length (longitude file_a)
   /\ snd (1, 3) < length (longitude file_a))
  /\ fst (1, 3) < snd (1, 3)
  /\ fst (0, 2) <= snd (0, 2)
  /\ data (mk [3] [10; 0; -10]%Q) <> [].
Proof.
  destruct (@index_window_follows_axis_order
              file_a (-10) 10 90 (-90) (0, 2) (1, 3)
              (mk [3] [10; 0; -10]%Q) (mk [3] [90; 180; 270]%Q))
    as (Hvalid & Hlon & Hdesc & _).
  - vm_compute. reflexivity.
  - discriminate.
  - split; [exact Hvalid |]. split.
    + apply Hlon; [unfold ascending; simpl; sorted_list | discriminate].
    + apply Hdesc. unfold descending; simpl; sorted_list.
Defined.

(** The level window is (index nearest [lev1], index nearest [lev2]). *)
Lemma get_E5_ss_4D_levels_window fh lev1 lev2 levi levs :
  get_E5_ss_4D_levels fh lev1 lev2 = Ok (levi, levs) ->
  (lev1 <= lev2)%Q ->
  fst levi < length (level fh) /\ snd levi < length (level fh)
  /\ (ascending (level fh) -> fst levi <= snd levi).
Proof.
  unfold get_E5_ss_4D_levels; intros H Hle.
  apply bind_ok in H as (p & Hp & H). injection H as -> _.
  apply squeeze_pair_ok in Hp. destruct Hp as [H1 H2].
  pose proof (k_closest_one_inv _ _ H1) as (V1 & _).
  pose proof (k_closest_one_inv _ _ H2) as (V2 & _).
  repeat split; try assumption.
  intro Hs. exact (nearest_ascending Hs Hle H1 H2).
Qed.

(** The windows of the centre-and-half-width resolver: the latitude
    window is (index nearest the upper bound, index nearest the lower
    bound), as in [get_E5_ss_4D_coords]. *)
Lemma get_E5_ss_2D_coords_window fh clon clat hda loni lati lons lats :
  get_E5_ss_2D_coords fh clon clat hda = Ok (loni, lati, lons, lats) ->
  (0 <= hda)%Q -> (-90 <= clat /\ clat <= 90)%Q ->
  (fst lati < length (latitude fh) /\ snd lati < length (latitude fh)
   /\ fst loni < length (longitude fh)
   /\ snd loni < length (longitude fh))
  /\ (descending (latitude fh) -> fst lati <= snd lati)
  /\ (ascending (latitude fh) -> snd lati <= fst lati).
Proof.
  unfold get_E5_ss_2D_coords; intros H Hh [Hlo Hhi].
  apply bind_ok in H as (lonN & _ & H).
  apply bind_ok in H as (lon1 & _ & H).
  apply bind_ok in H as (lon0 & _ & H).
  apply bind_ok in H as (la & Hla & H).
  apply bind_ok in H as (lo & Hlo' & H).
  apply bind_ok in H as (l & _ & H).
  injection H as -> -> _ _.
  apply squeeze_pair_ok in Hla, Hlo'.
  destruct Hla as [A1 A2], Hlo' as [B1 B2].
  pose proof (k_closest_one_inv _ _ A1) as (V1 & _).
  pose proof (k_closest_one_inv _ _ A2) as (V2 & _).
  pose proof (k_closest_one_inv _ _ B1) as (V3 & _).
  pose proof (k_closest_one_inv _ _ B2) as (V4 & _).
  assert (Hbounds :
            ((if ltb (clat - hda) (-90) then -90 else clat - hda)
             <= (if ltb 90 (clat + hda) then 90 else clat + hda))%Q).
  { destruct (ltb (clat - hda) (-90)) eqn:E1;
      destruct (ltb 90 (clat + hda)) eqn:E2;
      rewrite ?ltb_lt, ?ltb_ge in *; lra. }
  split; [auto |]. split; intro Hs.
  - exact (nearest_descending Hs Hbounds A2 A1).
  - exact (nearest_ascending Hs Hbounds A2 A1).
Qed.

(** ** Longitudes of a window across the seam *)

Lemma sorted_app (R : Q -> Q -> Prop) (l1 l2 : list Q) :
  StronglySorted R l1 -> StronglySorted R l2 ->
  (forall x y, In x l1 -> In y l2 -> R x y) ->
  StronglySorted R (l1 ++ l2).
Proof.
  induction 1 as [| x l1 Hs IH Hall]; intros H2 Hc; simpl; [assumption |].
  constructor.
  - apply IH; [assumption |]. intros; apply Hc; simpl; auto.
  - apply Forall_app; split; [assumption |].
    apply Forall_forall; intros y Hy. apply Hc; simpl; auto.
Qed.

Lemma In_firstn (l : list Q) (n : nat) (x : Q) :
  In x (firstn n l) -> In x l.
Proof.
  intro H. rewrite <- (firstn_skipn n l). apply in_or_app; auto.
Qed.

Lemma sorted_skipn (R : Q -> Q -> Prop) (l : list Q) (n : nat) :
  StronglySorted R l -> StronglySorted R (skipn n l).
Proof.
  intro H; revert n; induction H as [| x l Hs IH Hall]; intros [| n];
    simpl; try constructor; auto.
Qed.

Lemma sorted_firstn (R : Q -> Q -> Prop) (l : list Q) (n : nat) :
  StronglySorted R l -> StronglySorted R (firstn n l).
Proof.
  intro H; revert n; induction H as [| x l Hs IH Hall]; intros [| n];
    simpl; try constructor; auto.
  rewrite Forall_forall in *. intros y Hy.
  apply Hall. eapply In_firstn; exact Hy.
Qed.

Lemma In_skipn (l : list Q) (n : nat) (x : Q) :
  In x (skipn n l) -> exists k, n <= k /\ k < length l /\ nth k l 0%Q = x.
Proof.
  revert n; induction l as [| y l IH]; intros [| n] H;
    try (simpl in H; contradiction).
  - destruct (In_nth _ _ 0%Q H) as (k & Hk & E).
    exists k; split; [lia | split; assumption].
  - destruct (IH n H) as (k & Hk & Hl & E).
    exists (S k); simpl; repeat split; [lia | lia | assumption].
Qed.

(** Past 180 degrees the conversion to signed degrees is increasing and
    lands below zero. *)
Lemma sorted_signed (l : list Q) :
  ascending l ->
  Forall (fun x => (180 <= x /\ x < 360)%Q) l ->
  ascending (map signed_lon l)
  /\ Forall (fun y => (y < 0)%Q) (map signed_lon l).
Proof.
  unfold ascending.
  induction 1 as [| x l Hs IH Hall]; intro Hr; simpl.
  - split; constructor.
  - inversion Hr as [| ? ? Hx Hl]; subst.
    destruct (IH Hl) as [IH1 IH2].
    assert (Ex : signed_lon x = (x - 360)%Q).
    { unfold signed_lon.
      destruct (ltb x 180) eqn:E; [apply ltb_lt in E; lra | reflexivity]. }
    split; constructor; try assumption.
    + rewrite Forall_forall in *. intros y Hy.
      apply in_map_iff in Hy. destruct Hy as (z & <- & Hz).
      specialize (Hall z Hz). specialize (Hl z Hz).
      rewrite Ex. unfold signed_lon.
      destruct (ltb z 180) eqn:E; [apply ltb_lt in E |]; lra.
    + rewrite Ex. lra.
Qed.

(** C2, counterexample.  [get_E5_ss_2D_coords] returns the two stretches
    of a window across the seam unconverted, so the vector steps down at
    the seam; and [get_E5_ss_4D_coords] converts every value past 180 of
    the first stretch, which steps down when that stretch starts below
    180. *)
Lemma wraparound_longitudes_not_increasing :
  get_E5_ss_2D_coords file_a 0 0 90
  = Ok ((3, 1), (0, 2), mk [3] [270; 0; 90]%Q, mk [3] [10; 0; -10]%Q)
  /\ ~ ascending [270; 0; 90]%Q
  /\ get_E5_ss_4D_coords file_a (-10) 10 90 0
     = Ok ((0, 2), (1, 0), mk [3] [10; 0; -10]%Q,
           mk [4] [90; -180; -90; 0]%Q)
  /\ ~ ascending [90; -180; -90; 0]%Q.
Proof.
  split; [vm_compute; reflexivity |].
  split.
  - intro H. inversion H as [| ? ? _ Hall]; subst.
    inversion Hall as [| ? ? Hlt _]; subst. discriminate Hlt.
  - split; [vm_compute; reflexivity |].
    intro H. inversion H as [| ? ? _ Hall]; subst.
    inversion Hall as [| ? ? Hlt _]; subst. discriminate Hlt.
Qed.

(** C2, amended.  For a window across the seam ([loni[0] > loni[1]]),
    [get_E5_ss_4D_coords] returns the axis values from the start index
    to the end of the axis, each value not below 180 lowered by 360,
    followed by the values from index 0 to the end index; over an
    ascending axis within [0,360) whose value at the start index is at
    least 180 this vector is increasing.  [get_E5_ss_2D_coords] returns
    the same two stretches without conversion. *)
Theorem wraparound_longitudes :
  forall fh lat1 lat2 lon1 lon2 clon clat hda,
    (forall lati loni lats lons,
        get_E5_ss_4D_coords fh lat1 lat2 lon1 lon2
        = Ok (lati, loni, lats, lons) ->
        snd loni < fst loni ->
        lons = array1 (map signed_lon (slice_from (fst loni) (longitude fh))
                       ++ slice 0 (snd loni + 1) (longitude fh))
        /\ (ascending (longitude fh) ->
            Forall (fun x => (0 <= x /\ x < 360)%Q) (longitude fh) ->
            (180 <= nth (fst loni) (longitude fh) 0)%Q ->
            ascending (data lons)))
    /\ (forall loni lati lons lats,
           get_E5_ss_2D_coords fh clon clat hda
           = Ok (loni, lati, lons, lats) ->
           snd loni < fst loni ->
           lons = array1 (slice_from (fst loni) (longitude fh)
                          ++ slice 0 (snd loni + 1) (longitude fh))).
Proof.
  intros fh lat1 lat2 lon1 lon2 clon clat hda. split.
  - intros lati loni lats lons H Hw.
    apply get_E5_ss_4D_coords_inv in H.
    destruct H as (_ & _ & _ & _ & _ & _ & Hlons).
    specialize (Hlons Hw). split; [assumption |].
    intros Hs Hr H180. subst lons. cbn [data array1].
    unfold slice, slice_from. rewrite Nat.sub_0_r. cbn [skipn].
    assert (Hr' : Forall (fun x => (180 <= x /\ x < 360)%Q)
                         (skipn (fst loni) (longitude fh))).
    { apply Forall_forall; intros x Hx.
      destruct (In_skipn _ _ _ Hx) as (k & Hk & Hl & <-).
      rewrite Forall_forall in Hr.
      pose proof (Hr _ (nth_In _ 0%Q Hl)) as [_ Hhi].
      split; [| assumption].
      destruct (Nat.eq_dec (fst loni) k) as [<- | Hne]; [assumption |].
      assert (Hlt : fst loni < k) by lia.
      pose proof (sorted_nth Hs Hlt Hl). lra. }
    destruct (sorted_signed (sorted_skipn (fst loni) Hs) Hr')
      as [S1 Neg].
    apply sorted_app; [assumption | now apply sorted_firstn |].
    intros x y Hx Hy.
    rewrite Forall_forall in Neg, Hr. specialize (Neg x Hx).
    apply In_firstn in Hy. pose proof (Hr y Hy). lra.
  - intros loni lati lons lats H Hw.
    unfold get_E5_ss_2D_coords in H.
    do 6 bind_inv H.
    apply Nat.ltb_lt in Hw.
    injection H as E1 E2 E3 E4. subst a3.
    rewrite Hw in Ha4. cbn [local] in Ha4. congruence.
Qed.

Lemma wraparound_longitudes_witness :
  (mk [3] [-90; 0; 90]%Q
   = array1 (map signed_lon (slice_from 3 (longitude file_a))
             ++ slice 0 (1 + 1) (longitude file_a))
   /\ ascending [-90; 0; 90]%Q)
  /\ mk [3] [270; 0; 90]%Q
     = array1 (slice_from 3 (longitude file_a)
               ++ slice 0 (1 + 1) (longitude file_a)).
Proof.
  destruct (@wraparound_longitudes file_a (-10) 10 (-90) 90 0 0 90)
    as [H4 H2].
  split.
  - destruct (H4 (0, 2) (3, 1) (mk [3] [10; 0; -10]%Q)
                 (mk [3] [-90; 0; 90]%Q)) as [E Hs].
    + vm_compute. reflexivity.
    + simpl. lia.
    + split; [exact E |].
      apply Hs.
      * unfold ascending; simpl; sorted_list.
      * simpl. repeat constructor; discriminate.
      * simpl. discriminate.
  - apply (H2 (3, 1) (0, 2) (mk [3] [270; 0; 90]%Q)
              (mk [3] [10; 0; -10]%Q)).
    + vm_compute. reflexivity.
    + simpl. lia.
Defined.

(** ** Requests outside the stored time span *)

(** C1, counterexample.  For a time after the last stored time
    [get_E5_ss_fiti] returns the last file with its two nearest indices
    and [get_E5_ss_files] returns the files collected so far; neither
    raises.  [get_E5_ss_4D_fiti] has no check either: it stops on a local
    variable that was never assigned. *)
Lemma locators_without_unavailability_error :
  (exists timi,
      get_E5_ss_fiti [file_a; file_b; file_c] 100
      = Ok (file_c, timi, [4; 5]%Q, 100%Q))
  /\ get_E5_ss_files [file_a; file_b; file_c] 1 100
     = Ok [file_a; file_b; file_c]
  /\ get_E5_ss_4D_fiti [file_a; file_b; file_c] 1 100
     = Raise (UnboundLocalError "timi2")
  /\ get_E5_ss_4D_fiti [file_a; file_b; file_c] (-1) 1
     = Raise (UnboundLocalError "times").
Proof.
  split; [eexists; vm_compute; reflexivity |].
  repeat split; vm_compute; reflexivity.
Qed.

Lemma last_item_nth (l : list Q) (x : Q) :
  last_item l = Ok x -> l <> [] /\ nth (length l - 1) l 0%Q = x.
Proof.
  unfold last_item, item; intro H.
  destruct (nth_error l (length l - 1)) as [y |] eqn:E; [| discriminate].
  injection H as ->. split.
  - intros ->; discriminate.
  - now apply nth_error_nth.
Qed.

Lemma nonempty_items (l : list Q) :
  l <> [] -> exists a b, item l 0 = Ok a /\ last_item l = Ok b
                         /\ In a l /\ In b l.
Proof.
  intro H. destruct l as [| x l]; [congruence |].
  exists x. unfold last_item, item.
  destruct (nth_error (x :: l) (length (x :: l) - 1)) as [b |] eqn:E.
  - exists b. repeat split; [simpl; auto |].
    eapply nth_error_In; eassumption.
  - apply nth_error_None in E. simpl in E. lia.
Qed.

(** The scan of [get_E5_ss_2D_fiti] over files that all lie before the
    requested time ends in the error of the last file. *)
Lemma fiti_2D_loop_after (ctime : Q) (n : nat) :
  forall files it prev,
    files <> [] ->
    it + length files = n ->
    Forall (fun f => time f <> []
                     /\ Forall (fun t => (t < ctime)%Q) (time f)) files ->
    fiti_2D_loop ctime n files it prev
    = Raise (ValueError "Time is after range of times in files").
Proof.
  induction files as [| fh rest IH]; intros it prev Hne Hlen Hall;
    [congruence |].
  inversion Hall as [| ? ? [Hfh Hbefore] Hrest]; subst.
  destruct (nonempty_items Hfh) as (a & b & Ea & Eb & Ia & Ib).
  rewrite Forall_forall in Hbefore.
  pose proof (Hbefore a Ia) as Ha. pose proof (Hbefore b Ib) as Hb.
  cbn [fiti_2D_loop]. rewrite Ea; cbn [bind].
  assert (E1 : ltb ctime a = false) by (apply ltb_ge; lra).
  rewrite E1; cbn [andb]. rewrite Eb; cbn [bind].
  assert (E2 : ltb b ctime = true) by (apply ltb_lt; lra).
  rewrite E2; cbn [andb].
  destruct rest as [| g rest'].
  - simpl in *. replace (it + 1 - 1) with it by lia.
    rewrite Nat.eqb_refl. reflexivity.
  - assert (E3 : (it =? it + length (fh :: g :: rest') - 1) = false)
      by (apply Nat.eqb_neq; simpl; lia).
    rewrite E3.
    assert (E4 : between a ctime b = false)
      by (apply between_false; right; lra).
    rewrite E4.
    assert (E5 : forall p, between p ctime a = false)
      by (intro p; apply between_false; right; lra).
    assert (Hrec : fiti_2D_loop ctime (it + length (fh :: g :: rest'))
                     (g :: rest') (S it) (Some (b, fh))
                   = Raise (ValueError
                              "Time is after range of times in files")).
    { apply IH; [discriminate | simpl; lia | assumption]. }
    destruct prev as [[p pf] |]; [rewrite E5 |]; exact Hrec.
Qed.

Lemma sorted_le_last (l : list Q) :
  StronglySorted Qle l ->
  forall x, In x l -> (x <= nth (length l - 1) l 0)%Q.
Proof.
  intros Hs x Hx.
  destruct (In_nth _ _ 0%Q Hx) as (i & Hi & <-).
  destruct (Nat.eq_dec i (length l - 1)) as [-> | Hne]; [lra |].
  apply (sorted_nth Hs); lia.
Qed.

Lemma chronological_before (pre : list Dataset) (fl : Dataset)
      (tmax ctime : Q) :
  chronological (pre ++ [fl]) ->
  last_item (time fl) = Ok tmax ->
  (tmax < ctime)%Q ->
  Forall (fun f => Forall (fun t => (t < ctime)%Q) (time f)) (pre ++ [fl]).
Proof.
  unfold chronological; intros Hs Hl Hlt.
  apply last_item_nth in Hl. destruct Hl as [Hne Hl].
  assert (Elast : nth (length (flat_map time (pre ++ [fl])) - 1)
                      (flat_map time (pre ++ [fl])) 0%Q = tmax).
  { rewrite flat_map_app. cbn [flat_map]. rewrite app_nil_r.
    rewrite length_app.
    assert (0 < length (time fl))
      by (destruct (time fl); [congruence | simpl; lia]).
    rewrite app_nth2 by lia.
    replace (length (flat_map time pre) + length (time fl) - 1
             - length (flat_map time pre))
      with (length (time fl) - 1) by lia.
    exact Hl. }
  apply Forall_forall; intros f Hf.
  apply Forall_forall; intros t Ht.
  assert (Hin : In t (flat_map time (pre ++ [fl])))
    by (apply in_flat_map; eauto).
  pose proof (sorted_le_last Hs _ Hin) as Hle.
  rewrite Elast in Hle. lra.
Qed.

(** C1, amended.  [get_E5_ss_2D_fiti] raises a ValueError when the
    requested time precedes the first time of the first file, and, for
    chronologically ordered non-empty files, when it follows the last
    time of the last file; [get_E5_ss_files] raises a ValueError when the
    lower bound precedes the first time of the first file. *)
Theorem unavailable_times_raise :
  forall allfiles f0 t0,
    hd_error allfiles = Some f0 ->
    hd_error (time f0) = Some t0 ->
    (forall ctime,
        (ctime < t0)%Q ->
        get_E5_ss_2D_fiti allfiles ctime
        = Raise (ValueError "Time is before range of times in files"))
    /\ (forall time1 time2,
           (time1 < t0)%Q ->
           get_E5_ss_files allfiles time1 time2
           = Raise (ValueError "Data is unavailable"))
    /\ (forall ctime pre fl tmax,
           allfiles = pre ++ [fl] ->
           chronological allfiles ->
           Forall (fun f => time f <> []) allfiles ->
           last_item (time fl) = Ok tmax ->
           (tmax < ctime)%Q ->
           get_E5_ss_2D_fiti allfiles ctime
           = Raise (ValueError "Time is after range of times in files")).
Proof.
  intros allfiles f0 t0 Hf Ht.
  destruct allfiles as [| f allfiles']; [discriminate |].
  injection Hf as ->.
  destruct (time f0) as [| t ts] eqn:Et; [discriminate |].
  injection Ht as ->.
  split; [| split].
  - intros ctime Hlt.
    unfold get_E5_ss_2D_fiti. cbn [item nth_error bind fiti_2D_loop].
    rewrite Et. cbn [item nth_error bind].
    apply ltb_lt in Hlt. rewrite Hlt. reflexivity.
  - intros time1 time2 Hlt.
    unfold get_E5_ss_files. cbn [item nth_error bind files_loop f_ifi].
    rewrite Et. cbn [item nth_error bind Nat.eqb andb].
    apply ltb_lt in Hlt. rewrite Hlt. reflexivity.
  - intros ctime pre fl tmax E Hs Hne Hl Hlt.
    unfold get_E5_ss_2D_fiti. cbn [item nth_error bind].
    rewrite (@fiti_2D_loop_after ctime (length (f0 :: allfiles')));
      [reflexivity | discriminate | reflexivity |].
    rewrite E in Hs, Hne |- *.
    pose proof (chronological_before _ _ Hs Hl Hlt) as Hb.
    rewrite Forall_forall in Hne, Hb |- *.
    intros g Hg. split; [now apply Hne | now apply Hb].
Qed.

Lemma unavailable_times_raise_witness :
  get_E5_ss_2D_fiti [file_b; file_c] 1
  = Raise (ValueError "Time is before range of times in files")
  /\ get_E5_ss_files [file_b; file_c] 1 3
     = Raise (ValueError "Data is unavailable")
  /\ get_E5_ss_2D_fiti [file_b; file_c] 6
     = Raise (ValueError "Time is after range of times in files").
Proof.
  destruct (@unavailable_times_raise [file_b; file_c] file_b 2
              eq_refl eq_refl) as (Hbefore & Hfiles & Hafter).
  split; [apply Hbefore; reflexivity |].
  split; [apply Hfiles; reflexivity |].
  apply (Hafter 6%Q [file_b] file_c 5%Q).
  - reflexivity.
  - unfold chronological; simpl; sorted_list.
  - repeat constructor; discriminate.
  - reflexivity.
  - reflexivity.
Defined.

(** ** Whole-axis subscripts *)

Lemma block_0 (m : nat) (d : list Q) : block m 0 d = firstn m d.
Proof. reflexivity. Qed.

Lemma block_S (m k : nat) (d : list Q) :
  block m (S k) d = block m k (skipn m d).
Proof.
  unfold block. rewrite skipn_skipn. f_equal. f_equal. simpl; lia.
Qed.

Lemma flat_map_eq_in {A} (f g : A -> list Q) (l : list A) :
  (forall x, In x l -> f x = g x) -> flat_map f l = flat_map g l.
Proof.
  induction l as [| x l IH]; intro H; simpl; [reflexivity |].
  rewrite H, IH; [reflexivity | | ]; simpl; auto.
  intros; apply H; simpl; auto.
Qed.

Lemma flat_map_blocks (g : list Q -> list Q) (m n : nat) :
  (forall b, length b = m -> g b = b) ->
  forall d lo,
    length d = n * m ->
    flat_map (fun k => g (block m (k - lo) d)) (seq lo n) = d.
Proof.
  intro Hg. induction n as [| n IH]; intros d lo Hd.
  - destruct d; [reflexivity | discriminate].
  - cbn [seq flat_map]. rewrite Nat.sub_diag, block_0.
    rewrite Hg by (rewrite length_firstn; simpl in Hd; lia).
    transitivity (firstn m d ++ skipn m d); [| apply firstn_skipn].
    f_equal.
    rewrite <- (IH (skipn m d) (S lo))
      by (rewrite length_skipn; simpl in Hd; lia).
    apply flat_map_eq_in. intros k Hk. apply in_seq in Hk.
    replace (k - lo) with (S (k - S lo)) by lia.
    now rewrite block_S.
Qed.

Lemma getitem_data_full (sh : list nat) :
  forall d,
    length d = size sh ->
    getitem_data (repeat (Slice 0 None) (length sh)) sh d = d.
Proof.
  induction sh as [| n sh IH]; intros d Hd; [reflexivity |].
  cbn [length repeat getitem_data selected stop].
  rewrite Nat.sub_0_r.
  pose proof (@flat_map_blocks
                (getitem_data (repeat (Slice 0 None) (length sh)) sh)
                (size sh) n IH d 0 Hd) as E.
  etransitivity; [| exact E].
  apply flat_map_ext. intro k. now rewrite Nat.sub_0_r.
Qed.

(** [a[0,:,:]] on an array with a leading axis of length one. *)
Lemma getitem_first_of_one (a : ndarray) (n1 n2 : nat) :
  wf a -> shape a = [1; n1; n2] ->
  getitem a [Idx 0; Slice 0 None; Slice 0 None]
  = Ok (mk [n1; n2] (data a)).
Proof.
  unfold wf, getitem; intros Hw Hs. rewrite Hs in *.
  cbn [getitem_shape selected forallb Nat.ltb Nat.leb andb bind stop].
  rewrite !Nat.sub_0_r. f_equal. f_equal.
  cbn [getitem_data selected flat_map]. rewrite app_nil_r, block_0.
  change (size [n1; n2]) with (n1 * (n2 * 1)) in *.
  cbn [size fold_right] in Hw.
  rewrite firstn_all2 by lia.
  apply (getitem_data_full [n1; n2]). simpl. lia.
Qed.

(** ** A request at a stored time *)

(** The scan of [get_E5_ss_2D_fiti] passes the files that lie wholly
    before the requested time and stops at the file that holds it. *)
Lemma fiti_2D_loop_locates (ctime : Q) (n : nat) (f : Dataset)
      (post : list Dataset) (a b : Q) :
  item (time f) 0 = Ok a -> last_item (time f) = Ok b ->
  (a <= ctime /\ ctime <= b)%Q ->
  forall pre it prev,
    it + length (pre ++ f :: post) = n ->
    Forall (fun g => time g <> []
                     /\ Forall (fun t => (t < ctime)%Q) (time g)) pre ->
    fiti_2D_loop ctime n (pre ++ f :: post) it prev = Ok (Some [f]).
Proof.
  intros Ea Eb [Hlo Hhi].
  induction pre as [| g pre IH]; intros it prev Hlen Hall.
  - cbn [app fiti_2D_loop]. rewrite Ea; cbn [bind].
    assert (E1 : ltb ctime a = false) by (apply ltb_ge; lra).
    rewrite E1; cbn [andb]. rewrite Eb; cbn [bind].
    assert (E2 : ltb b ctime = false) by (apply ltb_ge; lra).
    rewrite E2; cbn [andb].
    assert (E3 : between a ctime b = true)
      by (apply between_true; split; lra).
    now rewrite E3.
  - apply Forall_cons_iff in Hall. destruct Hall as [[Hg Hbefore] Hrest].
    destruct (nonempty_items Hg) as (x & y & Ex & Ey & Ix & Iy).
    rewrite Forall_forall in Hbefore.
    pose proof (Hbefore x Ix) as Hx. pose proof (Hbefore y Iy) as Hy.
    cbn [app fiti_2D_loop]. rewrite Ex; cbn [bind].
    assert (E1 : ltb ctime x = false) by (apply ltb_ge; lra).
    rewrite E1; cbn [andb]. rewrite Ey; cbn [bind].
    assert (E3 : (it =? n - 1) = false)
      by (apply Nat.eqb_neq; rewrite <- Hlen; cbn [app length];
          rewrite length_app; simpl; lia).
    rewrite E3, andb_false_r.
    assert (E4 : between x ctime y = false)
      by (apply between_false; right; lra).
    rewrite E4.
    assert (E5 : forall p, between p ctime x = false)
      by (intro p; apply between_false; right; lra).
    assert (Hrec : fiti_2D_loop ctime n
                     (pre ++ f :: post) (S it) (Some (y, g))
                   = Ok (Some [f])).
    { apply IH; [cbn [app length] in Hlen; lia | assumption]. }
    destruct prev as [[p pf] |]; [rewrite E5 |]; exact Hrec.
Qed.

(** [x in l] holds exactly when [l.index(x)] finds the first position
    holding a value equal to [x]. *)
Lemma list_index_contains (x : Q) (l : list Q) :
  contains x l = true ->
  exists i t,
    list_index x l = Ok i
    /\ nth_error l i = Some t /\ (t == x)%Q
    /\ (forall j, j < i -> ~ (nth j l 0 == x)%Q).
Proof.
  unfold contains.
  induction l as [| y l IH]; intro H; [discriminate |].
  cbn [existsb] in H. cbn [list_index].
  destruct (eqb y x) eqn:E.
  - exists 0, y. repeat split; [now apply Qeq_bool_iff | intros; lia].
  - assert (Hx : eqb x y = false)
      by (unfold eqb in *; now rewrite Qeq_bool_comm).
    rewrite Hx in H. cbn [orb] in H.
    destruct (IH H) as (i & t & Hi & Hn & Ht & Hfirst).
    exists (S i), t. rewrite Hi. repeat split; try assumption.
    intros [| j] Hj; cbn [nth].
    + intro Heq. apply Qeq_bool_iff in Heq. unfold eqb in E. congruence.
    + apply Hfirst. lia.
Qed.

Lemma getitem_fancy_one (v r : ndarray) (i : nat) (ixs : list index) :
  getitem v (Idx i :: ixs) = Ok r ->
  getitem v (Fancy [i] :: ixs) = Ok (mk (1 :: shape r) (data r)).
Proof.
  unfold getitem; intro H. bind_inv H. injection H as <-.
  destruct (shape v) as [| n sh]; [discriminate |].
  cbn [getitem_shape selected] in Ha |- *.
  destruct (forallb _ [i]); [| discriminate].
  bind_inv Ha. injection Ha as <-. rewrite Ha0. reflexivity.
Qed.

(** A window of one time step of a three-dimensional field. *)
Lemma getitem_window (v : ndarray) (i T LA LO a b : nat)
      (ha hb : option nat) :
  shape v = [T; LA; LO] -> i < T ->
  getitem v [Idx i; Slice a ha; Slice b hb]
  = Ok (mk [stop LA ha - a; stop LO hb - b]
           (getitem_data [Idx i; Slice a ha; Slice b hb] [T; LA; LO]
                         (data v))).
Proof.
  unfold getitem; intros Hs Hi. rewrite Hs.
  cbn [getitem_shape selected forallb bind].
  apply Nat.ltb_lt in Hi. rewrite Hi. reflexivity.
Qed.

Lemma concatenate_columns (a b : ndarray) (n ma mb : nat) :
  shape a = [n; ma] -> shape b = [n; mb] ->
  concatenate a b 1
  = Ok (mk [n; ma + mb]
           (interleave n (ma * 1) (mb * 1) (data a) (data b))).
Proof.
  unfold concatenate; intros Sa Sb. rewrite Sa, Sb.
  cbn [length Nat.eqb negb Nat.ltb Nat.leb firstn skipn shape_eqb nth].
  rewrite Nat.eqb_refl. cbn [andb size fold_right app].
  rewrite Nat.mul_1_r. reflexivity.
Qed.

Lemma squeeze_leading_one (s : list nat) (d : list Q) :
  squeeze (mk (1 :: s) d) = squeeze (mk s d).
Proof. reflexivity. Qed.

Lemma ndarray_eta (a : ndarray) : mk (shape a) (data a) = a.
Proof. destruct a; reflexivity. Qed.

(** The exact-time case of the reader returns the raw read of the
    window at that time index, whatever [times] and [ctime] are. *)
Lemma get_E5_ss_2D_var_exact f varname v (i T LA LO : nat) lati loni :
  variable f varname = Ok v -> wf v -> shape v = [T; LA; LO] -> i < T ->
  fst loni <> snd loni ->
  exists raw,
    raw_read_2D f varname i lati loni = Ok raw
    /\ forall times ct,
         get_E5_ss_2D_var [f] varname [i] loni lati times ct
         = Ok (if fst loni <? snd loni then squeeze raw else raw).
Proof.
  intros Hv Hw Hs Hi Hne.
  unfold raw_read_2D, get_E5_ss_2D_var. rewrite Hv.
  cbn [length Nat.eqb andb item nth_error bind]. rewrite Hv. cbn [bind].
  destruct (fst loni <? snd loni) eqn:En.
  - assert (Ew : (snd loni <? fst loni) = false)
      by (apply Nat.ltb_ge; apply Nat.ltb_lt in En; lia).
    rewrite Ew. eexists. split; [apply (@getitem_window v i T LA LO _ _ _ _ Hs Hi) |].
    intros times ct.
    rewrite (@getitem_fancy_one _ _ _ _ (@getitem_window v i T LA LO _ _ _ _ Hs Hi)).
    cbn [bind local shape data]. now rewrite squeeze_leading_one.
  - assert (Ew : (snd loni <? fst loni) = true)
      by (apply Nat.ltb_lt; apply Nat.ltb_ge in En; lia).
    rewrite Ew.
    pose proof (@getitem_window v i T LA LO (fst lati) (fst loni)
                  (Some (snd lati + 1)) None Hs Hi) as GE.
    pose proof (@getitem_window v i T LA LO (fst lati) 0
                  (Some (snd lati + 1)) (Some (snd loni + 1)) Hs Hi) as GW.
    pose proof (@getitem_wf _ _ _ Hw GE) as WE.
    pose proof (@getitem_wf _ _ _ Hw GW) as WW.
    rewrite GE, GW. cbn [bind].
    erewrite concatenate_columns by reflexivity.
    eexists. split; [reflexivity |].
    intros times ct.
    rewrite (@getitem_fancy_one _ _ _ _ GE), (@getitem_fancy_one _ _ _ _ GW).
    cbn [bind shape data].
    erewrite !getitem_first_of_one; try reflexivity;
      try (unfold wf in *; cbn [shape data size fold_right] in *; lia).
    cbn [bind].
    erewrite concatenate_columns by reflexivity.
    reflexivity.
Qed.

(** C5.  When the scan locates a file [f] one of whose stored times
    equals the requested time, the locator returns [f] alone with the
    single index [times.index(ctime)], the first position holding that
    time, and the reader returns the raw read of the window at that index
    (with unit axes squeezed when the window does not cross the seam),
    whatever the interpolation arguments are.  The longitude window has
    two distinct indices. *)
Theorem exact_time_is_read_unchanged :
  forall pre f post ctime a b varname v LA LO lati loni,
    Forall (fun g => time g <> []
                     /\ Forall (fun t => (t < ctime)%Q) (time g)) pre ->
    item (time f) 0 = Ok a ->
    last_item (time f) = Ok b ->
    (a <= ctime /\ ctime <= b)%Q ->
    contains ctime (time f) = true ->
    variable f varname = Ok v ->
    wf v ->
    shape v = [length (time f); LA; LO] ->
    fst loni <> snd loni ->
    exists i t raw,
      list_index ctime (time f) = Ok i
      /\ nth_error (time f) i = Some t
      /\ (t == ctime)%Q
      /\ (forall j, j < i -> ~ (nth j (time f) 0 == ctime)%Q)
      /\ get_E5_ss_2D_fiti (pre ++ f :: post) ctime
         = Ok ([f], [i], Float t, ctime)
      /\ raw_read_2D f varname i lati loni = Ok raw
      /\ forall times ct,
           get_E5_ss_2D_var [f] varname [i] loni lati times ct
           = Ok (if fst loni <? snd loni then squeeze raw else raw).
Proof.
  intros pre f post ctime a b varname v LA LO lati loni
         Hpre Ea Eb Hin Hc Hv Hw Hs Hne.
  destruct (list_index_contains _ _ Hc) as (i & t & Hi & Hn & Ht & Hfirst).
  assert (Hlt : i < length (time f))
    by (apply nth_error_Some; congruence).
  destruct (@get_E5_ss_2D_var_exact f varname v i _ LA LO lati loni
              Hv Hw Hs Hlt Hne) as (raw & Hraw & Hread).
  exists i, t, raw. repeat split; try assumption.
  unfold get_E5_ss_2D_fiti.
  assert (E0 : exists g, item (pre ++ f :: post) 0 = Ok g).
  { unfold item; destruct pre; simpl; eauto. }
  destruct E0 as [g ->]. cbn [bind].
  rewrite (@fiti_2D_loop_locates ctime (length (pre ++ f :: post))
             f post a b Ea Eb Hin pre 0 None eq_refl Hpre).
  cbn [bind local]. unfold fiti_2D_select.
  cbn [length Nat.eqb item nth_error bind].
  rewrite Hc, Hi. cbn [bind]. unfold item. rewrite Hn. reflexivity.
Qed.

Lemma exact_time_is_read_unchanged_witness :
  exists i t raw,
    list_index 3 (time file_b) = Ok i
    /\ nth_error (time file_b) i = Some t
    /\ (t == 3)%Q
    /\ (forall j, j < i -> ~ (nth j (time file_b) 0 == 3)%Q)
    /\ get_E5_ss_2D_fiti ([file_a] ++ file_b :: [file_c]) 3
       = Ok ([file_b], [i], Float t, 3%Q)
    /\ raw_read_2D file_b "CAPE" i (0, 1) (3, 1) = Ok raw
    /\ forall times ct,
         get_E5_ss_2D_var [file_b] "CAPE" [i] (3, 1) (0, 1) times ct
         = Ok (if fst (3, 1) <? snd (3, 1) then squeeze raw else raw).
Proof.
  apply (@exact_time_is_read_unchanged
           [file_a] file_b [file_c] 3%Q 2%Q 3%Q "CAPE"%string
           (mk [2; 3; 4] (ramp 100 24)) 3 4 (0, 1) (3, 1)).
  - repeat constructor; discriminate.
  - reflexivity.
  - reflexivity.
  - split; discriminate.
  - reflexivity.
  - reflexivity.
  - reflexivity.
  - reflexivity.
  - simpl; lia.
Defined.

(** ** A request between two stored times *)

Lemma interp1d_pair (ta tb c : Q) (sh : list nat) (d0 d1 : list Q) :
  length d0 = size sh -> length d1 = size sh ->
  (ta < tb)%Q -> (ta <= c /\ c <= tb)%Q ->
  scipy.interp1d [ta; tb] (mk (2 :: sh) (d0 ++ d1)) c
  = Ok (mk sh (zip_with (scipy.lerp ta tb c) d0 d1)).
Proof.
  intros L0 L1 Hlt [Hlo Hhi].
  unfold scipy.interp1d.
  cbn [shape data length Nat.eqb negb Nat.ltb Nat.leb scipy.blocks].
  rewrite firstn_app, L0, Nat.sub_diag, firstn_all2 by lia.
  cbn [firstn]. rewrite app_nil_r.
  rewrite skipn_app, L0, Nat.sub_diag, skipn_all2 by lia.
  cbn [skipn app]. rewrite firstn_all2 by lia.
  cbn [combine scipy.sort fold_right scipy.insert fst].
  assert (E1 : leb ta tb = true) by (apply leb_le; lra).
  rewrite E1. cbn [map fst hd last].
  assert (E2 : ltb c ta = false) by (apply ltb_ge; lra).
  assert (E3 : ltb tb c = false) by (apply ltb_ge; lra).
  rewrite E2, E3.
  replace (Nat.min (Nat.max (scipy.searchsorted [ta; tb] c) 1) (2 - 1))
    with 1 by lia.
  reflexivity.
Qed.

Lemma getitem_pair (v : ndarray) (i T LA LO a b : nat)
      (ha hb : option nat) :
  shape v = [T; LA; LO] -> i + 1 < T ->
  getitem v [Slice i (Some (i + 1 + 1)); Slice a ha; Slice b hb]
  = Ok (mk [2; stop LA ha - a; stop LO hb - b]
           (getitem_data [Idx i; Slice a ha; Slice b hb] [T; LA; LO]
                         (data v)
            ++ getitem_data [Idx (i + 1); Slice a ha; Slice b hb]
                            [T; LA; LO] (data v))).
Proof.
  unfold getitem; intros Hs Hi. rewrite Hs.
  cbn [getitem_shape selected forallb bind stop].
  replace (Nat.min (i + 1 + 1) T - i) with 2 by lia.
  cbn [getitem_data selected stop].
  replace (Nat.min (i + 1 + 1) T - i) with 2 by lia.
  cbn [seq flat_map]. rewrite !app_nil_r.
  replace (S i) with (i + 1) by lia. reflexivity.
Qed.

Lemma interleave_app (ma mb o1 o2 : nat) :
  forall a1 a2 b1 b2,
    length a1 = o1 * ma -> length b1 = o1 * mb ->
    interleave (o1 + o2) ma mb (a1 ++ a2) (b1 ++ b2)
    = interleave o1 ma mb a1 b1 ++ interleave o2 ma mb a2 b2.
Proof.
  induction o1 as [| o1 IH]; intros a1 a2 b1 b2 La Lb.
  - destruct a1; [| discriminate]. destruct b1; [| discriminate].
    reflexivity.
  - cbn [Nat.add interleave].
    assert (Ha : ma <= length a1) by (simpl in La; lia).
    assert (Hb : mb <= length b1) by (simpl in Lb; lia).
    rewrite !firstn_app, !skipn_app.
    replace (ma - length a1) with 0 by lia.
    replace (mb - length b1) with 0 by lia.
    cbn [firstn skipn]. rewrite !app_nil_r.
    rewrite IH by (rewrite length_skipn; simpl in La, Lb; lia).
    now rewrite <- !app_assoc.
Qed.

Lemma concatenate_slabs (a b : ndarray) (o n ma mb : nat) :
  shape a = [o; n; ma] -> shape b = [o; n; mb] ->
  concatenate a b 2
  = Ok (mk [o; n; ma + mb]
           (interleave (o * (n * 1)) (ma * 1) (mb * 1) (data a) (data b))).
Proof.
  unfold concatenate; intros Sa Sb. rewrite Sa, Sb.
  cbn [length Nat.eqb negb Nat.ltb Nat.leb firstn skipn shape_eqb nth].
  rewrite !Nat.eqb_refl. cbn [andb size fold_right app]. reflexivity.
Qed.

(** In exact arithmetic the interpolated value at the midpoint is the
    mean of the two samples. *)
Lemma zip_with_midpoint (ta tb c : Q) (d0 d1 : list Q) :
  (ta < tb)%Q -> (c == (ta + tb) / 2)%Q ->
  Forall2 (fun r p => (r == (fst p + snd p) / 2)%Q)
          (zip_with (scipy.lerp ta tb c) d0 d1) (combine d0 d1).
Proof.
  intros Hlt Hc. revert d1; induction d0 as [| x d0 IH]; intros [| y d1];
    simpl; constructor; [| apply IH].
  unfold scipy.lerp. simpl. rewrite Hc. field. lra.
Qed.

Lemma newaxis_window (s : list nat) (d : list Q) (n1 n2 : nat) :
  s = [n1; n2] -> newaxis (mk s d) = Ok (mk (1 :: s) d).
Proof. intros ->. reflexivity. Qed.

Section Bracket.

Variables (f0 f1 : Dataset) (varname : string) (v0 v1 : ndarray).
Variables (T0 T1 LA LO i j : nat) (lati loni : nat * nat).
Variables (ta tb ctime : Q).

Hypothesis Hv0 : variable f0 varname = Ok v0.
Hypothesis Hw0 : wf v0.
Hypothesis Hs0 : shape v0 = [T0; LA; LO].
Hypothesis Hv1 : variable f1 varname = Ok v1.
Hypothesis Hw1 : wf v1.
Hypothesis Hs1 : shape v1 = [T1; LA; LO].
Hypothesis Hi : i < T0.
Hypothesis Hj : j < T1.
Hypothesis Hne : fst loni <> snd loni.
Hypothesis Hlt : (ta < tb)%Q.
Hypothesis Hin : (ta <= ctime /\ ctime <= tb)%Q.

(** The two raw reads exist and have one shape; the reader returns
    their pointwise interpolation, both when they come from two files
    and when they are consecutive time steps of one file. *)
Lemma bracket_reads :
  exists n1 n2 d0 d1,
    raw_read_2D f0 varname i lati loni = Ok (mk [n1; n2] d0)
    /\ raw_read_2D f1 varname j lati loni = Ok (mk [n1; n2] d1)
    /\ length d0 = n1 * n2 /\ length d1 = n1 * n2
    /\ get_E5_ss_2D_var [f0; f1] varname [i; j] loni lati
                        (Floats [ta; tb]) ctime
       = Ok (mk [n1; n2] (zip_with (scipy.lerp ta tb ctime) d0 d1))
    /\ (f1 = f0 -> j = i + 1 ->
        get_E5_ss_2D_var [f0] varname [i; j] loni lati
                         (Floats [ta; tb]) ctime
        = Ok (mk [n1; n2] (zip_with (scipy.lerp ta tb ctime) d0 d1))).
Proof.
  assert (Hsize : forall a b, size [a; b] = a * b)
    by (intros; cbn [size fold_right]; lia).
  unfold get_E5_ss_2D_var.
  cbn [length Nat.eqb andb item nth_error bind].
  rewrite Hv0, Hv1. cbn [bind].
  unfold raw_read_2D. rewrite Hv0, Hv1. cbn [bind].
  destruct (fst loni <? snd loni) eqn:En.
  - pose proof (@getitem_window v0 i T0 LA LO (fst lati) (fst loni)
                  (Some (snd lati + 1)) (Some (snd loni + 1)) Hs0 Hi)
      as G0.
    pose proof (@getitem_window v1 j T1 LA LO (fst lati) (fst loni)
                  (Some (snd lati + 1)) (Some (snd loni + 1)) Hs1 Hj)
      as G1.
    rewrite G0, G1.
    pose proof (@getitem_wf _ _ _ Hw0 G0) as W0.
    pose proof (@getitem_wf _ _ _ Hw1 G1) as W1.
    unfold wf in W0, W1. cbn [shape data] in W0, W1.
    rewrite Hsize in W0, W1.
    do 4 eexists. split; [reflexivity |]. split; [reflexivity |].
    split; [exact W0 |]. split; [exact W1 |]. split.
    + cbn [bind]. erewrite !newaxis_window by reflexivity. cbn [bind].
      erewrite concatenate_axis0_ok;
        [| unfold wf; cbn [shape data size fold_right] in *; lia ..
         | reflexivity | reflexivity].
      cbn [bind local interp_time data Nat.add].
      apply interp1d_pair; rewrite ?Hsize; assumption.
    + intros -> ->. rewrite Hv0 in Hv1. injection Hv1 as <-.
      assert (HT : T1 = T0) by congruence. subst T1.
      rewrite (@getitem_pair v0 i T0 LA LO _ _ _ _ Hs0 Hj).
      cbn [bind local interp_time].
      apply interp1d_pair; rewrite ?Hsize; assumption.
  - pose proof (@getitem_window v0 i T0 LA LO (fst lati) (fst loni)
                  (Some (snd lati + 1)) None Hs0 Hi) as GE0.
    pose proof (@getitem_window v0 i T0 LA LO (fst lati) 0
                  (Some (snd lati + 1)) (Some (snd loni + 1)) Hs0 Hi)
      as GW0.
    pose proof (@getitem_window v1 j T1 LA LO (fst lati) (fst loni)
                  (Some (snd lati + 1)) None Hs1 Hj) as GE1.
    pose proof (@getitem_window v1 j T1 LA LO (fst lati) 0
                  (Some (snd lati + 1)) (Some (snd loni + 1)) Hs1 Hj)
      as GW1.
    assert (Ew : (snd loni <? fst loni) = true)
      by (apply Nat.ltb_lt; apply Nat.ltb_ge in En; lia).
    rewrite Ew, GE0, GW0, GE1, GW1. cbn [bind].
    erewrite !concatenate_columns by reflexivity.
    pose proof (@getitem_wf _ _ _ Hw0 GE0) as WE0.
    pose proof (@getitem_wf _ _ _ Hw0 GW0) as WW0.
    pose proof (@getitem_wf _ _ _ Hw1 GE1) as WE1.
    pose proof (@getitem_wf _ _ _ Hw1 GW1) as WW1.
    unfold wf in WE0, WW0, WE1, WW1.
    cbn [shape data] in WE0, WW0, WE1, WW1.
    rewrite Hsize in WE0, WW0, WE1, WW1.
    set (n1 := stop LA (Some (snd lati + 1)) - fst lati) in *.
    set (nE := stop LO None - fst loni) in *.
    set (nW := stop LO (Some (snd loni + 1)) - 0) in *.
    set (dE0 := getitem_data [Idx i; _; Slice (fst loni) None] _ _) in *.
    set (dW0 := getitem_data [Idx i; _; Slice 0 _] _ _) in *.
    set (dE1 := getitem_data [Idx j; _; Slice (fst loni) None] _ _) in *.
    set (dW1 := getitem_data [Idx j; _; Slice 0 _] _ _) in *.
    assert (L0 : length (interleave n1 (nE * 1) (nW * 1) dE0 dW0)
                 = n1 * (nE + nW))
      by (rewrite interleave_length; lia).
    assert (L1 : length (interleave n1 (nE * 1) (nW * 1) dE1 dW1)
                 = n1 * (nE + nW))
      by (rewrite interleave_length; lia).
    do 4 eexists. split; [reflexivity |]. split; [reflexivity |].
    split; [exact L0 |]. split; [exact L1 |]. split.
    + erewrite !newaxis_window by reflexivity. cbn [bind].
      erewrite !concatenate_slabs by reflexivity. cbn [bind].
      replace (1 * (n1 * 1)) with n1 by lia.
      erewrite concatenate_axis0_ok;
        [| unfold wf; cbn [shape data]; rewrite ?L0, ?L1;
           cbn [size fold_right]; lia ..
         | reflexivity | reflexivity].
      cbn [bind local interp_time data Nat.add].
      apply interp1d_pair; rewrite ?Hsize; assumption.
    + intros -> ->. rewrite Hv0 in Hv1. injection Hv1 as <-.
      assert (HT : T1 = T0) by congruence. subst T1.
      rewrite !(@getitem_pair v0 i T0 LA LO _ _ _ _ Hs0 Hj).
      cbn [bind]. erewrite concatenate_slabs by reflexivity.
      cbn [bind local interp_time data].
      fold n1 nE nW dE0 dW0 dE1 dW1.
      replace (2 * (n1 * 1)) with (n1 + n1) by lia.
      rewrite interleave_app by lia.
      apply interp1d_pair; rewrite ?Hsize; assumption.
Qed.

End Bracket.






(** The two indices have to arrive in ascending order: with the upper
    index first the time slice of the one-file case is empty and the
    interpolation is refused. *)
Lemma descending_pair_is_refused :
  get_E5_ss_2D_var [file_a] "CAPE" [1; 0] (0, 2) (0, 2)
                   (Floats [1; 0]%Q) (3 # 4)%Q
  = Raise (ValueError
      "x and y arrays must be equal in length along interpolation axis").
Proof. vm_compute. reflexivity. Qed.

(** With [k_closest] listing the nearest index first, as it is modelled
    from the spec, the upper index comes first for a time nearer the
    later of two stored times, and this pair is what the locator hands
    to the reader. *)
Lemma locator_pair_is_nearest_first :
  get_E5_ss_2D_fiti [file_a; file_b; file_c] (3 # 4)
  = Ok ([file_a], [1; 0], Floats [1; 0]%Q, (3 # 4)%Q).
Proof. vm_compute. reflexivity. Qed.


(** ** The two nearest indices of a midpoint *)

Lemma closest_none (cands : list (nat * Q)) :
  mfns.closest cands = None -> cands = [].
Proof.
  destruct cands as [| c rest]; [reflexivity |].
  rewrite closest_cons. destruct (mfns.closest rest) as [b |];
    [destruct (leb (snd c) (snd b)) |]; discriminate.
Qed.

(** [closest] returns the first candidate of least distance. *)
Lemma closest_first_min (cands : list (nat * Q)) (c : nat * Q) :
  mfns.closest cands = Some c ->
  exists pre post,
    cands = pre ++ c :: post
    /\ (forall x, In x pre -> (snd c < snd x)%Q)
    /\ (forall x, In x post -> (snd c <= snd x)%Q).
Proof.
  revert c; induction cands as [| x rest IH]; intros c H; [discriminate |].
  rewrite closest_cons in H.
  destruct (mfns.closest rest) as [b |] eqn:Eb.
  - destruct (IH b eq_refl) as (pre & post & -> & Hpre & Hpost).
    destruct (leb (snd x) (snd b)) eqn:E; injection H as <-.
    + apply leb_le in E. exists [], (pre ++ b :: post).
      split; [reflexivity |]. split; [intros ? [] |].
      intros y Hy. apply in_app_or in Hy.
      destruct Hy as [Hy | [<- | Hy]];
        [specialize (Hpre y Hy) | | specialize (Hpost y Hy)]; lra.
    + apply leb_gt in E. exists (x :: pre), post.
      split; [reflexivity |]. split; [| assumption].
      intros y [<- | Hy]; [assumption | now apply Hpre].
  - apply closest_none in Eb. subst rest. injection H as <-.
    exists [], []. split; [reflexivity |]. split; intros ? [].
Qed.

Lemma in_candidates (f : Q -> Q) (l : list Q) :
  forall s j e,
    In (j, e) (combine (seq s (length l)) (map f l)) <->
    s <= j /\ j < s + length l /\ e = f (nth (j - s) l 0%Q).
Proof.
  induction l as [| x l IH]; intros s j e.
  - simpl. split; [intros [] | lia].
  - cbn [length seq map combine In]. rewrite IH. split.
    + intros [H | (H1 & H2 & H3)].
      * injection H as <- <-. rewrite Nat.sub_diag.
        repeat split; lia.
      * replace (j - s) with (S (j - S s)) by lia.
        repeat split; [lia | lia | exact H3].
    + intros (H1 & H2 & H3).
      destruct (Nat.eq_dec s j) as [<- | Hne].
      * left. rewrite Nat.sub_diag in H3. now subst e.
      * right. replace (j - s) with (S (j - S s)) in H3 by lia.
        repeat split; [lia | lia | exact H3].
Qed.

Lemma k_closest_midpoint (l : list Q) (c : Q) (i : nat) :
  ascending l -> S i < length l ->
  (c - nth i l 0 == nth (S i) l 0 - c)%Q ->
  mfns.k_closest l c 2 = [i; S i].
Proof.
  intros Hs Hi Hmid.
  assert (Hlt : (nth i l 0 < nth (S i) l 0)%Q)
    by (apply (sorted_nth Hs); lia).
  assert (Di : (dist c (nth i l 0) == c - nth i l 0)%Q).
  { destruct (dist_cases c (nth i l 0%Q)) as [[_ E] | [? E]];
      [exact E | lra]. }
  assert (Dsi : (dist c (nth (S i) l 0) == c - nth i l 0)%Q).
  { destruct (dist_cases c (nth (S i) l 0%Q)) as [[? E] | [_ E]];
      [lra | rewrite E; lra]. }
  assert (Dother : forall j, j < length l -> j <> i -> j <> S i ->
                             (c - nth i l 0 < dist c (nth j l 0))%Q).
  { intros j Hj N1 N2.
    destruct (Nat.lt_ge_cases j i) as [Hji | Hji].
    - pose proof (@sorted_nth _ _ Hs j i Hji ltac:(lia)).
      destruct (dist_cases c (nth j l 0%Q)) as [[? E] | [? E]];
        rewrite E; lra.
    - assert (Hsj : S i < j) by lia.
      pose proof (@sorted_nth _ _ Hs (S i) j Hsj Hj).
      destruct (dist_cases c (nth j l 0%Q)) as [[? E] | [? E]];
        rewrite E; lra. }
  unfold mfns.k_closest.
  set (cands := combine (seq 0 (length l))
                        (map (fun x => Qabs (x - c)) l)).
  assert (Hin : forall j e, In (j, e) cands <->
                            j < length l /\ e = dist c (nth j l 0%Q)).
  { intros j e. unfold cands.
    rewrite (in_candidates (fun x => Qabs (x - c)) l 0 j e).
    rewrite Nat.sub_0_r. unfold dist. intuition lia. }
  (* first pick *)
  assert (Hne : l <> []) by (intros ->; simpl in Hi; lia).
  destruct (closest_combine (fun x => Qabs (x - c)) 0 Hne)
    as (i1 & E1 & L1 & Hmin & Hfirst).
  fold cands in E1. cbn [Nat.add] in E1.
  fold (dist c (nth i1 l 0%Q)) in E1.
  assert (Hi1 : i1 = i).
  { pose proof (Hmin i ltac:(lia)) as Hle.
    fold (dist c (nth i1 l 0%Q)) in Hle.
    fold (dist c (nth i l 0%Q)) in Hle.
    destruct (Nat.eq_dec i1 i) as [| N1]; [assumption | exfalso].
    destruct (Nat.eq_dec i1 (S i)) as [-> | N2].
    - pose proof (Hfirst i ltac:(lia)) as Hf.
      fold (dist c (nth (S i) l 0%Q)) in Hf.
      fold (dist c (nth i l 0%Q)) in Hf.
      lra.
    - specialize (Dother i1 L1 N1 N2). lra. }
  subst i1.
  (* second pick *)
  cbn [mfns.select]. rewrite E1.
  set (cands' := filter (fun c0 => negb (fst c0 =? i)) cands).
  assert (Hin' : forall j e, In (j, e) cands' <->
                             j <> i /\ j < length l
                             /\ e = dist c (nth j l 0%Q)).
  { intros j e. unfold cands'. rewrite filter_In, Hin. cbn [fst].
    rewrite negb_true_iff, Nat.eqb_neq. tauto. }
  destruct (mfns.closest cands') as [[i2 e2] |] eqn:E2.
  2: { apply closest_none in E2.
       assert (In (S i, dist c (nth (S i) l 0%Q)) cands')
         by (apply Hin'; repeat split; lia).
       rewrite E2 in H. contradiction. }
  destruct (closest_first_min _ E2) as (pre' & post' & Ec' & Hpre' & Hpost').
  assert (I2 : In (i2, e2) cands')
    by (rewrite Ec'; apply in_or_app; right; left; reflexivity).
  apply Hin' in I2. destruct I2 as (N2 & L2 & ->).
  cbn [snd] in Hpre', Hpost'.
  assert (Isi' : In (S i, dist c (nth (S i) l 0%Q)) cands')
    by (apply Hin'; repeat split; lia).
  assert (Hle : (dist c (nth i2 l 0) <= c - nth i l 0)%Q).
  { rewrite Ec' in Isi'. apply in_app_or in Isi'.
    destruct Isi' as [I | [I | I]].
    - specialize (Hpre' _ I). cbn [snd] in Hpre'. lra.
    - injection I as -> _. lra.
    - specialize (Hpost' _ I). cbn [snd] in Hpost'. lra. }
  destruct (Nat.eq_dec i2 (S i)) as [-> | N3]; [reflexivity | exfalso].
  specialize (Dother i2 L2 N2 N3). lra.
Qed.

Lemma midpoint_eq (c a b : Q) :
  (c - a == b - c)%Q -> (c == (a + b) / 2)%Q.
Proof. intro H. field_simplify_eq. lra. Qed.

Lemma midpoint_within (c a b : Q) :
  (a < b)%Q -> (c - a == b - c)%Q -> (a < c /\ c < b)%Q.
Proof. intros H1 H2. split; lra. Qed.

Lemma first_and_last_items (l : list Q) :
  l <> [] ->
  item l 0 = Ok (nth 0 l 0%Q)
  /\ last_item l = Ok (nth (length l - 1) l 0%Q).
Proof.
  intro H. unfold last_item, item.
  assert (0 < length l) by (destruct l; [congruence | simpl; lia]).
  rewrite !(nth_error_nth' l 0%Q) by lia. auto.
Qed.

(** A request at the midpoint of two consecutive stored times of a file
    with an ascending time axis: the locator returns the two bracketing
    indices in ascending order (the tie goes to the earlier one) and
    the reader returns the mean of the two raw reads at every point, in
    exact arithmetic. *)
Lemma midpoint_query_returns_mean
      pre f post varname v (LA LO : nat) lati loni i c :
  Forall (fun g => time g <> []
                   /\ Forall (fun t => (t < c)%Q) (time g)) pre ->
  ascending (time f) ->
  S i < length (time f) ->
  (c - nth i (time f) 0 == nth (S i) (time f) 0 - c)%Q ->
  variable f varname = Ok v ->
  wf v ->
  shape v = [length (time f); LA; LO] ->
  fst loni <> snd loni ->
  exists s0 s1 r,
    get_E5_ss_2D_fiti (pre ++ f :: post) c
    = Ok ([f], [i; S i],
          Floats [nth i (time f) 0%Q; nth (S i) (time f) 0%Q], c)
    /\ raw_read_2D f varname i lati loni = Ok s0
    /\ raw_read_2D f varname (S i) lati loni = Ok s1
    /\ get_E5_ss_2D_var [f] varname [i; S i] loni lati
         (Floats [nth i (time f) 0%Q; nth (S i) (time f) 0%Q]) c
       = Ok r
    /\ shape r = shape s0
    /\ Forall2 (fun y p => (y == (fst p + snd p) / 2)%Q)
               (data r) (combine (data s0) (data s1)).
Proof.
  intros Hpre Hs Hi Hmid Hv Hw Hsh Hne.
  set (ta := nth i (time f) 0%Q) in *.
  set (tb := nth (S i) (time f) 0%Q) in *.
  assert (Hlt : (ta < tb)%Q) by (apply (sorted_nth Hs); lia).
  assert (Hc : (c == (ta + tb) / 2)%Q) by (apply midpoint_eq; exact Hmid).
  destruct (midpoint_within Hlt Hmid) as [Hac Hcb].
  assert (Hin : (ta <= c /\ c <= tb)%Q) by (split; apply Qlt_le_weak; assumption).
  assert (Hnil : time f <> []) by (intros E; rewrite E in Hi; simpl in Hi; lia).
  destruct (first_and_last_items Hnil) as [E0 EN].
  assert (H0 : (nth 0 (time f) 0 <= c)%Q).
  { destruct (Nat.eq_dec i 0) as [-> | N]; [fold ta; lra |].
    pose proof (@sorted_nth _ _ Hs 0 i ltac:(lia) ltac:(lia)).
    fold ta in H. lra. }
  assert (HN : (c <= nth (length (time f) - 1) (time f) 0)%Q).
  { destruct (Nat.eq_dec (S i) (length (time f) - 1)) as [<- | N];
      [fold tb; lra |].
    pose proof (@sorted_nth _ _ Hs (S i) (length (time f) - 1)
                  ltac:(lia) ltac:(lia)).
    fold tb in H. lra. }
  assert (Hnot : contains c (time f) = false).
  { destruct (contains c (time f)) eqn:E; [exfalso | reflexivity].
    destruct (list_index_contains _ _ E) as (k & t & _ & Hk & Ht & _).
    assert (Lk : k < length (time f)) by (apply nth_error_Some; congruence).
    apply (nth_error_nth _ _ 0%Q) in Hk. subst t.
    destruct (Nat.le_gt_cases k i) as [Hki | Hki].
    - destruct (Nat.eq_dec k i) as [-> | N]; [fold ta in Ht; lra |].
      pose proof (@sorted_nth _ _ Hs k i ltac:(lia) ltac:(lia)).
      fold ta in H. lra.
    - destruct (Nat.eq_dec k (S i)) as [-> | N]; [fold tb in Ht; lra |].
      pose proof (@sorted_nth _ _ Hs (S i) k ltac:(lia) Lk).
      fold tb in H. lra. }
  destruct (@bracket_reads f f varname v v _ _ LA LO i (S i) lati loni
              ta tb c Hv Hw Hsh Hv Hw Hsh ltac:(lia) Hi Hne Hlt Hin)
    as (n1 & n2 & d0 & d1 & R0 & R1 & L0 & L1 & _ & One).
  exists (mk [n1; n2] d0), (mk [n1; n2] d1).
  eexists. split; [| split; [exact R0 | split; [exact R1 |]]].
  - unfold get_E5_ss_2D_fiti.
    assert (Ei : exists g, item (pre ++ f :: post) 0 = Ok g)
      by (unfold item; destruct pre; simpl; eauto).
    destruct Ei as [g ->]. cbn [bind].
    rewrite (@fiti_2D_loop_locates c (length (pre ++ f :: post))
               f post _ _ E0 EN (conj H0 HN) pre 0 None eq_refl Hpre).
    cbn [bind local]. unfold fiti_2D_select.
    cbn [length Nat.eqb item nth_error bind].
    rewrite Hnot, (k_closest_midpoint Hs Hi Hmid).
    unfold item.
    change (nth_error [i; S i] 0) with (Some i).
    change (nth_error [i; S i] 1) with (Some (S i)).
    cbn [bind].
    rewrite (nth_error_nth' (time f) 0%Q (Nat.lt_succ_l _ _ Hi)).
    cbn [bind].
    rewrite (nth_error_nth' (time f) 0%Q Hi). reflexivity.
  - split; [apply One; [reflexivity | lia] |].
    split; [reflexivity |]. cbn [data].
    now apply zip_with_midpoint.
Qed.

(** ** Level differences *)

Lemma subtract_ok (a b d : ndarray) :
  subtract a b = Ok d ->
  shape a = shape b /\ d = mk (shape a) (zip_with Qminus (data a) (data b)).
Proof.
  unfold subtract; intro H.
  destruct (shape_eqb (shape a) (shape b)) eqn:E; [| discriminate].
  apply shape_eqb_eq in E. injection H as <-. auto.
Qed.

Lemma subtract_same_shape (a b : ndarray) :
  shape a = shape b ->
  subtract a b = Ok (mk (shape a) (zip_with Qminus (data a) (data b))).
Proof.
  unfold subtract; intro E. rewrite E, shape_eqb_refl. reflexivity.
Qed.

Lemma wf_same_shape (a b : ndarray) :
  wf a -> wf b -> shape a = shape b -> length (data a) = length (data b).
Proof. unfold wf; intros -> -> ->; reflexivity. Qed.

Lemma zip_with_app (f : Q -> Q -> Q) (x1 x2 y1 y2 : list Q) :
  length x1 = length y1 ->
  zip_with f (x1 ++ x2) (y1 ++ y2) = zip_with f x1 y1 ++ zip_with f x2 y2.
Proof.
  revert y1; induction x1 as [| a x1 IH]; intros [| b y1] H;
    try discriminate; simpl; [reflexivity |].
  f_equal. apply IH. simpl in H; lia.
Qed.

Lemma zip_with_firstn (f : Q -> Q -> Q) (n : nat) (x y : list Q) :
  firstn n (zip_with f x y) = zip_with f (firstn n x) (firstn n y).
Proof.
  revert x y; induction n as [| n IH]; intros [| a x] [| b y]; simpl;
    try reflexivity.
  f_equal. apply IH.
Qed.

Lemma zip_with_skipn (f : Q -> Q -> Q) (n : nat) (x y : list Q) :
  length x = length y ->
  skipn n (zip_with f x y) = zip_with f (skipn n x) (skipn n y).
Proof.
  revert x y; induction n as [| n IH]; intros [| a x] [| b y] H; simpl;
    try reflexivity; try discriminate.
  apply IH. simpl in H; lia.
Qed.

Lemma zip_with_interleave (f : Q -> Q -> Q) (o ma mb : nat) :
  forall xa xb ya yb,
    length xa = length ya -> length xb = length yb ->
    zip_with f (interleave o ma mb xa xb) (interleave o ma mb ya yb)
    = interleave o ma mb (zip_with f xa ya) (zip_with f xb yb).
Proof.
  induction o as [| o IH]; intros xa xb ya yb Ha Hb; [reflexivity |].
  cbn [interleave].
  rewrite !zip_with_app, IH, !zip_with_firstn, !zip_with_skipn;
    rewrite ?length_firstn, ?length_skipn; try lia.
  reflexivity.
Qed.

(** Joining depends on the operands' shapes only for its success and for
    the way the buffers are merged. *)
Lemma concatenate_congr (a b a' b' r : ndarray) (k : nat) :
  shape a' = shape a -> shape b' = shape b ->
  concatenate a b k = Ok r ->
  concatenate a' b' k
  = Ok (mk (shape r)
           (interleave (size (firstn k (shape a)))
                       (size (skipn k (shape a)))
                       (size (skipn k (shape b)))
                       (data a') (data b')))
  /\ data r = interleave (size (firstn k (shape a)))
                         (size (skipn k (shape a)))
                         (size (skipn k (shape b)))
                         (data a) (data b).
Proof.
  unfold concatenate; intros Ea Eb H. rewrite Ea, Eb.
  destruct (negb (length (shape a) =? length (shape b)));
    [discriminate |].
  destruct (negb (k <? length (shape a))); [discriminate |].
  destruct (_ && _); [| discriminate].
  injection H as <-. split; reflexivity.
Qed.

Lemma subtract_concatenate (a b a3 b3 d d3 : ndarray) (k : nat) :
  wf a -> wf b -> wf a3 -> wf b3 ->
  subtract a b = Ok d -> subtract a3 b3 = Ok d3 ->
  (forall r, concatenate d d3 k = Ok r ->
             exists ra rb,
               concatenate a a3 k = Ok ra /\ concatenate b b3 k = Ok rb
               /\ wf ra /\ wf rb /\ subtract ra rb = Ok r)
  /\ (forall ra rb,
         concatenate a a3 k = Ok ra -> concatenate b b3 k = Ok rb ->
         exists r, concatenate d d3 k = Ok r /\ subtract ra rb = Ok r).
Proof.
  intros Wa Wb Wa3 Wb3 Hd Hd3.
  apply subtract_ok in Hd, Hd3.
  destruct Hd as [Sab ->], Hd3 as [Sab3 ->].
  pose proof (wf_same_shape Wa Wb Sab) as Lab.
  pose proof (wf_same_shape Wa3 Wb3 Sab3) as Lab3.
  split.
  - intros r Hr.
    destruct (@concatenate_congr
                (mk (shape a) (zip_with Qminus (data a) (data b)))
                (mk (shape a3) (zip_with Qminus (data a3) (data b3)))
                a a3 r k eq_refl eq_refl Hr) as [Ca Dr].
    destruct (@concatenate_congr
                (mk (shape a) (zip_with Qminus (data a) (data b)))
                (mk (shape a3) (zip_with Qminus (data a3) (data b3)))
                b b3 r k (eq_sym Sab) (eq_sym Sab3) Hr) as [Cb _].
    cbn [shape data] in Ca, Cb, Dr.
    do 2 eexists. split; [exact Ca |]. split; [exact Cb |].
    split; [eapply concatenate_wf; [exact Wa | exact Wa3 | exact Ca] |].
    split; [eapply concatenate_wf; [exact Wb | exact Wb3 | exact Cb] |].
    rewrite subtract_same_shape by reflexivity. cbn [shape data].
    rewrite zip_with_interleave by assumption.
    rewrite <- Dr. now rewrite ndarray_eta.
  - intros ra rb Ca Cb.
    destruct (@concatenate_congr a a3
                (mk (shape a) (zip_with Qminus (data a) (data b)))
                (mk (shape a3) (zip_with Qminus (data a3) (data b3)))
                ra k eq_refl eq_refl Ca) as [Cd Da].
    destruct (@concatenate_congr a a3 b b3 ra k
                (eq_sym Sab) (eq_sym Sab3) Ca) as [Cb' _].
    rewrite Cb in Cb'. injection Cb' as ->.
    cbn [shape data] in Cd.
    eexists. split; [exact Cd |].
    rewrite subtract_same_shape by reflexivity. cbn [shape data].
    rewrite Da. now rewrite zip_with_interleave by assumption.
Qed.

Lemma subtract_squeeze (a b d : ndarray) :
  subtract a b = Ok d -> subtract (squeeze a) (squeeze b) = Ok (squeeze d).
Proof.
  intro H. apply subtract_ok in H. destruct H as [E ->].
  unfold subtract, squeeze. cbn [shape data].
  rewrite E, shape_eqb_refl. reflexivity.
Qed.
Lemma bind_ext {A B} (c : result A) (k1 k2 : A -> result B) :
  (forall x, k1 x = k2 x) -> py.bind c k1 = py.bind c k2.
Proof. intro H. destruct c; simpl; [apply H | reflexivity]. Qed.

Lemma var_loop_stitch n varname timi levi lati loni files :
  forall c varss,
    var_loop n varname timi levi lati loni files c varss
    = stitch (fun fh ts => read_4D fh varname ts levi lati loni)
             n timi files c varss.
Proof.
  induction files as [| fh rest IH]; intros c varss; [reflexivity |].
  cbn [var_loop stitch]. apply bind_ext. intro x. apply IH.
Qed.

Lemma levdiff_loop_stitch n varname timi levi lati loni files :
  forall c varss,
    levdiff_loop n varname timi levi lati loni files c varss
    = stitch (fun fh ts => read_levdiff fh varname ts levi lati loni)
             n timi files c varss.
Proof.
  induction files as [| fh rest IH]; intros c varss; [reflexivity |].
  cbn [levdiff_loop stitch]. apply bind_ext. intro x. apply IH.
Qed.

Ltac ok_inv :=
  repeat match goal with
         | H : py.bind _ _ = Ok _ |- _ =>
             let x := fresh "x" in
             let Hx := fresh "Hx" in
             apply bind_ok in H; destruct H as (x & Hx & H)
         | H : (if ?c then _ else _) = Ok _ |- _ =>
             destruct c; [| discriminate H]
         | H : Ok _ = Ok _ |- _ => injection H as H; subst
         | H : Raise _ = Ok _ |- _ => discriminate H
         end.

Lemma getitem_level_shape (v a b : ndarray) (ts : index) (L1 L2 : nat)
      (ixs : list index) :
  getitem v (ts :: Idx L1 :: ixs) = Ok a ->
  getitem v (ts :: Idx L2 :: ixs) = Ok b ->
  shape a = shape b.
Proof.
  unfold getitem; intros Ha Hb.
  destruct (shape v) as [| n [| m sh]];
    cbn [getitem_shape selected] in Ha, Hb; ok_inv;
    cbn [shape]; try congruence.
  rewrite Hx3 in Hx4. injection Hx4 as <-. reflexivity.
Qed.

(** One file: the level-difference read against raw reads at the two
    levels. *)
Lemma read_levdiff_level fh varname ts L1 L2 lati loni :
  (forall v, variable fh varname = Ok v -> wf v) ->
  (forall x,
      read_levdiff fh varname ts (L1, L2) lati loni = Ok x ->
      exists y z,
        read_level L1 lati loni varname fh ts = Ok y
        /\ read_level L2 lati loni varname fh ts = Ok z
        /\ difference_of x y z)
  /\ (forall y z,
         read_level L1 lati loni varname fh ts = Ok y ->
         read_level L2 lati loni varname fh ts = Ok z ->
         exists x,
           read_levdiff fh varname ts (L1, L2) lati loni = Ok x
           /\ difference_of x y z).
Proof.
  intro Hwf. unfold read_levdiff, read_level. cbn [fst snd]. cbv zeta.
  destruct (fst loni <? snd loni).
  - destruct (variable fh varname) as [v | e] eqn:Hv; cbn [bind];
      [| split; [intros ? H | intros ? ? H]; discriminate].
    specialize (Hwf v eq_refl). split.
    + intros x H.
      apply bind_ok in H as (d & Hd & H). injection H as <-.
      apply bind_ok in Hd as (a & Ga & Hd).
      apply bind_ok in Hd as (b & Gb & Hs).
      rewrite Ga, Gb. cbn [bind]. exists (Some a), (Some b).
      split; [reflexivity |]. split; [reflexivity |].
      cbn [difference_of].
      split; [exact (@getitem_wf _ _ _ Hwf Ga) |].
      split; [exact (@getitem_wf _ _ _ Hwf Gb) | exact Hs].
    + intros y z Hy Hz.
      apply bind_ok in Hy as (a & Ga & Hy). injection Hy as <-.
      apply bind_ok in Hz as (b & Gb & Hz). injection Hz as <-.
      pose proof (@subtract_same_shape _ _ (@getitem_level_shape _ _ _ _ _ _ _ Ga Gb)) as Hs.
      rewrite Ga, Gb. cbn [bind]. rewrite Hs. cbn [bind].
      eexists. split; [reflexivity |]. cbn [difference_of].
      split; [exact (@getitem_wf _ _ _ Hwf Ga) |].
      split; [exact (@getitem_wf _ _ _ Hwf Gb) | exact Hs].
  - destruct (snd loni <? fst loni).
    2: { split.
         - intros x H. injection H as <-. exists None, None.
           repeat split.
         - intros y z Hy Hz. injection Hy as <-. injection Hz as <-.
           exists None. split; [reflexivity | exact I]. }
    destruct (variable fh varname) as [v | e] eqn:Hv; cbn [bind];
      [| split; [intros ? H | intros ? ? H]; discriminate].
    specialize (Hwf v eq_refl). split.
    + intros x H.
      apply bind_ok in H as (dE & HdE & H).
      apply bind_ok in HdE as (aE & GaE & HdE).
      apply bind_ok in HdE as (bE & GbE & SE).
      apply bind_ok in H as (dW & HdW & H).
      apply bind_ok in HdW as (aW & GaW & HdW).
      apply bind_ok in HdW as (bW & GbW & SW).
      apply bind_ok in H as (r & Cr & H). injection H as <-.
      destruct (@subtract_concatenate _ _ _ _ _ _ 2
                  (@getitem_wf _ _ _ Hwf GaE) (@getitem_wf _ _ _ Hwf GbE)
                  (@getitem_wf _ _ _ Hwf GaW) (@getitem_wf _ _ _ Hwf GbW) SE SW)
        as [Fwd _].
      destruct (Fwd _ Cr) as (ra & rb & Ca & Cb & Wa & Wb & Hs).
      rewrite GaE, GaW, GbE, GbW. cbn [bind]. rewrite Ca, Cb. cbn [bind].
      exists (Some ra), (Some rb).
      split; [reflexivity |]. split; [reflexivity |].
      cbn [difference_of]. auto.
    + intros y z Hy Hz.
      apply bind_ok in Hy as (aE & GaE & Hy).
      apply bind_ok in Hy as (aW & GaW & Hy).
      apply bind_ok in Hy as (ra & Ca & Hy). injection Hy as <-.
      apply bind_ok in Hz as (bE & GbE & Hz).
      apply bind_ok in Hz as (bW & GbW & Hz).
      apply bind_ok in Hz as (rb & Cb & Hz). injection Hz as <-.
      pose proof (@subtract_same_shape _ _ (@getitem_level_shape _ _ _ _ _ _ _ GaE GbE)) as SE.
      pose proof (@subtract_same_shape _ _ (@getitem_level_shape _ _ _ _ _ _ _ GaW GbW)) as SW.
      destruct (@subtract_concatenate _ _ _ _ _ _ 2
                  (@getitem_wf _ _ _ Hwf GaE) (@getitem_wf _ _ _ Hwf GbE)
                  (@getitem_wf _ _ _ Hwf GaW) (@getitem_wf _ _ _ Hwf GbW) SE SW)
        as [_ Bwd].
      destruct (Bwd _ _ Ca Cb) as (r & Cr & Hs).
      rewrite GaE, GbE, GaW, GbW. cbn [bind]. rewrite SE. cbn [bind].
      rewrite SW. cbn [bind]. rewrite Cr. cbn [bind].
      eexists. split; [reflexivity |]. cbn [difference_of].
      split; [exact (@concatenate_wf _ _ _ _ (@getitem_wf _ _ _ Hwf GaE)
                                    (@getitem_wf _ _ _ Hwf GaW) Ca) |].
      split; [exact (@concatenate_wf _ _ _ _ (@getitem_wf _ _ _ Hwf GbE)
                                    (@getitem_wf _ _ _ Hwf GbW) Cb) |].
      exact Hs.
Qed.

Section StitchDifference.

Variables rd r1 r2 : Dataset -> index -> result (option ndarray).
Variables (n : nat) (timi : nat * nat).

Lemma difference_of_some (d : ndarray) (y z : option ndarray) :
  difference_of (Some d) y z ->
  exists a b, y = Some a /\ z = Some b
              /\ wf a /\ wf b /\ subtract a b = Ok d.
Proof.
  destruct y as [a |], z as [b |]; simpl; try contradiction.
  intros (Wa & Wb & Hs). eauto 8.
Qed.

Lemma difference_of_raw (x : option ndarray) (a b : ndarray) :
  difference_of x (Some a) (Some b) ->
  exists d, x = Some d /\ wf a /\ wf b /\ subtract a b = Ok d.
Proof.
  destruct x as [d |]; simpl; [| contradiction].
  intros (Wa & Wb & Hs). eauto 8.
Qed.

Lemma local_ok {A} (name : string) (v : option A) (a : A) :
  local name v = Ok a -> v = Some a.
Proof. destruct v; simpl; congruence. Qed.

(** Joining the read of a later file to the accumulated array. *)
Lemma join_difference (post : ndarray -> ndarray) fh ts vd v1 v2 :
  (forall a b d, subtract a b = Ok d ->
                 subtract (post a) (post b) = Ok (post d)) ->
  (forall a, wf a -> wf (post a)) ->
  reads_agree rd r1 r2 fh -> difference_of vd v1 v2 ->
  let join (read : Dataset -> index -> result (option ndarray)) varss :=
    (varss3 <- read fh ts ;;
     a <- local "varss" varss ;;
     b <- local "varss3" varss3 ;;
     r <- concatenate a b 0 ;;
     Ok (Some (post r))) in
  (forall x, join rd vd = Ok x ->
             exists y z, join r1 v1 = Ok y /\ join r2 v2 = Ok z
                         /\ difference_of x y z)
  /\ (forall y z, join r1 v1 = Ok y -> join r2 v2 = Ok z ->
                  exists x, join rd vd = Ok x /\ difference_of x y z).
Proof.
  intros Hpost Hpwf Hag Hrel join. subst join. cbv beta.
  destruct (Hag ts) as [Fwd Bwd]. split.
  - intros x H.
    apply bind_ok in H as (d3o & R3 & H).
    apply bind_ok in H as (d & Ld & H). apply local_ok in Ld. subst vd.
    apply bind_ok in H as (d3 & Ld3 & H). apply local_ok in Ld3.
    subst d3o.
    apply bind_ok in H as (r & Cr & H). injection H as <-.
    destruct (Fwd _ R3) as (y3 & z3 & Ry & Rz & Hrel3).
    apply difference_of_some in Hrel, Hrel3.
    destruct Hrel as (a & b & -> & -> & Wa & Wb & Hs).
    destruct Hrel3 as (a3 & b3 & -> & -> & Wa3 & Wb3 & Hs3).
    destruct (@subtract_concatenate _ _ _ _ _ _ 0 Wa Wb Wa3 Wb3 Hs Hs3)
      as [CF _].
    destruct (CF _ Cr) as (ra & rb & Ca & Cb & Wra & Wrb & Hsr).
    rewrite Ry, Rz. cbn [bind local]. rewrite Ca, Cb. cbn [bind].
    exists (Some (post ra)), (Some (post rb)).
    split; [reflexivity |]. split; [reflexivity |].
    cbn [difference_of]. auto.
  - intros y z Hy Hz.
    apply bind_ok in Hy as (a3o & Ry & Hy).
    apply bind_ok in Hy as (a & La & Hy). apply local_ok in La. subst v1.
    apply bind_ok in Hy as (a3 & La3 & Hy). apply local_ok in La3.
    subst a3o.
    apply bind_ok in Hy as (ra & Ca & Hy). injection Hy as <-.
    apply bind_ok in Hz as (b3o & Rz & Hz).
    apply bind_ok in Hz as (b & Lb & Hz). apply local_ok in Lb. subst v2.
    apply bind_ok in Hz as (b3 & Lb3 & Hz). apply local_ok in Lb3.
    subst b3o.
    apply bind_ok in Hz as (rb & Cb & Hz). injection Hz as <-.
    destruct (Bwd _ _ Ry Rz) as (x3 & Rx & Hrel3).
    apply difference_of_raw in Hrel, Hrel3.
    destruct Hrel as (d & -> & Wa & Wb & Hs).
    destruct Hrel3 as (d3 & -> & Wa3 & Wb3 & Hs3).
    destruct (@subtract_concatenate _ _ _ _ _ _ 0 Wa Wb Wa3 Wb3 Hs Hs3)
      as [_ CB].
    destruct (CB _ _ Ca Cb) as (r & Cr & Hsr).
    rewrite Rx. cbn [bind local]. rewrite Cr. cbn [bind].
    exists (Some (post r)). split; [reflexivity |].
    cbn [difference_of].
    split; [apply Hpwf; exact (@concatenate_wf _ _ _ _ Wa Wa3 Ca) |].
    split; [apply Hpwf; exact (@concatenate_wf _ _ _ _ Wb Wb3 Cb) |].
    auto.
Qed.

Lemma stitch_step_difference fh c vd v1 v2 :
  reads_agree rd r1 r2 fh -> difference_of vd v1 v2 ->
  (forall x, stitch_step rd n timi fh c vd = Ok x ->
             exists y z, stitch_step r1 n timi fh c v1 = Ok y
                         /\ stitch_step r2 n timi fh c v2 = Ok z
                         /\ difference_of x y z)
  /\ (forall y z, stitch_step r1 n timi fh c v1 = Ok y ->
                  stitch_step r2 n timi fh c v2 = Ok z ->
                  exists x, stitch_step rd n timi fh c vd = Ok x
                            /\ difference_of x y z).
Proof.
  intros Hag Hrel. unfold stitch_step.
  destruct (c =? 0); [apply Hag |].
  destruct (c =? n - 1).
  - apply (@join_difference (fun r => r)); auto.
  - apply (@join_difference squeeze);
      auto using subtract_squeeze, squeeze_wf.
Qed.

Lemma stitch_difference (files : list Dataset) :
  Forall (reads_agree rd r1 r2) files ->
  forall c vd v1 v2,
    difference_of vd v1 v2 ->
    (forall x, stitch rd n timi files c vd = Ok x ->
               exists y z, stitch r1 n timi files c v1 = Ok y
                           /\ stitch r2 n timi files c v2 = Ok z
                           /\ difference_of x y z)
    /\ (forall y z, stitch r1 n timi files c v1 = Ok y ->
                    stitch r2 n timi files c v2 = Ok z ->
                    exists x, stitch rd n timi files c vd = Ok x
                              /\ difference_of x y z).
Proof.
  induction 1 as [| fh rest Hag Hrest IH]; intros c vd v1 v2 Hrel.
  - cbn [stitch]. split.
    + intros x H. injection H as <-. eauto.
    + intros y z Hy Hz. injection Hy as <-. injection Hz as <-. eauto.
  - cbn [stitch].
    destruct (@stitch_step_difference fh c _ _ _ Hag Hrel) as [SF SB]. split.
    + intros x H. apply bind_ok in H as (vd' & Sd & H).
      destruct (SF _ Sd) as (v1' & v2' & S1 & S2 & Hrel').
      destruct (IH (S c) _ _ _ Hrel') as [LF _].
      destruct (LF _ H) as (y & z & Ly & Lz & Hxyz).
      rewrite S1, S2. cbn [bind]. eauto.
    + intros y z Hy Hz.
      apply bind_ok in Hy as (v1' & S1 & Hy).
      apply bind_ok in Hz as (v2' & S2 & Hz).
      destruct (SB _ _ S1 S2) as (vd' & Sd & Hrel').
      destruct (IH (S c) _ _ _ Hrel') as [_ LB].
      destruct (LB _ _ Hy Hz) as (x & Lx & Hxyz).
      rewrite Sd. cbn [bind]. eauto.
Qed.

End StitchDifference.

(** C7.  Over files whose stored field is a well-formed array,
    [get_E5_ss_4D_levdiffvar] with level indices [L1], [L2] returns an
    array exactly when raw mode, stitched in the same way, returns one at
    level [L1] and one at level [L2]; the two have one shape and the
    result is their elementwise difference, first minus second. *)
Theorem level_difference_is_difference_of_raw_reads :
  forall files varname timi L1 L2 lati loni,
    Forall (fun fh => forall v, variable fh varname = Ok v -> wf v) files ->
    (forall d,
        get_E5_ss_4D_levdiffvar files varname timi (L1, L2) lati loni
        = Ok d ->
        exists a b,
          raw_at_level files varname timi L1 lati loni = Ok a
          /\ raw_at_level files varname timi L2 lati loni = Ok b
          /\ shape a = shape b
          /\ length (data a) = length (data b)
          /\ d = mk (shape a) (zip_with Qminus (data a) (data b)))
    /\ (forall a b,
           raw_at_level files varname timi L1 lati loni = Ok a ->
           raw_at_level files varname timi L2 lati loni = Ok b ->
           get_E5_ss_4D_levdiffvar files varname timi (L1, L2) lati loni
           = Ok (mk (shape a) (zip_with Qminus (data a) (data b)))).
Proof.
  intros files varname timi L1 L2 lati loni Hwf.
  assert (Hag : Forall (reads_agree
                          (fun fh ts =>
                             read_levdiff fh varname ts (L1, L2) lati loni)
                          (read_level L1 lati loni varname)
                          (read_level L2 lati loni varname)) files).
  { eapply Forall_impl; [| exact Hwf].
    intros fh Hfh ts. now apply read_levdiff_level. }
  destruct (@stitch_difference _ _ _ (length files) timi files Hag
              0 None None None I) as [LF LB].
  unfold get_E5_ss_4D_levdiffvar, raw_at_level.
  rewrite levdiff_loop_stitch. split.
  - intros d H. apply bind_ok in H as (x & Sx & H).
    apply local_ok in H. subst x.
    destruct (LF _ Sx) as (y & z & Sy & Sz & Hrel).
    apply difference_of_some in Hrel.
    destruct Hrel as (a & b & -> & -> & Wa & Wb & Hs).
    apply subtract_ok in Hs. destruct Hs as [Sab ->].
    exists a, b. rewrite Sy, Sz. cbn [bind local].
    repeat split; try assumption. now apply wf_same_shape.
  - intros a b Ha Hb.
    apply bind_ok in Ha as (y & Sy & Ha). apply local_ok in Ha. subst y.
    apply bind_ok in Hb as (z & Sz & Hb). apply local_ok in Hb. subst z.
    destruct (LB _ _ Sy Sz) as (x & Sx & Hrel).
    apply difference_of_raw in Hrel.
    destruct Hrel as (d & -> & Wa & Wb & Hs).
    apply subtract_ok in Hs. destruct Hs as [Sab ->].
    rewrite Sx. reflexivity.
Qed.

Lemma level_difference_is_difference_of_raw_reads_witness :
  exists a b,
    raw_at_level [file_a; file_b; file_c] "T" (1, 0) 0 (0, 1) (3, 1) = Ok a
    /\ raw_at_level [file_a; file_b; file_c] "T" (1, 0) 2 (0, 1) (3, 1)
       = Ok b
    /\ shape a = [4; 2; 3]
    /\ get_E5_ss_4D_levdiffvar [file_a; file_b; file_c] "T" (1, 0) (0, 2)
                               (0, 1) (3, 1)
       = Ok (mk (shape a) (zip_with Qminus (data a) (data b))).
Proof.
  destruct (@level_difference_is_difference_of_raw_reads
              [file_a; file_b; file_c] "T"%string (1, 0) 0 2 (0, 1) (3, 1))
    as [Fwd Bwd].
  - repeat constructor; intros v Hv;
      vm_compute in Hv; injection Hv as <-; reflexivity.
  - destruct (Fwd (mk [4; 2; 3]
                      [-24; -24; -24; -24; -24; -24;
                       -24; -24; -24; -24; -24; -24;
                       -24; -24; -24; -24; -24; -24;
                       -24; -24; -24; -24; -24; -24]%Q))
      as (a & b & Ra & Rb & Sab & Lab & Ed).
    + vm_compute. reflexivity.
    + exists a, b. split; [exact Ra |]. split; [exact Rb |].
      split; [now injection Ed as -> |].
      apply Bwd; assumption.
Defined.


(** ** Elements of a raw read *)

Lemma nth_block (m k j : nat) (d : list Q) :
  j < m -> nth j (block m k d) 0%Q = nth (k * m + j) d 0%Q.
Proof.
  intro H. unfold block. rewrite nth_firstn.
  apply Nat.ltb_lt in H. rewrite H. apply nth_skipn.
Qed.

Lemma nth_flat_map_const (f : nat -> list Q) (l : list nat) (m : nat) :
  (forall k, In k l -> length (f k) = m) ->
  forall r c, r < length l -> c < m ->
              nth (r * m + c) (flat_map f l) 0%Q = nth c (f (nth r l 0)) 0%Q.
Proof.
  induction l as [| x l IH]; intros Hlen r c Hr Hc; [simpl in Hr; lia |].
  cbn [flat_map]. destruct r as [| r].
  - cbn [nth Nat.mul Nat.add]. apply app_nth1.
    rewrite Hlen by (left; reflexivity). exact Hc.
  - rewrite app_nth2 by (rewrite Hlen by (left; reflexivity); simpl; lia).
    rewrite Hlen by (left; reflexivity).
    replace (S r * m + c - m) with (r * m + c) by (simpl; lia).
    cbn [nth]. apply IH; [| simpl in Hr; lia | exact Hc].
    intros k Hk. apply Hlen. right. exact Hk.
Qed.

Lemma nth_interleave (ma mb : nat) (o : nat) :
  forall da db r c,
    length da = o * ma -> length db = o * mb ->
    r < o -> c < ma + mb ->
    nth (r * (ma + mb) + c) (interleave o ma mb da db) 0%Q
    = if c <? ma then nth (r * ma + c) da 0%Q
      else nth (r * mb + (c - ma)) db 0%Q.
Proof.
  induction o as [| o IH]; intros da db r c La Lb Hr Hc; [lia |].
  cbn [interleave].
  assert (Fa : length (firstn ma da) = ma)
    by (rewrite length_firstn; simpl in La; lia).
  assert (Fb : length (firstn mb db) = mb)
    by (rewrite length_firstn; simpl in Lb; lia).
  destruct r as [| r].
  - cbn [Nat.mul Nat.add]. destruct (c <? ma) eqn:E.
    + apply Nat.ltb_lt in E. rewrite app_nth1 by lia.
      rewrite nth_firstn. apply Nat.ltb_lt in E. now rewrite E.
    + apply Nat.ltb_ge in E. rewrite app_nth2 by lia.
      rewrite Fa, app_nth1 by lia.
      rewrite nth_firstn.
      assert (E' : (c - ma <? mb) = true) by (apply Nat.ltb_lt; lia).
      now rewrite E'.
  - rewrite app_nth2 by (rewrite Fa; simpl; lia).
    rewrite app_nth2 by (rewrite Fa, Fb; simpl; lia).
    rewrite Fa, Fb.
    replace (S r * (ma + mb) + c - ma - mb) with (r * (ma + mb) + c)
      by (simpl; lia).
    rewrite IH; try lia;
      try (rewrite length_skipn; simpl in La, Lb; lia).
    rewrite !nth_skipn.
    destruct (c <? ma); f_equal; simpl; lia.
Qed.

(** An element of a window of one time step is the stored element at
    the shifted position. *)
Lemma getitem_window_at (v : ndarray) (T LA LO i a b : nat)
      (ha hb : option nat) (r c : nat) :
  wf v -> shape v = [T; LA; LO] -> i < T ->
  r < stop LA ha - a -> c < stop LO hb - b ->
  nth (r * (stop LO hb - b) + c)
      (getitem_data [Idx i; Slice a ha; Slice b hb] [T; LA; LO] (data v))
      0%Q
  = at3 v i (a + r) (b + c).
Proof.
  unfold wf, at3; intros Hw Hs Hi Hr Hc. rewrite Hs in *.
  cbn [size fold_right] in Hw. cbn [nth].
  assert (HLA : stop LA ha <= LA) by (destruct ha; simpl; lia).
  assert (HLO : stop LO hb <= LO) by (destruct hb; simpl; lia).
  cbn [getitem_data selected flat_map size fold_right].
  rewrite app_nil_r.
  set (B := block (LA * (LO * 1)) i (data v)).
  assert (LB : length B = LA * (LO * 1))
    by (apply block_length with (n := T); [lia | exact Hi]).
  rewrite (@nth_flat_map_const _ _ (stop LO hb - b)); try assumption;
    [| | rewrite length_seq; exact Hr].
  2: { intros k Hk. apply in_seq in Hk.
       rewrite (@flat_map_length_const _ _ _ 1), length_seq; [lia |].
       intros lo Hlo. apply in_seq in Hlo.
       apply block_length with (n := LO); [| lia].
       rewrite (@block_length _ _ LA); lia. }
  rewrite seq_nth by exact Hr.
  set (B' := block (LO * 1) (a + r) B).
  replace (c) with (c * 1 + 0) at 1 by lia.
  rewrite (@nth_flat_map_const _ _ 1); try lia;
    [| | rewrite length_seq; exact Hc].
  2: { intros lo Hlo. apply in_seq in Hlo.
       apply block_length with (n := LO); [| lia].
       unfold B'. rewrite (@block_length _ _ LA); lia. }
  rewrite seq_nth by exact Hc.
  rewrite nth_block by lia. unfold B'. rewrite nth_block by lia.
  unfold B. rewrite nth_block by nia.
  f_equal. nia.
Qed.

(** The elements of a raw read are the stored elements of the window:
    row [r] is latitude index [lati[0] + r]; column [c] is longitude
    index [loni[0] + c], continuing from index 0 after the end of the
    axis when the window crosses the seam. *)
Lemma raw_read_2D_at f varname v (T LA LO i : nat) lati loni raw r c :
  variable f varname = Ok v -> wf v -> shape v = [T; LA; LO] -> i < T ->
  fst lati <= snd lati -> snd lati < LA ->
  fst loni < LO -> snd loni < LO ->
  raw_read_2D f varname i lati loni = Ok raw ->
  r <= snd lati - fst lati ->
  (fst loni < snd loni -> c <= snd loni - fst loni ->
   at2 raw r c = at3 v i (fst lati + r) (fst loni + c))
  /\ (snd loni < fst loni ->
      (c < LO - fst loni ->
       at2 raw r c = at3 v i (fst lati + r) (fst loni + c))
      /\ (LO - fst loni <= c -> c - (LO - fst loni) <= snd loni ->
          at2 raw r c = at3 v i (fst lati + r) (c - (LO - fst loni)))).
Proof.
  intros Hv Hw Hs Hi Hla1 Hla2 Hlo1 Hlo2 Hraw Hr.
  unfold raw_read_2D in Hraw. rewrite Hv in Hraw. cbn [bind] in Hraw.
  assert (Sla : stop LA (Some (snd lati + 1)) - fst lati
                = snd lati + 1 - fst lati) by (cbn [stop]; lia).
  assert (SloW : stop LO (Some (snd loni + 1)) = snd loni + 1)
    by (cbn [stop]; lia).
  destruct (fst loni <? snd loni) eqn:En.
  - apply Nat.ltb_lt in En.
    rewrite (@getitem_window v i T LA LO _ _ _ _ Hs Hi) in Hraw.
    injection Hraw as <-. split; [| intros; lia].
    intros _ Hc. unfold at2. cbn [shape data nth].
    apply (@getitem_window_at v T LA LO i (fst lati) (fst loni)
             (Some (snd lati + 1)) (Some (snd loni + 1)) r c);
      try assumption; cbn [stop]; lia.
  - apply Nat.ltb_ge in En. split; [intros; lia |]. intros Hw'.
    pose proof (@getitem_window v i T LA LO (fst lati) (fst loni)
                  (Some (snd lati + 1)) None Hs Hi) as GE.
    pose proof (@getitem_window v i T LA LO (fst lati) 0
                  (Some (snd lati + 1)) (Some (snd loni + 1)) Hs Hi) as GW.
    pose proof (@getitem_wf _ _ _ Hw GE) as WE.
    pose proof (@getitem_wf _ _ _ Hw GW) as WW.
    rewrite GE, GW in Hraw. cbn [bind] in Hraw.
    erewrite concatenate_columns in Hraw by reflexivity.
    injection Hraw as <-. unfold at2. cbn [shape data nth].
    unfold wf in WE, WW. cbn [shape data size fold_right] in WE, WW.
    set (nE := LO - fst loni). set (nW := Nat.min (snd loni + 1) LO - 0).
    cbn [stop] in WE, WW. fold nE in WE. fold nW in WW.
    assert (HnW : nW = snd loni + 1) by (unfold nW; lia).
    replace (r * (nE + nW) + c) with (r * (nE * 1 + nW * 1) + c) by lia.
    split.
    + intros Hc1. fold nE in Hc1.
      etransitivity;
        [apply (@nth_interleave (nE * 1) (nW * 1) _ _ _ r c WE WW); lia |].
      replace (c <? nE * 1) with (c <? nE) by (now rewrite Nat.mul_1_r).
      assert (E : (c <? nE) = true)
        by (apply Nat.ltb_lt; lia).
      rewrite E. replace (r * (nE * 1) + c) with (r * nE + c) by lia.
      apply (@getitem_window_at v T LA LO i (fst lati) (fst loni)
               (Some (snd lati + 1)) None r c); try assumption;
        cbn [stop]; lia.
    + intros Hc1 Hc2. fold nE in Hc1, Hc2.
      etransitivity;
        [apply (@nth_interleave (nE * 1) (nW * 1) _ _ _ r c WE WW); lia |].
      replace (c <? nE * 1) with (c <? nE) by (now rewrite Nat.mul_1_r).
      assert (E : (c <? nE) = false)
        by (apply Nat.ltb_ge; lia).
      rewrite E.
      replace (r * (nW * 1) + (c - nE * 1)) with (r * nW + (c - nE))
        by lia.
      apply (@getitem_window_at v T LA LO i (fst lati) 0
               (Some (snd lati + 1)) (Some (snd loni + 1)) r
               (c - nE)); try assumption;
        cbn [stop]; lia.
Qed.

(* ================================================================== *)
(** * Further properties of the readers and locators *)
(* ================================================================== *)

(** ** A longitude window of one column *)

Lemma levavg_loop_stitch n varname timi levi lati loni files :
  forall c varss,
    levavg_loop n varname timi levi lati loni files c varss
    = stitch (fun fh ts => read_levavg fh varname ts levi lati loni)
             n timi files c varss.
Proof.
  induction files as [| fh rest IH]; intros c varss; [reflexivity |].
  cbn [levavg_loop stitch]. unfold stitch_step.
  apply bind_ext. intro x. apply IH.
Qed.

(** When no read assigns anything, the accumulated array is never
    assigned, and the first use of it stops the loop. *)
Lemma stitch_unassigned (read : Dataset -> index -> result (option ndarray))
      (n : nat) (timi : nat * nat) :
  (forall fh ts, read fh ts = Ok None) ->
  forall files c,
    (varss <- stitch read n timi files c None ;; local "varss" varss)
    = Raise (UnboundLocalError "varss").
Proof.
  intros Hread files. induction files as [| fh rest IH]; intro c;
    [reflexivity |].
  cbn [stitch]. unfold stitch_step.
  destruct (c =? 0).
  - rewrite Hread. cbn [bind]. apply IH.
  - destruct (c =? n - 1); rewrite Hread; reflexivity.
Qed.

(** X1. With a longitude window whose two indices are equal, none of
    the three 4-D readers reads anything: whatever the file list, the
    time, level and latitude indices and the variable name, each call
    ends in [UnboundLocalError] on the array [varss]. *)
Theorem one_column_window_is_never_read :
  forall files varname timi levi lati i,
    get_E5_ss_4D_var files varname timi levi lati (i, i)
    = Raise (UnboundLocalError "varss")
    /\ get_E5_ss_4D_levavgvar files varname timi levi lati (i, i)
       = Raise (UnboundLocalError "varss")
    /\ get_E5_ss_4D_levdiffvar files varname timi levi lati (i, i)
       = Raise (UnboundLocalError "varss").
Proof.
  intros files varname timi levi lati i.
  unfold get_E5_ss_4D_var, get_E5_ss_4D_levavgvar, get_E5_ss_4D_levdiffvar.
  rewrite var_loop_stitch, levavg_loop_stitch, levdiff_loop_stitch.
  repeat split; apply stitch_unassigned; intros fh ts.
  - unfold read_4D. cbn [fst snd]. now rewrite Nat.ltb_irrefl.
  - unfold read_levavg. cbn [fst snd]. now rewrite Nat.ltb_irrefl.
  - unfold read_levdiff. cbn [fst snd]. now rewrite Nat.ltb_irrefl.
Qed.

(** X2. The 2-D reader with a longitude window of equal indices: in
    each of the three accepted combinations of files and time indices
    the result is never assigned, so the call ends in
    [UnboundLocalError], on [varss] at an exact time and on [varall]
    when interpolating. *)
Theorem one_column_window_2D_is_never_read :
  forall fh varname timi i lati times ctime,
    (length fh = 1 -> length timi = 1 ->
     get_E5_ss_2D_var fh varname timi (i, i) lati times ctime
     = Raise (UnboundLocalError "varss"))
    /\ (length fh = 1 \/ length fh = 2 -> length timi = 2 ->
        get_E5_ss_2D_var fh varname timi (i, i) lati times ctime
        = Raise (UnboundLocalError "varall")).
Proof.
  intros fh varname timi i lati times ctime.
  unfold get_E5_ss_2D_var. cbn [fst snd]. rewrite Nat.ltb_irrefl.
  split.
  - intros -> ->. reflexivity.
  - intros [-> | ->] ->; reflexivity.
Qed.

Lemma one_column_window_2D_is_never_read_witness :
  get_E5_ss_2D_var [file_a] "CAPE" [1] (2, 2) (0, 2) (Float 1) 1
  = Raise (UnboundLocalError "varss")
  /\ get_E5_ss_2D_var [file_a; file_b] "CAPE" [1; 0] (2, 2) (0, 2)
                      (Floats [1; 2]%Q) (3 # 2)
     = Raise (UnboundLocalError "varall").
Proof.
  split.
  - apply (one_column_window_2D_is_never_read
             [file_a] "CAPE" [1] 2 (0, 2) (Float 1) 1); reflexivity.
  - apply (one_column_window_2D_is_never_read
             [file_a; file_b] "CAPE" [1; 0] 2 (0, 2)
             (Floats [1; 2]%Q) (3 # 2)); [right |]; reflexivity.
Defined.

(** ** A variable that the file does not hold *)

Lemma lookup_missing (key : string) (vars : list (string * ndarray)) :
  ~ In key (map fst vars) -> lookup key vars = Raise (KeyError key).
Proof.
  induction vars as [| [k v] vars IH]; intro H; [reflexivity |].
  cbn [lookup]. destruct (String.eqb k key) eqn:E.
  - apply String.eqb_eq in E. exfalso. apply H. left. exact E.
  - apply IH. intro Hin. apply H. right. exact Hin.
Qed.

Lemma lookup_present (key : string) (vars : list (string * ndarray))
      (v : ndarray) :
  lookup key vars = Ok v -> In (key, v) vars.
Proof.
  induction vars as [| [k w] vars IH]; intro H; [discriminate |].
  cbn [lookup] in H. destruct (String.eqb k key) eqn:E.
  - apply String.eqb_eq in E. injection H as ->. left. now subst.
  - right. apply IH. exact H.
Qed.

(** X3. A variable name that the first file does not hold is reported
    as [KeyError] by every reader, for any window with two distinct
    longitude indices. *)
Theorem missing_variable_is_key_error :
  forall f rest varname timi levi lati loni,
    ~ In varname (map fst (variables f)) ->
    fst loni <> snd loni ->
    get_E5_ss_4D_var (f :: rest) varname timi levi lati loni
    = Raise (KeyError varname)
    /\ get_E5_ss_4D_levavgvar (f :: rest) varname timi levi lati loni
       = Raise (KeyError varname)
    /\ get_E5_ss_4D_levdiffvar (f :: rest) varname timi levi lati loni
       = Raise (KeyError varname)
    /\ (forall t times ctime,
           get_E5_ss_2D_var [f] varname [t] loni lati times ctime
           = Raise (KeyError varname))
    /\ (forall t1 t2 times ctime,
           get_E5_ss_2D_var [f] varname [t1; t2] loni lati times ctime
           = Raise (KeyError varname))
    /\ (forall g t1 t2 times ctime,
           get_E5_ss_2D_var [f; g] varname [t1; t2] loni lati times ctime
           = Raise (KeyError varname)).
Proof.
  intros f rest varname timi levi lati loni Hmiss Hne.
  pose proof (lookup_missing _ _ Hmiss) as Hv.
  assert (Hlt : (fst loni <? snd loni) = true
                \/ ((fst loni <? snd loni) = false
                    /\ (snd loni <? fst loni) = true)).
  { destruct (fst loni <? snd loni) eqn:E; [now left | right].
    split; [reflexivity |]. apply Nat.ltb_ge in E. apply Nat.ltb_lt. lia. }
  unfold get_E5_ss_4D_var, get_E5_ss_4D_levavgvar, get_E5_ss_4D_levdiffvar,
    get_E5_ss_2D_var.
  cbn [var_loop levavg_loop levdiff_loop Nat.eqb length item nth_error].
  unfold read_4D, read_levavg, read_levdiff, variable.
  cbn [bind andb].
  destruct Hlt as [E | [E1 E2]].
  - rewrite E, Hv. repeat split; reflexivity.
  - rewrite E1, E2, Hv. repeat split; reflexivity.
Qed.

Lemma missing_variable_is_key_error_witness :
  get_E5_ss_4D_var [file_a; file_b] "Z" (0, 1) (0, 2) (0, 2) (0, 3)
  = Raise (KeyError "Z")
  /\ get_E5_ss_4D_levavgvar [file_a; file_b] "Z" (0, 1) (0, 2) (0, 2) (0, 3)
     = Raise (KeyError "Z")
  /\ get_E5_ss_4D_levdiffvar [file_a; file_b] "Z" (0, 1) (0, 2) (0, 2) (0, 3)
     = Raise (KeyError "Z")
  /\ (forall t times ctime,
         get_E5_ss_2D_var [file_a] "Z" [t] (0, 3) (0, 2) times ctime
         = Raise (KeyError "Z"))
  /\ (forall t1 t2 times ctime,
         get_E5_ss_2D_var [file_a] "Z" [t1; t2] (0, 3) (0, 2) times ctime
         = Raise (KeyError "Z"))
  /\ (forall g t1 t2 times ctime,
         get_E5_ss_2D_var [file_a; g] "Z" [t1; t2] (0, 3) (0, 2) times ctime
         = Raise (KeyError "Z")).
Proof.
  apply (missing_variable_is_key_error file_a [file_b] "Z" (0, 1) (0, 2)
           (0, 2) (0, 3)).
  - cbn. intros [H | [H | []]]; discriminate H.
  - cbn. lia.
Defined.

(** ** The shape of a read of one file *)

Lemma getitem_slices4 (v : ndarray) (T L LA LO : nat) (a b c d : nat)
      (ha hb hc hd : option nat) :
  shape v = [T; L; LA; LO] ->
  getitem v [Slice a ha; Slice b hb; Slice c hc; Slice d hd]
  = Ok (mk [stop T ha - a; stop L hb - b; stop LA hc - c; stop LO hd - d]
           (getitem_data [Slice a ha; Slice b hb; Slice c hc; Slice d hd]
                         [T; L; LA; LO] (data v))).
Proof. intro H. unfold getitem. rewrite H. reflexivity. Qed.

Lemma concatenate_last4 (a b : ndarray) (n0 n1 n2 ma mb : nat) :
  shape a = [n0; n1; n2; ma] -> shape b = [n0; n1; n2; mb] ->
  concatenate a b 3
  = Ok (mk [n0; n1; n2; ma + mb]
           (interleave (n0 * (n1 * (n2 * 1))) (ma * 1) (mb * 1)
                       (data a) (data b))).
Proof.
  intros Ha Hb. unfold concatenate. rewrite Ha, Hb.
  cbn [length Nat.eqb negb Nat.ltb Nat.leb firstn skipn shape_eqb nth
       size fold_right].
  rewrite !Nat.eqb_refl. reflexivity.
Qed.

(** The array read from one file for a time slice: every subscript is a
    slice, so an index past the end of an axis shortens the axis and
    never fails. *)
Lemma read_4D_shape fh varname v (T L LA LO : nat) lo hi levi lati loni :
  variable fh varname = Ok v -> shape v = [T; L; LA; LO] ->
  fst loni <> snd loni ->
  exists arr,
    read_4D fh varname (Slice lo hi) levi lati loni = Ok (Some arr)
    /\ shape arr
       = (stop T hi - lo) :: window_extent L LA LO levi lati loni.
Proof.
  intros Hv Hs Hne. unfold read_4D, window_extent. rewrite Hv. cbn [bind].
  destruct (fst loni <? snd loni) eqn:E.
  - rewrite (getitem_slices4 _ _ _ _ _ _ _ _ _ Hs). cbn [bind].
    eexists; split; reflexivity.
  - assert (E' : (snd loni <? fst loni) = true).
    { apply Nat.ltb_ge in E. apply Nat.ltb_lt. lia. }
    rewrite E'.
    rewrite !(getitem_slices4 _ _ _ _ _ _ _ _ _ Hs). cbn [bind].
    erewrite concatenate_last4 by reflexivity. cbn [bind].
    eexists; split; [reflexivity |]. cbn [shape stop].
    now rewrite Nat.sub_0_r.
Qed.

(** X4. A raw read of one file never fails on its indices: for a
    four-dimensional variable and two distinct longitude indices the
    array is returned with each axis cut at the end of the stored axis:
    time from [timi[0]] to the end, then the extents of
    [window_extent]. *)
Theorem single_file_read_shape :
  forall fh varname v T L LA LO t0 t1 levi lati loni,
    variable fh varname = Ok v ->
    shape v = [T; L; LA; LO] ->
    fst loni <> snd loni ->
    exists arr,
      get_E5_ss_4D_var [fh] varname (t0, t1) levi lati loni = Ok arr
      /\ shape arr = (T - t0) :: window_extent L LA LO levi lati loni.
Proof.
  intros fh varname v T L LA LO t0 t1 levi lati loni Hv Hs Hne.
  destruct (@read_4D_shape fh varname v T L LA LO t0 None levi lati loni
              Hv Hs Hne) as (arr & Hr & Hshape).
  exists arr. split; [| exact Hshape].
  unfold get_E5_ss_4D_var. cbn [length var_loop Nat.eqb fst].
  rewrite Hr. reflexivity.
Qed.

Lemma single_file_read_shape_witness :
  exists arr,
    get_E5_ss_4D_var [file_a] "T" (1, 7) (1, 9) (2, 5) (3, 1) = Ok arr
    /\ shape arr = [1; 2; 1; 3].
Proof.
  destruct (@single_file_read_shape file_a "T"
              (mk [2; 3; 3; 4] (ramp 0 72)) 2 3 3 4 1 7 (1, 9) (2, 5) (3, 1))
    as (arr & H1 & H2).
  - reflexivity.
  - reflexivity.
  - cbn. lia.
  - exists arr. split; [exact H1 | exact H2].
Defined.

(** ** Any number of files *)

Lemma squeeze_no_unit (a : ndarray) :
  Forall (fun x => x <> 1) (shape a) -> squeeze a = a.
Proof.
  intro H. destruct a as [sh d]. unfold squeeze. cbn [shape data] in *.
  f_equal. induction H as [| x sh Hx _ IH]; [reflexivity |].
  cbn [filter]. apply Nat.eqb_neq in Hx. rewrite Hx. cbn [negb].
  now rewrite IH.
Qed.

Section StitchJoin.

Variable read : Dataset -> index -> result (option ndarray).
Variable n : nat.
Variable timi : nat * nat.
Variable s : list nat.
Hypothesis no_unit : Forall (fun x => x <> 1) s.

Lemma stitch_app (l1 l2 : list Dataset) :
  forall c v,
    stitch read n timi (l1 ++ l2) c v
    = (v' <- stitch read n timi l1 c v ;;
       stitch read n timi l2 (c + length l1) v').
Proof.
  induction l1 as [| f l1 IH]; intros c v.
  - cbn [app stitch bind length]. now rewrite Nat.add_0_r.
  - cbn [app stitch length].
    destruct (stitch_step read n timi f c v) as [v' | e];
      [| reflexivity].
    cbn [bind]. rewrite IH. now rewrite Nat.add_succ_r.
Qed.

(** The middle files: each whole file is appended along axis 0, and the
    squeeze after it changes nothing when no extent is one. *)
Lemma stitch_middles (mids : list Dataset) :
  forall pieces c acc na,
    Forall2 (fun f a => read f (Slice 0 None) = Ok (Some a)) mids pieces ->
    Forall (fun a => wf a /\ tl (shape a) = s /\ 1 <= hd 0 (shape a))
           pieces ->
    wf acc -> shape acc = na :: s -> 1 <= na ->
    1 <= c -> c + length mids <= n - 1 ->
    stitch read n timi mids c (Some acc)
    = Ok (Some (mk ((na + list_sum (map (fun a => hd 0 (shape a)) pieces))
                      :: s)
                   (data acc ++ flat_map data pieces))).
Proof.
  induction mids as [| f mids IH];
    intros pieces c acc na HF HP Hw Hs Hna Hc Hn.
  - inversion HF; subst. cbn [stitch map list_sum flat_map].
    rewrite Nat.add_0_r, app_nil_r, <- Hs. now rewrite ndarray_eta.
  - inversion HF as [| f' a mids' pieces' Hr HF' E1 E2]; subst.
    apply Forall_cons_iff in HP. destruct HP as [(Hwa & Hta & Hha) HP].
    cbn [stitch length] in *. unfold stitch_step.
    assert (E0 : (c =? 0) = false) by (apply Nat.eqb_neq; lia).
    assert (En : (c =? n - 1) = false) by (apply Nat.eqb_neq; lia).
    rewrite E0, En, Hr. cbn [bind local].
    assert (Hsa : shape a = hd 0 (shape a) :: s).
    { destruct (shape a) as [| k sa]; cbn [hd tl] in *; [lia |].
      now subst. }
    rewrite (@concatenate_axis0_ok acc a na (hd 0 (shape a)) s Hw Hwa Hs Hsa).
    cbn [bind].
    rewrite squeeze_no_unit.
    2: { cbn [shape]. constructor; [lia | exact no_unit]. }
    rewrite (IH pieces' (S c) _ (na + hd 0 (shape a))); try assumption;
      try lia; try reflexivity.
    + do 2 f_equal. f_equal.
      * f_equal. simpl. lia.
      * simpl. now rewrite app_assoc.
    + unfold wf in *. cbn [shape data size fold_right] in *.
      rewrite length_app, Hw, Hwa, Hs, Hsa. cbn [size fold_right hd].
      now rewrite Nat.mul_add_distr_r.
Qed.

(** First file, middle files, last file. *)
Lemma stitch_all (f0 fl : Dataset) (mids : list Dataset)
      (a0 al : ndarray) (pieces : list ndarray) :
  n = length (f0 :: mids ++ [fl]) ->
  read f0 (Slice (fst timi) None) = Ok (Some a0) ->
  Forall2 (fun f a => read f (Slice 0 None) = Ok (Some a)) mids pieces ->
  read fl (Slice 0 (Some (snd timi + 1))) = Ok (Some al) ->
  Forall (fun a => wf a /\ tl (shape a) = s /\ 1 <= hd 0 (shape a))
         (a0 :: pieces) ->
  wf al -> tl (shape al) = s -> shape al <> [] ->
  stitch read n timi (f0 :: mids ++ [fl]) 0 None
  = Ok (Some (mk (list_sum (map (fun a => hd 0 (shape a))
                                (a0 :: pieces ++ [al])) :: s)
                 (flat_map data (a0 :: pieces ++ [al])))).
Proof.
  intros Hn H0 HF Hl HP Hwl Htl Hnl.
  apply Forall_cons_iff in HP. destruct HP as [(Hw0 & Ht0 & Hh0) HP].
  assert (Hs0 : shape a0 = hd 0 (shape a0) :: s).
  { destruct (shape a0) as [| k sa]; cbn [hd tl] in *; [lia |].
    now subst. }
  assert (Hsl : shape al = hd 0 (shape al) :: s).
  { destruct (shape al) as [| k sa]; cbn [hd tl] in *; [congruence |].
    now subst. }
  cbn [length] in Hn. rewrite length_app in Hn. cbn [length] in Hn.
  cbn [stitch]. unfold stitch_step at 1. cbn [Nat.eqb]. rewrite H0.
  cbn [bind]. rewrite stitch_app.
  rewrite (@stitch_middles mids pieces 1 a0 (hd 0 (shape a0)));
    try assumption; try lia.
  cbn [bind stitch]. unfold stitch_step.
  assert (E0 : (1 + length mids =? 0) = false) by (apply Nat.eqb_neq; lia).
  assert (En : (1 + length mids =? n - 1) = true)
    by (apply Nat.eqb_eq; lia).
  rewrite E0, En, Hl. cbn [bind local].
  erewrite concatenate_axis0_ok; [| | exact Hwl | reflexivity | exact Hsl].
  - cbn [bind data]. do 2 f_equal. f_equal.
    + f_equal. cbn [map]. rewrite map_app. simpl.
      rewrite list_sum_app. simpl. lia.
    + cbn [flat_map]. rewrite flat_map_app. simpl.
      now rewrite app_nil_r, app_assoc.
  - unfold wf in *. cbn [shape data size fold_right].
    rewrite length_app, Hw0, Hs0. cbn [size fold_right].
    assert (HL : length (flat_map data pieces)
                 = list_sum (map (fun a => hd 0 (shape a)) pieces) * size s).
    { clear - HP. unfold list_sum, size in *.
      induction HP as [| a l (Hw & Ht & Hh) _ IH]; [reflexivity |].
      cbn [flat_map map fold_right]. rewrite length_app, IH, Hw.
      destruct (shape a) as [| k sa]; cbn [hd tl] in *; [lia |].
      subst. cbn [fold_right]. nia. }
    rewrite HL. unfold list_sum, size. cbn [hd]. nia.
Qed.

End StitchJoin.

(** A file whose variable is well formed, four-dimensional with the
    stored extents [L], [LA], [LO], and holds at least one time step. *)
Lemma whole_file_read fh varname (L LA LO : nat) levi lati loni hi :
  (exists v, variable fh varname = Ok v /\ wf v
             /\ tl (shape v) = [L; LA; LO] /\ 1 <= hd 0 (shape v)) ->
  fst loni <> snd loni ->
  exists v a,
    variable fh varname = Ok v
    /\ read_4D fh varname (Slice 0 hi) levi lati loni = Ok (Some a)
    /\ wf a
    /\ shape a = stop (hd 0 (shape v)) hi
                 :: window_extent L LA LO levi lati loni.
Proof.
  intros (v & Hv & Hw & Ht & Hh) Hne.
  assert (Hs : shape v = [hd 0 (shape v); L; LA; LO]).
  { destruct (shape v) as [| k sv]; cbn [hd tl] in *; [lia |]. now subst. }
  destruct (@read_4D_shape fh varname v _ L LA LO 0 hi levi lati loni
              Hv Hs Hne) as (a & Hr & Hsa).
  exists v, a. repeat split; try assumption.
  - exact (@read_4D_wf _ _ _ _ _ _ _ _ Hv Hw Hr).
  - rewrite Hsa. now rewrite Nat.sub_0_r.
Qed.

Lemma whole_files_read varname (L LA LO : nat) levi lati loni
      (mids : list Dataset) :
  Forall (fun f => exists v, variable f varname = Ok v /\ wf v
                             /\ tl (shape v) = [L; LA; LO]
                             /\ 1 <= hd 0 (shape v)) mids ->
  fst loni <> snd loni ->
  exists pieces,
    Forall2 (fun f a => read_4D f varname (Slice 0 None) levi lati loni
                        = Ok (Some a)) mids pieces
    /\ Forall (fun a => wf a
                        /\ tl (shape a) = window_extent L LA LO levi lati loni
                        /\ 1 <= hd 0 (shape a)) pieces.
Proof.
  intros HF Hne. induction HF as [| f mids Hf _ (pieces & IH1 & IH2)].
  - exists []. split; constructor.
  - destruct Hf as (v & Hv & Hw & Ht & Hh).
    destruct (@whole_file_read f varname L LA LO levi lati loni None)
      as (v' & a & Hv' & Hr & Hwa & Hsa); [eauto 6 | exact Hne |].
    rewrite Hv in Hv'. injection Hv' as <-.
    exists (a :: pieces). split; constructor; try assumption.
    rewrite Hsa. cbn [stop hd tl]. auto.
Qed.

(** X5. Any number of files: when every file holds a well-formed
    four-dimensional variable with the same stored grid and at least one
    time step, the first one has a step at [timi[0]], the two longitude
    indices differ and no extent of the window is one, the raw reader
    returns the reads of the files joined along time in file order: the
    first file from [timi[0]] on, the middle files whole, the last file
    up to [timi[1]]. *)
Theorem files_are_joined_in_order :
  forall f0 mids fl varname t0 t1 levi lati loni (L LA LO : nat),
    Forall (fun f => exists v, variable f varname = Ok v /\ wf v
                               /\ tl (shape v) = [L; LA; LO]
                               /\ 1 <= hd 0 (shape v))
           (f0 :: mids ++ [fl]) ->
    (exists v0, variable f0 varname = Ok v0 /\ t0 < hd 0 (shape v0)) ->
    fst loni <> snd loni ->
    Forall (fun x => x <> 1) (window_extent L LA LO levi lati loni) ->
    exists a0 pieces al,
      read_4D f0 varname (Slice t0 None) levi lati loni = Ok (Some a0)
      /\ Forall2 (fun f a => read_4D f varname (Slice 0 None) levi lati loni
                             = Ok (Some a)) mids pieces
      /\ read_4D fl varname (Slice 0 (Some (t1 + 1))) levi lati loni
         = Ok (Some al)
      /\ get_E5_ss_4D_var (f0 :: mids ++ [fl]) varname (t0, t1)
                          levi lati loni
         = Ok (mk (list_sum (map (fun a => hd 0 (shape a))
                                 (a0 :: pieces ++ [al]))
                     :: window_extent L LA LO levi lati loni)
                  (flat_map data (a0 :: pieces ++ [al]))).
Proof.
  intros f0 mids fl varname t0 t1 levi lati loni L LA LO HF (v0 & Hv0 & Ht0)
         Hne Hunit.
  apply Forall_cons_iff in HF. destruct HF as [H0 HF].
  apply Forall_app in HF. destruct HF as [Hm Hl].
  apply Forall_cons_iff in Hl. destruct Hl as [Hl _].
  (* first file *)
  destruct H0 as (v & Hv & Hw & Ht & Hh).
  rewrite Hv0 in Hv. injection Hv as <-.
  assert (Hs0 : shape v0 = [hd 0 (shape v0); L; LA; LO]).
  { destruct (shape v0) as [| k sv]; cbn [hd tl] in *; [lia |]. now subst. }
  destruct (@read_4D_shape f0 varname v0 _ L LA LO t0 None levi lati loni
              Hv0 Hs0 Hne) as (a0 & Hr0 & Hsa0).
  pose proof (@read_4D_wf _ _ _ _ _ _ _ _ Hv0 Hw Hr0) as Hwa0.
  (* middle files *)
  destruct (@whole_files_read varname L LA LO levi lati loni mids Hm Hne)
    as (pieces & HF2 & HP).
  (* last file *)
  destruct (@whole_file_read fl varname L LA LO levi lati loni
              (Some (t1 + 1)) Hl Hne)
    as (vl & al & Hvl & Hrl & Hwal & Hsal).
  exists a0, pieces, al. repeat split; try assumption.
  unfold get_E5_ss_4D_var. rewrite var_loop_stitch.
  rewrite (@stitch_all (fun fh ts => read_4D fh varname ts levi lati loni)
             (length (f0 :: mids ++ [fl])) (t0, t1)
             (window_extent L LA LO levi lati loni) Hunit
             f0 fl mids a0 al pieces); try assumption; try reflexivity.
  - constructor; [| exact HP]. rewrite Hsa0. cbn [stop hd tl].
    repeat split; try assumption. lia.
  - now rewrite Hsal.
  - rewrite Hsal. discriminate.
Qed.

Lemma files_are_joined_in_order_witness :
  exists a0 pieces al,
    read_4D file_a "T" (Slice 1 None) (0, 2) (0, 1) (3, 1) = Ok (Some a0)
    /\ Forall2 (fun f a => read_4D f "T" (Slice 0 None) (0, 2) (0, 1) (3, 1)
                           = Ok (Some a)) [file_b; file_b] pieces
    /\ read_4D file_c "T" (Slice 0 (Some (0 + 1))) (0, 2) (0, 1) (3, 1)
       = Ok (Some al)
    /\ get_E5_ss_4D_var (file_a :: [file_b; file_b] ++ [file_c]) "T" (1, 0)
                        (0, 2) (0, 1) (3, 1)
       = Ok (mk (list_sum (map (fun a => hd 0 (shape a))
                               (a0 :: pieces ++ [al]))
                   :: window_extent 3 3 4 (0, 2) (0, 1) (3, 1))
                (flat_map data (a0 :: pieces ++ [al]))).
Proof.
  apply (@files_are_joined_in_order file_a [file_b; file_b] file_c "T" 1 0
           (0, 2) (0, 1) (3, 1) 3 3 4).
  - repeat constructor; eexists; (split; [reflexivity |]);
      repeat split; cbn; lia.
  - eexists. split; [reflexivity |]. cbn. lia.
  - cbn. lia.
  - repeat constructor; cbn; lia.
Defined.

(** ** Level-mean mode over a window of one level *)

Lemma Qdiv_one (x : Q) : (x / inject_Z (Z.of_nat 1))%Q = x.
Proof.
  destruct x as [a b]. unfold Qdiv, Qmult, Qinv. cbn.
  now rewrite Z.mul_1_r, Pos.mul_1_r.
Qed.

Lemma map_Qdiv_one (l : list Q) :
  map (fun x => (x / inject_Z (Z.of_nat 1))%Q) l = l.
Proof.
  induction l as [| x l IH]; [reflexivity |].
  cbn [map]. now rewrite Qdiv_one, IH.
Qed.

(** The mean over an axis of length one leaves the buffer as it is. *)
Lemma mean_axis1_one (n0 : nat) (rest : list nat) (d : list Q) :
  length d = n0 * size rest ->
  mean_axis1 (mk (n0 :: 1 :: rest) d) = Ok (mk (n0 :: rest) d).
Proof.
  intro Hd. unfold mean_axis1. cbn [shape data Nat.eqb].
  do 2 f_equal.
  transitivity (flat_map (fun k => (fun b => b) (block (size rest) (k - 0) d))
                         (seq 0 n0)).
  - apply flat_map_eq_in. intros k Hk. apply in_seq in Hk.
    rewrite map_Qdiv_one. unfold sum_blocks. cbn [Nat.sub seq fold_left].
    rewrite Nat.sub_0_r, Nat.mul_1_l.
    rewrite block_0. apply firstn_all2.
    rewrite (@block_length _ _ n0); [lia | exact Hd | lia].
  - apply (@flat_map_blocks (fun b => b) (size rest) n0);
      [reflexivity | exact Hd].
Qed.

(** A level slice holding the one index [L] selects what the integer
    index [L] selects. *)
Lemma getitem_one_level (v : ndarray) (T Lv LA LO L : nat)
      (t la lo : nat) (ht hla hlo : option nat) :
  wf v -> shape v = [T; Lv; LA; LO] -> L < Lv ->
  (a <- getitem v [Slice t ht; Slice L (Some (L + 1)); Slice la hla;
                   Slice lo hlo] ;;
   mean_axis1 a)
  = getitem v [Slice t ht; Idx L; Slice la hla; Slice lo hlo].
Proof.
  intros Hw Hs HL.
  destruct (getitem v [Slice t ht; Idx L; Slice la hla; Slice lo hlo])
    as [b | e] eqn:Hb.
  2: { exfalso. unfold getitem in Hb. rewrite Hs in Hb.
       cbn [getitem_shape selected forallb bind andb] in Hb.
       apply Nat.ltb_lt in HL. rewrite HL in Hb. discriminate Hb. }
  pose proof (@getitem_wf _ _ _ Hw Hb) as Hwb.
  unfold getitem in Hb |- *. rewrite Hs in Hb |- *.
  cbn [getitem_shape selected forallb bind andb] in Hb |- *.
  assert (HL' := HL). apply Nat.ltb_lt in HL'. rewrite HL' in Hb.
  cbn [bind] in Hb. injection Hb as <-.
  cbn [stop getitem_data selected] in Hwb |- *.
  replace (Nat.min (L + 1) Lv - L) with 1 by lia.
  cbn [seq]. unfold wf in Hwb. cbn [shape data] in Hwb.
  cbn [size fold_right] in Hwb.
  apply mean_axis1_one. rewrite Hwb. cbn [size fold_right]. reflexivity.
Qed.

Lemma read_levavg_one_level fh varname (L : nat) lati loni t ht :
  (forall v, variable fh varname = Ok v ->
             wf v /\ length (shape v) = 4 /\ L < nth 1 (shape v) 0) ->
  read_levavg fh varname (Slice t ht) (L, L + 1) lati loni
  = read_level L lati loni varname fh (Slice t ht).
Proof.
  intro H. unfold read_levavg, read_level. cbn [fst snd].
  destruct (variable fh varname) as [v | e] eqn:Hv; [| reflexivity].
  destruct (H v eq_refl) as (Hw & Hlen & HL).
  destruct (shape v) as [| T [| Lv [| LA [| LO [| ? ?]]]]] eqn:Hs;
    try discriminate Hlen.
  cbn [nth] in HL. cbn [bind].
  destruct (fst loni <? snd loni).
  - now rewrite (@getitem_one_level v T Lv LA LO L _ _ _ _ _ _ Hw Hs HL).
  - destruct (snd loni <? fst loni); [| reflexivity].
    now rewrite !(@getitem_one_level v T Lv LA LO L _ _ _ _ _ _ Hw Hs HL).
Qed.

Lemma stitch_ext (r1 r2 : Dataset -> index -> result (option ndarray))
      (n : nat) (timi : nat * nat) (files : list Dataset) :
  Forall (fun fh => forall lo hi, r1 fh (Slice lo hi) = r2 fh (Slice lo hi))
         files ->
  forall c v, stitch r1 n timi files c v = stitch r2 n timi files c v.
Proof.
  induction 1 as [| fh files Hfh _ IH]; intros c v; [reflexivity |].
  cbn [stitch]. unfold stitch_step. rewrite !Hfh.
  apply bind_ext. intro x. apply IH.
Qed.

(** X6. Level-mean mode with a level window of one level, [levi[1] =
    levi[0] + 1]: the mean over the single level [levi[0]] is the field
    at that level, so the result, values and errors alike, is the raw
    read at level index [levi[0]], for well-formed four-dimensional
    variables that store that level. *)
Theorem level_mean_of_one_level_is_that_level :
  forall files varname timi L lati loni,
    Forall (fun fh => forall v, variable fh varname = Ok v ->
                                wf v /\ length (shape v) = 4
                                /\ L < nth 1 (shape v) 0) files ->
    get_E5_ss_4D_levavgvar files varname timi (L, L + 1) lati loni
    = raw_at_level files varname timi L lati loni.
Proof.
  intros files varname timi L lati loni HF.
  unfold get_E5_ss_4D_levavgvar, raw_at_level.
  rewrite levavg_loop_stitch. f_equal.
  apply stitch_ext. eapply Forall_impl; [| exact HF].
  intros fh H lo hi. now apply read_levavg_one_level.
Qed.

Lemma level_mean_of_one_level_is_that_level_witness :
  get_E5_ss_4D_levavgvar [file_a; file_b; file_c] "T" (1, 0) (1, 1 + 1)
                         (0, 1) (3, 1)
  = raw_at_level [file_a; file_b; file_c] "T" (1, 0) 1 (0, 1) (3, 1).
Proof.
  apply (@level_mean_of_one_level_is_that_level
           [file_a; file_b; file_c] "T" (1, 0) 1 (0, 1) (3, 1)).
  repeat (apply Forall_cons); [| | | apply Forall_nil];
    intros v H; injection H as <-;
    (split; [reflexivity | split; [reflexivity | cbn; lia]]).
Defined.

(** ** Level indices for the level-difference reader *)

Lemma getitem_at_level (v : ndarray) (T Lv LA LO L : nat)
      (t la lo : nat) (ht hla hlo : option nat) :
  shape v = [T; Lv; LA; LO] -> L < Lv ->
  getitem v [Slice t ht; Idx L; Slice la hla; Slice lo hlo]
  = Ok (mk [stop T ht - t; stop LA hla - la; stop LO hlo - lo]
           (getitem_data [Slice t ht; Idx L; Slice la hla; Slice lo hlo]
                         [T; Lv; LA; LO] (data v))).
Proof.
  intros Hs HL. unfold getitem. rewrite Hs.
  cbn [getitem_shape selected forallb bind andb].
  apply Nat.ltb_lt in HL. rewrite HL. reflexivity.
Qed.

Lemma read_levdiff_shape fh varname v (T Lv LA LO : nat) lo hi L1 L2
      lati loni :
  variable fh varname = Ok v -> shape v = [T; Lv; LA; LO] ->
  L1 < Lv -> L2 < Lv -> fst loni <> snd loni ->
  exists d,
    read_levdiff fh varname (Slice lo hi) (L1, L2) lati loni = Ok (Some d)
    /\ shape d = (stop T hi - lo)
                 :: tl (window_extent Lv LA LO (L1, L2) lati loni).
Proof.
  intros Hv Hs H1 H2 Hne. unfold read_levdiff, window_extent.
  cbn [fst snd tl]. rewrite Hv. cbn [bind].
  destruct (fst loni <? snd loni) eqn:E.
  - rewrite !(@getitem_at_level v T Lv LA LO _ _ _ _ _ _ _ Hs) by assumption.
    cbn [bind]. rewrite subtract_same_shape by reflexivity.
    cbn [bind]. eexists; split; reflexivity.
  - assert (E' : (snd loni <? fst loni) = true).
    { apply Nat.ltb_ge in E. apply Nat.ltb_lt. lia. }
    rewrite E'.
    rewrite !(@getitem_at_level v T Lv LA LO _ _ _ _ _ _ _ Hs) by assumption.
    cbn [bind]. rewrite !subtract_same_shape by reflexivity.
    cbn [bind]. erewrite concatenate_slabs by reflexivity.
    cbn [bind]. eexists; split; [reflexivity |]. cbn [shape stop].
    now rewrite Nat.sub_0_r.
Qed.

(** X7. The two level indices resolved by [get_E5_ss_4D_2levels] on a
    non-empty level axis are positions of that axis, the same pair that
    [get_E5_ss_4D_levels] returns, and the level-difference reader
    accepts them: on a file whose variable stores the file's levels it
    returns an array over time, latitude and longitude. *)
Theorem resolved_levels_are_valid_for_level_difference :
  forall fh varname v T LA LO lev1 lev2 t0 t1 lati loni,
    level fh <> [] ->
    variable fh varname = Ok v ->
    shape v = [T; length (level fh); LA; LO] ->
    fst loni <> snd loni ->
    exists levi levs d,
      get_E5_ss_4D_2levels fh lev1 lev2 = Ok levi
      /\ get_E5_ss_4D_levels fh lev1 lev2 = Ok (levi, levs)
      /\ fst levi < length (level fh) /\ snd levi < length (level fh)
      /\ get_E5_ss_4D_levdiffvar [fh] varname (t0, t1) levi lati loni
         = Ok d
      /\ shape d
         = (T - t0)
           :: tl (window_extent (length (level fh)) LA LO levi lati loni).
Proof.
  intros fh varname v T LA LO lev1 lev2 t0 t1 lati loni Hlev Hv Hs Hne.
  destruct (@k_closest_one (level fh) lev1 Hlev) as (i1 & E1 & B1 & _).
  destruct (@k_closest_one (level fh) lev2 Hlev) as (i2 & E2 & B2 & _).
  destruct (@read_levdiff_shape fh varname v T (length (level fh)) LA LO
              t0 None i1 i2 lati loni Hv Hs B1 B2 Hne) as (d & Hd & Hsd).
  exists (i1, i2). eexists. exists d.
  unfold get_E5_ss_4D_2levels, get_E5_ss_4D_levels.
  rewrite E1, E2. cbn [squeeze_pair bind fst snd].
  repeat split; try assumption; try reflexivity.
  unfold get_E5_ss_4D_levdiffvar.
  cbn [length levdiff_loop Nat.eqb fst]. rewrite Hd. reflexivity.
Qed.

Lemma resolved_levels_are_valid_for_level_difference_witness :
  exists levi levs d,
    get_E5_ss_4D_2levels file_a 290 120 = Ok levi
    /\ get_E5_ss_4D_levels file_a 290 120 = Ok (levi, levs)
    /\ fst levi < length (level file_a) /\ snd levi < length (level file_a)
    /\ get_E5_ss_4D_levdiffvar [file_a] "T" (0, 1) levi (0, 2) (3, 1) = Ok d
    /\ shape d
       = (2 - 0)
         :: tl (window_extent (length (level file_a)) 3 4 levi (0, 2) (3, 1)).
Proof.
  apply (@resolved_levels_are_valid_for_level_difference
           file_a "T" (mk [2; 3; 3; 4] (ramp 0 72)) 2 3 4 290 120 0 1
           (0, 2) (3, 1)).
  - discriminate.
  - reflexivity.
  - reflexivity.
  - cbn. lia.
Defined.

(** ** Coordinate lists against the array read with their indices *)

Lemma slice_length {A} (lo hi : nat) (l : list A) :
  length (slice lo hi l) = Nat.min hi (length l) - lo.
Proof. unfold slice. rewrite length_firstn, length_skipn. lia. Qed.

Lemma get_E5_ss_4D_coords_lengths fh lat1 lat2 lon1 lon2 lati loni
      lats lons :
  get_E5_ss_4D_coords fh lat1 lat2 lon1 lon2 = Ok (lati, loni, lats, lons) ->
  fst loni <> snd loni
  /\ length (data lats)
     = Nat.min (snd lati + 1) (length (latitude fh)) - fst lati
  /\ length (data lons)
     = if fst loni <? snd loni
       then Nat.min (snd loni + 1) (length (longitude fh)) - fst loni
       else (length (longitude fh) - fst loni)
            + Nat.min (snd loni + 1) (length (longitude fh)).
Proof.
  unfold get_E5_ss_4D_coords. intro H.
  apply bind_ok in H as (la & Hla & H).
  apply bind_ok in H as (lo & Hlo & H).
  destruct (fst lo <? snd lo) eqn:E1; destruct (snd lo <? fst lo) eqn:E2;
    cbn [local bind] in H; try discriminate H;
    injection H as <- <- <- <-.
  - apply Nat.ltb_lt in E1, E2. lia.
  - rewrite E1. cbn [squeeze array1 data]. rewrite !slice_length.
    apply Nat.ltb_lt in E1. repeat split; lia.
  - rewrite E1. cbn [array1 data]. rewrite length_app, length_map.
    unfold slice_from. rewrite length_skipn, !slice_length.
    apply Nat.ltb_lt in E2. repeat split; lia.
Qed.

(** X8. Latitude and longitude line up: for a file whose variable is
    stored on the file's own latitude and longitude axes, the raw read
    with the index pairs returned by [get_E5_ss_4D_coords] has as many
    latitudes and longitudes as the coordinate lists returned with
    them, across the seam as well. *)
Theorem horizontal_extents_match_coordinates :
  forall fh varname v T L lat1 lat2 lon1 lon2 lati loni lats lons
         t0 t1 levi,
    get_E5_ss_4D_coords fh lat1 lat2 lon1 lon2
    = Ok (lati, loni, lats, lons) ->
    variable fh varname = Ok v ->
    shape v = [T; L; length (latitude fh); length (longitude fh)] ->
    exists arr,
      get_E5_ss_4D_var [fh] varname (t0, t1) levi lati loni = Ok arr
      /\ nth 2 (shape arr) 0 = length (data lats)
      /\ nth 3 (shape arr) 0 = length (data lons).
Proof.
  intros fh varname v T L lat1 lat2 lon1 lon2 lati loni lats lons t0 t1
         levi Hc Hv Hs.
  destruct (get_E5_ss_4D_coords_lengths _ _ _ _ _ Hc) as (Hne & Hla & Hlo).
  destruct (@read_4D_shape fh varname v _ _ _ _ t0 None levi lati loni
              Hv Hs Hne) as (arr & Hr & Hsa).
  exists arr. split.
  - unfold get_E5_ss_4D_var. cbn [length var_loop Nat.eqb fst].
    rewrite Hr. reflexivity.
  - rewrite Hsa, Hla, Hlo. unfold window_extent. cbn [nth]. split;
      reflexivity.
Qed.

Lemma horizontal_extents_match_coordinates_witness :
  exists arr,
    get_E5_ss_4D_var [file_a] "T" (0, 1) (0, 2) (0, 2) (3, 1) = Ok arr
    /\ nth 2 (shape arr) 0 = length (data (mk [3] [10; 0; -10]%Q))
    /\ nth 3 (shape arr) 0 = length (data (mk [3] [-90; 0; 90]%Q)).
Proof.
  apply (@horizontal_extents_match_coordinates
           file_a "T" (mk [2; 3; 3; 4] (ramp 0 72)) 2 3
           (-10) 10 270 90 (0, 2) (3, 1)
           (mk [3] [10; 0; -10]%Q) (mk [3] [-90; 0; 90]%Q) 0 1 (0, 2)).
  - vm_compute. reflexivity.
  - reflexivity.
  - reflexivity.
Defined.

(** ** Signed and unsigned longitudes *)

Lemma normalize_lon_signed (x : Q) :
  (-360 <= x)%Q -> (x < 0)%Q -> normalize_lon x = normalize_lon (x + 360).
Proof.
  intros H1 H2. unfold normalize_lon.
  assert (E1 : ltb x 0 = true) by (apply ltb_lt; exact H2).
  assert (E2 : ltb (x + 360) 0 = false) by (apply ltb_ge; lra).
  now rewrite E1, E2.
Qed.

(** X9. A longitude given in signed degrees, from -360 up to but not
    including 0, is resolved exactly as the same longitude plus 360:
    the three coordinate resolvers return the same result for both
    forms, as a bound of the 4-D window and as the centre of the 2-D
    window. *)
Theorem signed_longitude_is_its_unsigned_form :
  forall fh lon lon' lat1 lat2 clat hda,
    (-360 <= lon)%Q -> (lon < 0)%Q ->
    get_E5_ss_4D_coords fh lat1 lat2 lon lon'
    = get_E5_ss_4D_coords fh lat1 lat2 (lon + 360) lon'
    /\ get_E5_ss_4D_coords fh lat1 lat2 lon' lon
       = get_E5_ss_4D_coords fh lat1 lat2 lon' (lon + 360)
    /\ get_E5_ss_coords fh lon clat hda
       = get_E5_ss_coords fh (lon + 360) clat hda
    /\ get_E5_ss_2D_coords fh lon clat hda
       = get_E5_ss_2D_coords fh (lon + 360) clat hda.
Proof.
  intros fh lon lon' lat1 lat2 clat hda H1 H2.
  pose proof (normalize_lon_signed H1 H2) as E.
  unfold get_E5_ss_4D_coords, get_E5_ss_coords, get_E5_ss_2D_coords.
  rewrite <- E. repeat split; reflexivity.
Qed.

Lemma signed_longitude_is_its_unsigned_form_witness :
  get_E5_ss_4D_coords file_a (-10) 10 (-90) 90
  = get_E5_ss_4D_coords file_a (-10) 10 (-90 + 360) 90
  /\ get_E5_ss_4D_coords file_a (-10) 10 90 (-90)
     = get_E5_ss_4D_coords file_a (-10) 10 90 (-90 + 360)
  /\ get_E5_ss_coords file_a (-90) 0 90
     = get_E5_ss_coords file_a (-90 + 360) 0 90
  /\ get_E5_ss_2D_coords file_a (-90) 0 90
     = get_E5_ss_2D_coords file_a (-90 + 360) 0 90.
Proof.
  apply (@signed_longitude_is_its_unsigned_form
           file_a (-90) 90 (-10) 10 0 90); lra.
Defined.

(** ** A longitude request of zero width *)

Lemma leb_Qeq (x x' y y' : Q) :
  (x == x')%Q -> (y == y')%Q -> leb x y = leb x' y'.
Proof. intros H1 H2. unfold leb. now rewrite H1, H2. Qed.

Lemma ltb_Qeq (x x' y y' : Q) :
  (x == x')%Q -> (y == y')%Q -> ltb x y = ltb x' y'.
Proof. intros H1 H2. unfold ltb. now rewrite H1, H2. Qed.

(** The nearest candidate depends on the distances only up to equality
    of rationals. *)
Lemma closest_Qeq (l l' : list (nat * Q)) :
  Forall2 (fun c c' => fst c = fst c' /\ (snd c == snd c')%Q) l l' ->
  match mfns.closest l, mfns.closest l' with
  | None, None => True
  | Some b, Some b' => fst b = fst b' /\ (snd b == snd b')%Q
  | _, _ => False
  end.
Proof.
  induction 1 as [| c c' l l' (Hf & Hs) _ IH]; [exact I |].
  rewrite !closest_cons.
  destruct (mfns.closest l) as [b |], (mfns.closest l') as [b' |];
    try contradiction; [| now split].
  destruct IH as (Hbf & Hbs).
  rewrite (leb_Qeq Hs Hbs). destruct (leb (snd c') (snd b')); now split.
Qed.

Lemma select_Qeq (k : nat) :
  forall l l',
    Forall2 (fun c c' => fst c = fst c' /\ (snd c == snd c')%Q) l l' ->
    mfns.select k l = mfns.select k l'.
Proof.
  induction k as [| k IH]; intros l l' H; [reflexivity |].
  cbn [mfns.select]. pose proof (closest_Qeq H) as Hc.
  destruct (mfns.closest l) as [[i e] |], (mfns.closest l') as [[i' e'] |];
    try contradiction; [| reflexivity].
  destruct Hc as (Hi & _). cbn [fst] in Hi. subst i'. f_equal.
  apply IH. clear - H.
  induction H as [| c c' l l' (Hf & Hs) _ IH]; [constructor |].
  cbn [filter]. rewrite <- Hf.
  destruct (negb (fst c =? i)); [constructor; [now split | exact IH] |].
  exact IH.
Qed.

Lemma k_closest_Qeq (l : list Q) (v v' : Q) (k : nat) :
  (v == v')%Q -> mfns.k_closest l v k = mfns.k_closest l v' k.
Proof.
  intro H. unfold mfns.k_closest. apply select_Qeq.
  generalize 0 as s. induction l as [| x l IH]; intro s; [constructor |].
  cbn [length seq map combine]. constructor; [| apply IH].
  cbn [fst snd]. split; [reflexivity |]. now rewrite H.
Qed.

(** X10. A longitude request of zero width fails in the two resolvers
    that build coordinate lists, on any file with a latitude and at
    least two longitudes: both bounds resolve to the same column, no
    branch assigns the lists, and the call ends in [UnboundLocalError]
    ([lats] in [get_E5_ss_4D_coords] for [lon1 = lon2], [lons] in
    [get_E5_ss_2D_coords] for [hda = 0]).  [get_E5_ss_coords], which
    builds no list, returns the pair of equal indices. *)
Theorem zero_width_longitude_request :
  forall fh lat1 lat2 lon1 lon2 clon clat hda,
    latitude fh <> [] ->
    2 <= length (longitude fh) ->
    ((lon1 == lon2)%Q ->
     get_E5_ss_4D_coords fh lat1 lat2 lon1 lon2
     = Raise (UnboundLocalError "lats"))
    /\ ((hda == 0)%Q -> (-360 <= clon)%Q -> (clon <= 360)%Q ->
        get_E5_ss_2D_coords fh clon clat hda
        = Raise (UnboundLocalError "lons")
        /\ exists i lati,
             get_E5_ss_coords fh clon clat hda = Ok ((i, i), lati)).
Proof.
  intros fh lat1 lat2 lon1 lon2 clon clat hda Hlat Hlon.
  assert (Hlon' : longitude fh <> []).
  { intro E. rewrite E in Hlon. simpl in Hlon. lia. }
  split.
  - intro E.
    assert (En : (normalize_lon lon1 == normalize_lon lon2)%Q).
    { unfold normalize_lon. rewrite (ltb_Qeq E (Qeq_refl 0)).
      destruct (ltb lon2 0); now rewrite E. }
    unfold get_E5_ss_4D_coords.
    destruct (@k_closest_one (latitude fh) lat2 Hlat) as (a & Ha & _).
    destruct (@k_closest_one (latitude fh) lat1 Hlat) as (b & Hb & _).
    destruct (@k_closest_one (longitude fh) (normalize_lon lon2) Hlon')
      as (i & Hi & _).
    rewrite (k_closest_Qeq _ _ En), Ha, Hb, Hi.
    cbn [squeeze_pair bind fst snd]. rewrite Nat.ltb_irrefl. reflexivity.
  - intros E H1 H2.
    assert (B : (0 <= normalize_lon clon /\ normalize_lon clon <= 360)%Q).
    { unfold normalize_lon. destruct (ltb clon 0) eqn:E0.
      - apply ltb_lt in E0. split; lra.
      - apply ltb_ge in E0. split; lra. }
    set (cn := normalize_lon clon) in *.
    assert (Ep : ltb 360 (cn + hda) = false) by (apply ltb_ge; lra).
    assert (Em : ltb (cn - hda) 0 = false) by (apply ltb_ge; lra).
    assert (Epm : (cn - hda == cn + hda)%Q) by lra.
    unfold get_E5_ss_2D_coords, get_E5_ss_coords. fold cn.
    rewrite Ep, Em.
    destruct (@first_and_last_items (longitude fh) Hlon') as (H0 & HN).
    rewrite HN, H0.
    assert (H1' : item (longitude fh) 1 = Ok (nth 1 (longitude fh) 0%Q)).
    { unfold item. destruct (longitude fh) as [| x [| y l]];
        simpl in Hlon; try lia. reflexivity. }
    rewrite H1'. cbn [bind].
    match goal with
    | |- context [ltb ?edge (cn + hda)] => set (e := edge)
    end.
    rewrite (ltb_Qeq (Qeq_refl e) Epm).
    set (lat_p := if ltb 90 (clat + hda) then 90%Q else (clat + hda)%Q).
    set (lat_m := if ltb (clat - hda) (-90) then (-90)%Q
                  else (clat - hda)%Q).
    destruct (@k_closest_one (latitude fh) lat_p Hlat) as (a & Ha & _).
    destruct (@k_closest_one (latitude fh) lat_m Hlat) as (b & Hb & _).
    rewrite Ha, Hb. cbn [squeeze_pair bind].
    assert (Eadj : ((if ltb e (cn + hda) then cn - hda - 360 else cn - hda)
                    == (if ltb e (cn + hda) then cn + hda - 360
                        else cn + hda))%Q).
    { destruct (ltb e (cn + hda)); lra. }
    rewrite (k_closest_Qeq _ _ Eadj).
    destruct (@k_closest_one (longitude fh)
                (if ltb e (cn + hda) then cn + hda - 360 else cn + hda)%Q
                Hlon') as (i & Hi & _).
    rewrite Hi. cbn [squeeze_pair bind fst snd]. rewrite Nat.ltb_irrefl.
    split; [reflexivity |].
    rewrite (k_closest_Qeq _ _ Epm).
    destruct (@k_closest_one (longitude fh) (cn + hda)%Q Hlon')
      as (j & Hj & _).
    rewrite Hj. cbn [squeeze_pair bind]. eauto.
Qed.

Lemma zero_width_longitude_request_witness :
  get_E5_ss_4D_coords file_a (-10) 10 90 90
  = Raise (UnboundLocalError "lats")
  /\ get_E5_ss_2D_coords file_a 90 0 0 = Raise (UnboundLocalError "lons")
  /\ exists i lati, get_E5_ss_coords file_a 90 0 0 = Ok ((i, i), lati).
Proof.
  destruct (@zero_width_longitude_request file_a (-10) 10 90 90 90 0 0)
    as (H1 & H2).
  - discriminate.
  - cbn. lia.
  - split; [apply H1; reflexivity |].
    apply H2; [reflexivity | lra | lra].
Defined.

(** ** A time in the gap between two files *)

(** Files that end before the requested time are passed over as long as
    another file follows; the last of them is remembered. *)
Lemma fiti_2D_loop_skip (ctime : Q) (n : nat) (rest : list Dataset) :
  rest <> [] ->
  forall pre it prev,
    it + length (pre ++ rest) = n ->
    Forall (fun g => time g <> []
                     /\ Forall (fun t => (t < ctime)%Q) (time g)) pre ->
    fiti_2D_loop ctime n (pre ++ rest) it prev
    = fiti_2D_loop ctime n rest (it + length pre)
        (fold_left
           (fun _ g => Some (nth (length (time g) - 1) (time g) 0%Q, g))
           pre prev).
Proof.
  intro Hrest. induction pre as [| g pre IH]; intros it prev Hlen Hall.
  - cbn [app length fold_left]. now rewrite Nat.add_0_r.
  - apply Forall_cons_iff in Hall. destruct Hall as [[Hg Hbefore] Hall].
    destruct (first_and_last_items Hg) as (Ex & Ey).
    destruct (nonempty_items Hg) as (x & y & Ex' & Ey' & Ix & Iy).
    rewrite Ex in Ex'. rewrite Ey in Ey'.
    injection Ex' as Ex'. injection Ey' as Ey'.
    rewrite Forall_forall in Hbefore.
    pose proof (Hbefore x Ix) as Hx. pose proof (Hbefore y Iy) as Hy.
    cbn [app fiti_2D_loop length fold_left].
    rewrite Ex, Ey, Ex', Ey'; cbn [bind].
    assert (E1 : ltb ctime x = false) by (apply ltb_ge; lra).
    rewrite E1; cbn [andb].
    assert (E3 : (it =? n - 1) = false).
    { apply Nat.eqb_neq. rewrite <- Hlen. cbn [app length].
      rewrite length_app. destruct rest; [congruence | simpl; lia]. }
    rewrite E3, andb_false_r.
    assert (E4 : between x ctime y = false)
      by (apply between_false; right; lra).
    rewrite E4.
    assert (E5 : forall p, between p ctime x = false)
      by (intro p; apply between_false; right; lra).
    replace (it + S (length pre)) with (S it + length pre) by lia.
    rewrite <- IH; [| cbn [app length] in Hlen; lia | assumption].
    destruct prev as [[p pf] |]; [rewrite E5 |]; reflexivity.
Qed.

(** A time in the gap between two consecutive files: when every file up
    to and including [pf] ends before the requested time and the next
    file [f] starts after it, [get_E5_ss_2D_fiti] returns the two
    files, the index of the last time of [pf] and index 0 of [f], and
    these two times, which enclose the requested time. *)
Lemma get_E5_ss_2D_fiti_gap :
  forall pre pf f post ctime a b,
    Forall (fun g => time g <> []
                     /\ Forall (fun t => (t < ctime)%Q) (time g))
           (pre ++ [pf]) ->
    item (time f) 0 = Ok a ->
    last_item (time f) = Ok b ->
    (ctime < a)%Q -> (a <= b)%Q ->
    exists l,
      last_item (time pf) = Ok l
      /\ (l < ctime)%Q
      /\ get_E5_ss_2D_fiti (pre ++ pf :: f :: post) ctime
         = Ok ([pf; f], [length (time pf) - 1; 0], Floats [l; a], ctime).
Proof.
  intros pre pf f post ctime a b Hall Ea Eb Hlt Hab.
  assert (Hpf : time pf <> []
                /\ Forall (fun t => (t < ctime)%Q) (time pf)).
  { apply Forall_app in Hall. destruct Hall as [_ Hall].
    now apply Forall_cons_iff in Hall. }
  destruct Hpf as [Hne Hbefore].
  destruct (first_and_last_items Hne) as (_ & El).
  destruct (nonempty_items Hne) as (x & y & _ & Ey & _ & Iy).
  rewrite El in Ey. injection Ey as Ey.
  rewrite Forall_forall in Hbefore. pose proof (Hbefore y Iy) as Hy.
  rewrite <- Ey in Hy.
  exists (nth (length (time pf) - 1) (time pf) 0%Q).
  split; [exact El |]. split; [exact Hy |].
  unfold get_E5_ss_2D_fiti.
  assert (E0 : exists g, item (pre ++ pf :: f :: post) 0 = Ok g).
  { destruct pre; cbn; eauto. }
  destruct E0 as (g & ->). cbn [bind].
  replace (pre ++ pf :: f :: post) with ((pre ++ [pf]) ++ f :: post)
    by (now rewrite <- app_assoc).
  rewrite fiti_2D_loop_skip; [| discriminate | reflexivity | exact Hall].
  rewrite fold_left_app. cbn [fold_left].
  set (l := nth (length (time pf) - 1) (time pf) 0%Q) in *.
  cbn [fiti_2D_loop]. rewrite Ea; cbn [bind].
  assert (E1 : (0 + length (pre ++ [pf]) =? 0) = false).
  { apply Nat.eqb_neq. rewrite length_app. simpl. lia. }
  rewrite E1, andb_false_r. rewrite Eb; cbn [bind].
  assert (E2 : ltb b ctime = false) by (apply ltb_ge; lra).
  rewrite E2; cbn [andb].
  assert (E3 : between a ctime b = false)
    by (apply between_false; left; lra).
  rewrite E3.
  assert (E4 : between l ctime a = true)
    by (apply between_true; split; lra).
  rewrite E4. cbn [bind local].
  unfold fiti_2D_select. cbn [length Nat.eqb item nth_error bind].
  rewrite El. cbn [bind]. unfold item in Ea. cbn [item].
  unfold item. destruct (nth_error (time f) 0); [| discriminate Ea].
  injection Ea as ->. reflexivity.
Qed.

(** ** What the single-time locator returns *)

Lemma select_length (k : nat) :
  forall cands, length (mfns.select k cands) <= k.
Proof.
  induction k as [| k IH]; intro cands; [simpl; lia |].
  cbn [mfns.select]. destruct (mfns.closest cands) as [[i e] |];
    [| simpl; lia].
  cbn [length]. specialize (IH (filter (fun c => negb (fst c =? i)) cands)).
  lia.
Qed.

Lemma item_Ok {A} (l : list A) (i : nat) (x : A) :
  item l i = Ok x -> nth_error l i = Some x.
Proof.
  unfold item. destruct (nth_error l i); [| discriminate].
  now intros [= ->].
Qed.

(** The scan returns either one file whose first and last time enclose
    the requested time, or two consecutive files with the requested
    time between the last time of one and the first time of the next. *)
Lemma fiti_2D_loop_found (ctime : Q) (n : nat) (files : list Dataset) :
  forall done it prev fs,
    (done = [] /\ prev = None
     \/ exists done' pf l,
          done = done' ++ [pf] /\ prev = Some (l, pf)
          /\ last_item (time pf) = Ok l) ->
    fiti_2D_loop ctime n files it prev = Ok (Some fs) ->
    (exists pre f post a b,
        done ++ files = pre ++ f :: post /\ fs = [f]
        /\ item (time f) 0 = Ok a /\ last_item (time f) = Ok b
        /\ (a <= ctime /\ ctime <= b)%Q)
    \/ (exists pre pf f post l a,
           done ++ files = pre ++ pf :: f :: post /\ fs = [pf; f]
           /\ last_item (time pf) = Ok l /\ item (time f) 0 = Ok a
           /\ (l <= ctime /\ ctime <= a)%Q).
Proof.
  induction files as [| g files IH]; intros done it prev fs Hprev H;
    [discriminate H |].
  cbn [fiti_2D_loop] in H.
  apply bind_ok in H as (t0 & Et0 & H).
  destruct (ltb ctime t0 && (it =? 0)); [discriminate H |].
  apply bind_ok in H as (tN & EtN & H).
  destruct (ltb tN ctime && (it =? n - 1)); [discriminate H |].
  destruct (between t0 ctime tN) eqn:Eb.
  - injection H as <-. left. exists done, g, files, t0, tN.
    apply between_true in Eb. repeat split; tauto.
  - assert (Hnext : fiti_2D_loop ctime n files (S it) (Some (tN, g))
                    = Ok (Some fs) ->
                    (exists pre f post a b,
                        done ++ g :: files = pre ++ f :: post /\ fs = [f]
                        /\ item (time f) 0 = Ok a
                        /\ last_item (time f) = Ok b
                        /\ (a <= ctime /\ ctime <= b)%Q)
                    \/ (exists pre pf f post l a,
                           done ++ g :: files = pre ++ pf :: f :: post
                           /\ fs = [pf; f]
                           /\ last_item (time pf) = Ok l
                           /\ item (time f) 0 = Ok a
                           /\ (l <= ctime /\ ctime <= a)%Q)).
    { intro Hn.
      replace (done ++ g :: files) with ((done ++ [g]) ++ files)
        by (now rewrite <- app_assoc).
      apply (IH (done ++ [g]) (S it) (Some (tN, g)) fs); [| exact Hn].
      right. exists done, g, tN. auto. }
    destruct prev as [[l pf] |]; [| now apply Hnext].
    destruct (between l ctime t0) eqn:Eg; [| now apply Hnext].
    injection H as <-. right.
    destruct Hprev as [[_ Hp] | (done' & pf' & l' & Hd & Hp & Hl)];
      [discriminate Hp |].
    injection Hp as <- <-. subst done.
    exists done', pf, g, files, l, t0.
    apply between_true in Eg. rewrite <- app_assoc.
    repeat split; tauto.
Qed.

(** X11. Whatever [get_E5_ss_2D_fiti] returns is one of the three
    combinations that [get_E5_ss_2D_var] accepts: one file of the list
    with the one index of a stored time equal to the requested time;
    one file whose span holds the requested time, which it does not
    store, with two indices and the two times stored there; or two
    consecutive files of the list with the last index of the first,
    index 0 of the second, and these two times enclosing the requested
    time.  The requested time is returned unchanged. *)
Theorem locator_returns_an_accepted_combination :
  forall allfiles ctime files timi times ct,
    get_E5_ss_2D_fiti allfiles ctime = Ok (files, timi, times, ct) ->
    ct = ctime
    /\ ((exists pre f post i t,
            allfiles = pre ++ f :: post /\ files = [f] /\ timi = [i]
            /\ times = Float t
            /\ nth_error (time f) i = Some t /\ (t == ctime)%Q)
        \/ (exists pre f post i j a b,
               allfiles = pre ++ f :: post /\ files = [f] /\ timi = [i; j]
               /\ times = Floats [a; b]
               /\ nth_error (time f) i = Some a
               /\ nth_error (time f) j = Some b
               /\ contains ctime (time f) = false)
        \/ (exists pre pf f post l a,
               allfiles = pre ++ pf :: f :: post /\ files = [pf; f]
               /\ timi = [length (time pf) - 1; 0]
               /\ times = Floats [l; a]
               /\ last_item (time pf) = Ok l /\ item (time f) 0 = Ok a
               /\ (l <= ctime /\ ctime <= a)%Q)).
Proof.
  intros allfiles ctime files timi times ct H.
  unfold get_E5_ss_2D_fiti in H.
  apply bind_ok in H as (f0 & _ & H).
  apply bind_ok in H as (r & Hloop & H).
  apply bind_ok in H as (fs & Hfs & H).
  apply local_ok in Hfs. subst r.
  apply bind_ok in H as ([ti tm] & Hsel & H).
  injection H as <- <- <- <-. split; [reflexivity |].
  apply (@fiti_2D_loop_found ctime _ allfiles [] 0 None fs) in Hloop;
    [| now left].
  cbn [app] in Hloop.
  destruct Hloop as [(pre & f & post & a & b & Hall & -> & Ea & Eb & Hab)
                    | (pre & pf & f & post & l & a & Hall & -> & El & Ea
                       & Hla)].
  - unfold fiti_2D_select in Hsel.
    cbn [length Nat.eqb item nth_error bind] in Hsel.
    destruct (contains ctime (time f)) eqn:Ec.
    + left. destruct (list_index_contains _ _ Ec)
        as (i & t & Hi & Ht & Heq & _).
      rewrite Hi in Hsel. cbn [bind] in Hsel.
      unfold item in Hsel. rewrite Ht in Hsel. cbn [bind] in Hsel.
      injection Hsel as <- <-.
      exists pre, f, post, i, t. repeat split; assumption.
    + right; left.
      apply bind_ok in Hsel as (i & Hi & Hsel).
      apply bind_ok in Hsel as (x & Hx & Hsel).
      apply bind_ok in Hsel as (j & Hj & Hsel).
      apply bind_ok in Hsel as (y & Hy & Hsel).
      injection Hsel as <- <-.
      pose proof (select_length 2
                    (combine (seq 0 (length (time f)))
                             (map (fun x => Qabs (x - ctime)) (time f))))
        as Hlen.
      fold (mfns.k_closest (time f) ctime 2) in Hlen.
      apply item_Ok in Hi, Hj, Hx, Hy.
      destruct (mfns.k_closest (time f) ctime 2) as [| i' [| j' [| ? ?]]];
        try discriminate Hi; try discriminate Hj;
        [| simpl in Hlen; lia].
      cbn in Hi, Hj. injection Hi as ->. injection Hj as ->.
      exists pre, f, post, i, j, x, y. repeat split; assumption.
  - right; right.
    unfold fiti_2D_select in Hsel.
    cbn [length Nat.eqb item nth_error bind] in Hsel.
    rewrite El in Hsel. cbn [bind] in Hsel.
    fold (item (time f) 0) in Hsel. rewrite Ea in Hsel.
    cbn [bind] in Hsel. injection Hsel as <- <-.
    exists pre, pf, f, post, l, a. repeat split; tauto.
Qed.

Lemma locator_returns_an_accepted_combination_witness :
  (7 # 2 = 7 # 2)%Q
  /\ ((exists pre f post i t,
          [file_a; file_b; file_c] = pre ++ f :: post
          /\ [file_b; file_c] = [f] /\ [1; 0] = [i]
          /\ Floats [3; 4]%Q = Float t
          /\ nth_error (time f) i = Some t /\ (t == 7 # 2)%Q)
      \/ (exists pre f post i j a b,
             [file_a; file_b; file_c] = pre ++ f :: post
             /\ [file_b; file_c] = [f] /\ [1; 0] = [i; j]
             /\ Floats [3; 4]%Q = Floats [a; b]
             /\ nth_error (time f) i = Some a
             /\ nth_error (time f) j = Some b
             /\ contains (7 # 2) (time f) = false)
      \/ (exists pre pf f post l a,
             [file_a; file_b; file_c] = pre ++ pf :: f :: post
             /\ [file_b; file_c] = [pf; f]
             /\ [1; 0] = [length (time pf) - 1; 0]
             /\ Floats [3; 4]%Q = Floats [l; a]
             /\ last_item (time pf) = Ok l /\ item (time f) 0 = Ok a
             /\ (l <= 7 # 2 /\ 7 # 2 <= a)%Q)).
Proof.
  apply (@locator_returns_an_accepted_combination
           [file_a; file_b; file_c] (7 # 2) [file_b; file_c] [1; 0]
           (Floats [3; 4]%Q) (7 # 2)).
  vm_compute. reflexivity.
Defined.

(** ** A time within the span of the files is always located *)

Lemma closest_in (cands : list (nat * Q)) (c : nat * Q) :
  mfns.closest cands = Some c -> In c cands.
Proof.
  intro H. destruct (closest_first_min _ H) as (pre & post & -> & _).
  apply in_or_app. right. now left.
Qed.

Lemma closest_some (cands : list (nat * Q)) :
  cands <> [] -> exists c, mfns.closest cands = Some c.
Proof.
  intro H. destruct (mfns.closest cands) as [c |] eqn:E; [eauto |].
  apply closest_none in E. contradiction.
Qed.

(** On a list of at least two values, [k_closest] with [k = 2] returns
    two distinct positions of the list. *)
Lemma k_closest_two (l : list Q) (v : Q) :
  2 <= length l ->
  exists i j,
    mfns.k_closest l v 2 = [i; j]
    /\ i < length l /\ j < length l /\ i <> j.
Proof.
  intro Hlen. unfold mfns.k_closest.
  set (f := fun x : Q => Qabs (x - v)).
  set (cands := combine (seq 0 (length l)) (map f l)).
  assert (Hin : forall j, j < length l -> In (j, f (nth j l 0%Q)) cands).
  { intros j Hj. apply in_candidates. rewrite Nat.sub_0_r.
    repeat split; lia. }
  assert (Hne : cands <> []).
  { intro E. specialize (Hin 0). rewrite E in Hin. apply Hin. lia. }
  destruct (closest_some Hne) as ([i e] & Hc).
  pose proof (closest_in _ Hc) as Hi. apply in_candidates in Hi.
  set (F := filter (fun c : nat * Q => negb (fst c =? i)) cands).
  assert (HF : F <> []).
  { set (j0 := if i =? 0 then 1 else 0).
    assert (Hj0 : j0 < length l /\ j0 <> i).
    { unfold j0. destruct (i =? 0) eqn:E0;
        [apply Nat.eqb_eq in E0 | apply Nat.eqb_neq in E0]; lia. }
    assert (In (j0, f (nth j0 l 0%Q)) F).
    { apply filter_In. split; [apply Hin; tauto |].
      cbn [fst]. apply negb_true_iff, Nat.eqb_neq. tauto. }
    intro E. rewrite E in H. exact H. }
  destruct (closest_some HF) as ([j e'] & Hc').
  pose proof (closest_in _ Hc') as Hj. apply filter_In in Hj.
  destruct Hj as [Hj Hji]. apply in_candidates in Hj.
  cbn [fst] in Hji. apply negb_true_iff, Nat.eqb_neq in Hji.
  exists i, j. cbn [mfns.select]. rewrite Hc. fold F. rewrite Hc'.
  repeat split; lia.
Qed.

(** A time within the span of a file that does not store it lies
    between two different stored times. *)
Lemma span_not_stored (l : list Q) (a b c : Q) :
  item l 0 = Ok a -> last_item l = Ok b ->
  (a <= c /\ c <= b)%Q -> contains c l = false -> 2 <= length l.
Proof.
  intros Ha Hb Hc Hn. destruct l as [| x [| y l']];
    [discriminate Ha | | simpl; lia].
  exfalso. cbn in Ha, Hb. injection Ha as <-. injection Hb as <-.
  cbn [contains existsb] in Hn. rewrite orb_false_r in Hn.
  unfold eqb in Hn. assert (E : (c == x)%Q) by lra.
  apply Qeq_bool_iff in E. congruence.
Qed.

Lemma fiti_2D_loop_total (ctime : Q) (n : nat) (files : list Dataset) :
  forall it prev,
    it + length files = n ->
    Forall (fun f => time f <> []) files ->
    (it = 0 -> (nth 0 (time (hd (mkDataset [] [] [] [] []) files)) 0
                <= ctime)%Q) ->
    (0 < it -> exists l pf, prev = Some (l, pf) /\ (l < ctime)%Q) ->
    (exists pre fl,
        files = pre ++ [fl]
        /\ (ctime <= nth (length (time fl) - 1) (time fl) 0)%Q) ->
    exists fs, fiti_2D_loop ctime n files it prev = Ok (Some fs).
Proof.
  induction files as [| f rest IH];
    intros it prev Hlen Hne H0 Hprev (pre & fl & Hfl & Hlast).
  { destruct pre; discriminate Hfl. }
  apply Forall_cons_iff in Hne. destruct Hne as [Hf Hne].
  destruct (first_and_last_items Hf) as (E0 & EN).
  set (t0 := nth 0 (time f) 0%Q) in *.
  set (tN := nth (length (time f) - 1) (time f) 0%Q) in *.
  cbn [hd] in H0. fold t0 in H0.
  cbn [fiti_2D_loop]. rewrite E0; cbn [bind].
  assert (E1 : ltb ctime t0 && (it =? 0) = false).
  { destruct (it =? 0) eqn:Ei; [| apply andb_false_r].
    apply Nat.eqb_eq in Ei. rewrite andb_true_r. apply ltb_ge. auto. }
  rewrite E1, EN; cbn [bind].
  assert (E2 : ltb tN ctime && (it =? n - 1) = false).
  { destruct (it =? n - 1) eqn:Ei; [| apply andb_false_r].
    apply Nat.eqb_eq in Ei. rewrite andb_true_r. apply ltb_ge.
    assert (rest = []) by (destruct rest; [reflexivity | simpl in Hlen; lia]).
    subst rest. destruct pre as [| x [| y pre']]; try discriminate Hfl.
    injection Hfl as ->. exact Hlast. }
  rewrite E2.
  destruct (between t0 ctime tN) eqn:Eb; [eauto |].
  assert (Hcont : (t0 <= ctime)%Q ->
                  exists fs, fiti_2D_loop ctime n rest (S it)
                               (Some (tN, f)) = Ok (Some fs)).
  { intro Ht0.
    assert (HtN : (tN < ctime)%Q).
    { apply between_false in Eb. destruct Eb; lra. }
    destruct pre as [| x pre'].
    { injection Hfl as -> _. unfold tN in HtN. lra. }
    injection Hfl as _ ->.
    apply IH; try assumption.
    - cbn [length] in Hlen. lia.
    - intro; lia.
    - intros _. eauto.
    - eauto. }
  destruct prev as [[l pf] |].
  - destruct (between l ctime t0) eqn:Eg; [eauto |].
    apply Hcont.
    destruct (Nat.eq_dec it 0) as [Ei | Ei]; [auto |].
    destruct Hprev as (l' & pf' & Hp & Hl); [lia |].
    injection Hp as <- <-.
    apply between_false in Eg. destruct Eg; lra.
  - apply Hcont.
    destruct (Nat.eq_dec it 0) as [Ei | Ei]; [auto |].
    destruct Hprev as (l' & pf' & Hp & Hl); [lia | discriminate Hp].
Qed.

(** X12. A time within the span of the files is always located: for
    any list of files with non-empty time axes, in whatever order, a
    requested time that is not before the first time of the first file
    and not after the last time of the last file makes
    [get_E5_ss_2D_fiti] return; it raises nothing. *)
Theorem time_within_the_files_is_located :
  forall pre fl f0 ctime,
    Forall (fun f => time f <> []) (pre ++ [fl]) ->
    hd_error (pre ++ [fl]) = Some f0 ->
    (nth 0 (time f0) 0 <= ctime)%Q ->
    (ctime <= nth (length (time fl) - 1) (time fl) 0)%Q ->
    exists files timi times,
      get_E5_ss_2D_fiti (pre ++ [fl]) ctime
      = Ok (files, timi, times, ctime).
Proof.
  intros pre fl f0 ctime Hne Hhd Hfirst Hlast.
  set (allfiles := pre ++ [fl]) in *.
  unfold get_E5_ss_2D_fiti.
  assert (Hall : allfiles = f0 :: tl allfiles).
  { destruct allfiles; [discriminate Hhd |]. now injection Hhd as ->. }
  assert (E0 : item allfiles 0 = Ok f0) by (now rewrite Hall).
  rewrite E0. cbn [bind].
  destruct (@fiti_2D_loop_total ctime (length allfiles) allfiles 0 None)
    as (fs & Hfs); try assumption; try reflexivity.
  - intros _. now rewrite Hall.
  - intro; lia.
  - exists pre, fl. split; [reflexivity | exact Hlast].
  - rewrite Hfs. cbn [bind local].
    apply (@fiti_2D_loop_found ctime _ allfiles [] 0 None fs) in Hfs;
      [| now left].
    cbn [app] in Hfs.
    destruct Hfs as [(p & f & q & a & b & Hsplit & -> & Ea & Eb & Hab)
                    | (p & pf & f & q & l & a & Hsplit & -> & El & Ea
                       & Hla)].
    + unfold fiti_2D_select.
      cbn [length Nat.eqb item nth_error bind].
      destruct (contains ctime (time f)) eqn:Ec.
      * destruct (list_index_contains _ _ Ec)
          as (i & t & Hi & Ht & _).
        rewrite Hi. cbn [bind]. unfold item. rewrite Ht. cbn [bind].
        eauto.
      * pose proof (span_not_stored _ Ea Eb Hab Ec) as H2.
        destruct (@k_closest_two (time f) ctime H2)
          as (i & j & Hk & Hi & Hj & _).
        rewrite Hk. cbn [item nth_error bind].
        apply nth_error_Some in Hi, Hj.
        unfold item.
        destruct (nth_error (time f) i) as [x |]; [| congruence].
        destruct (nth_error (time f) j) as [y |]; [| congruence].
        cbn [bind]. eauto.
    + unfold fiti_2D_select.
      cbn [length Nat.eqb item nth_error bind].
      rewrite El. cbn [bind]. fold (item (time f) 0). rewrite Ea.
      cbn [bind]. eauto.
Qed.

Lemma time_within_the_files_is_located_witness :
  exists files timi times,
    get_E5_ss_2D_fiti ([file_a; file_c] ++ [file_b]) (5 # 2)
    = Ok (files, timi, times, (5 # 2)%Q).
Proof.
  apply (@time_within_the_files_is_located
           [file_a; file_c] file_b file_a (5 # 2)).
  - repeat constructor; discriminate.
  - reflexivity.
  - vm_compute. discriminate.
  - vm_compute. discriminate.
Defined.

(** ** The file chosen by [get_E5_ss_fiti] *)

Lemma within_between (t : Q) (f : Dataset) :
  time f <> [] ->
  item (time f) 0 = Ok (nth 0 (time f) 0%Q)
  /\ last_item (time f) = Ok (nth (length (time f) - 1) (time f) 0%Q)
  /\ (between (nth 0 (time f) 0%Q) t
              (nth (length (time f) - 1) (time f) 0%Q) = true
      <-> within t f).
Proof.
  intro H. destruct (first_and_last_items H) as (E0 & EN).
  split; [exact E0 |]. split; [exact EN |].
  unfold within. apply between_true.
Qed.

(** The scan stops at the first file whose span holds the time and
    otherwise ends on the last file it opened. *)
Lemma fiti_scan_result (ctime : Q) (files : list Dataset) :
  Forall (fun f => time f <> []) files ->
  forall fh,
    (exists pre f post,
        files = pre ++ f :: post /\ within ctime f
        /\ Forall (fun g => ~ within ctime g) pre
        /\ fiti_scan ctime files fh = Ok (Some f))
    \/ (Forall (fun g => ~ within ctime g) files
        /\ fiti_scan ctime files fh
           = Ok (fold_left (fun _ g => Some g) files fh)).
Proof.
  induction 1 as [| f files Hf _ IH]; intro fh.
  - right. split; [constructor | reflexivity].
  - destruct (@within_between ctime f Hf) as (E0 & EN & Hb).
    cbn [fiti_scan]. rewrite E0, EN. cbn [bind].
    destruct (between _ ctime _) eqn:Eb.
    + left. exists [], f, files.
      split; [reflexivity |]. split; [now apply Hb |].
      split; [constructor | reflexivity].
    + assert (Hn : ~ within ctime f).
      { intro Hw. apply Hb in Hw. congruence. }
      destruct (IH (Some f))
        as [(pre & g & post & -> & Hw & Hpre & Hs) | (Hall & Hs)].
      * left. exists (f :: pre), g, post.
        split; [reflexivity |]. split; [exact Hw |].
        split; [now constructor | exact Hs].
      * right. split; [now constructor | exact Hs].
Qed.

(** X13. [get_E5_ss_fiti] on a non-empty list of files with non-empty
    time axes always returns: the file is the first one whose span
    holds the requested time, or the last file of the list when no
    span holds it, and no error is raised in that case; the times are
    those of the file returned; the index is the first position of a
    stored time equal to the requested one, or else the result of
    [k_closest] for two neighbours. *)
Theorem fiti_returns_first_spanning_file_or_last :
  forall allfiles ctime,
    allfiles <> [] ->
    Forall (fun f => time f <> []) allfiles ->
    exists fh timi,
      get_E5_ss_fiti allfiles ctime = Ok (fh, timi, time fh, ctime)
      /\ ((exists pre post,
              allfiles = pre ++ fh :: post /\ within ctime fh
              /\ Forall (fun g => ~ within ctime g) pre)
          \/ (Forall (fun g => ~ within ctime g) allfiles
              /\ exists pre, allfiles = pre ++ [fh]))
      /\ match timi with
         | Int i =>
             exists t, nth_error (time fh) i = Some t /\ (t == ctime)%Q
                       /\ forall j, j < i -> ~ (nth j (time fh) 0 == ctime)%Q
         | Ints l =>
             contains ctime (time fh) = false
             /\ l = mfns.k_closest (time fh) ctime 2
         end.
Proof.
  intros allfiles ctime Hne Hall.
  unfold get_E5_ss_fiti.
  assert (E0 : exists g, item allfiles 0 = Ok g).
  { destruct allfiles; [congruence | cbn; eauto]. }
  destruct E0 as (g & ->). cbn [bind].
  assert (Hsel : forall fh,
             exists timi,
               (timi <- (if contains ctime (time fh)
                         then i <- list_index ctime (time fh) ;; Ok (Int i)
                         else Ok (Ints (mfns.k_closest (time fh) ctime 2))) ;;
                Ok (fh, timi, time fh, ctime))
               = Ok (fh, timi, time fh, ctime)
               /\ match timi with
                  | Int i =>
                      exists t, nth_error (time fh) i = Some t
                                /\ (t == ctime)%Q
                                /\ forall j, j < i ->
                                             ~ (nth j (time fh) 0 == ctime)%Q
                  | Ints l =>
                      contains ctime (time fh) = false
                      /\ l = mfns.k_closest (time fh) ctime 2
                  end).
  { intro fh. destruct (contains ctime (time fh)) eqn:Ec.
    - destruct (list_index_contains _ _ Ec) as (i & t & Hi & Ht & Heq & Hj).
      exists (Int i). rewrite Hi. cbn [bind]. split; [reflexivity |].
      exists t. auto.
    - exists (Ints (mfns.k_closest (time fh) ctime 2)).
      cbn [bind]. auto. }
  destruct (@fiti_scan_result ctime allfiles Hall None)
    as [(pre & f & post & -> & Hw & Hpre & Hs) | (Hnone & Hs)].
  - rewrite Hs. cbn [bind local].
    destruct (Hsel f) as (timi & Ht & Hm).
    exists f, timi. split; [exact Ht |]. split; [| exact Hm].
    left. exists pre, post. auto.
  - rewrite Hs.
    destruct (exists_last Hne) as (pre & fl & ->).
    rewrite fold_left_app. cbn [fold_left bind local].
    destruct (Hsel fl) as (timi & Ht & Hm).
    exists fl, timi. split; [exact Ht |]. split; [| exact Hm].
    right. split; [exact Hnone | eauto].
Qed.

Lemma fiti_returns_first_spanning_file_or_last_witness :
  exists fh timi,
    get_E5_ss_fiti [file_a; file_b; file_c] 100
    = Ok (fh, timi, time fh, 100%Q)
    /\ ((exists pre post,
            [file_a; file_b; file_c] = pre ++ fh :: post /\ within 100 fh
            /\ Forall (fun g => ~ within 100 g) pre)
        \/ (Forall (fun g => ~ within 100 g) [file_a; file_b; file_c]
            /\ exists pre, [file_a; file_b; file_c] = pre ++ [fh]))
    /\ match timi with
       | Int i =>
           exists t, nth_error (time fh) i = Some t /\ (t == 100)%Q
                     /\ forall j, j < i -> ~ (nth j (time fh) 0 == 100)%Q
       | Ints l =>
           contains 100 (time fh) = false
           /\ l = mfns.k_closest (time fh) 100 2
       end.
Proof.
  apply (@fiti_returns_first_spanning_file_or_last
           [file_a; file_b; file_c] 100).
  - discriminate.
  - repeat constructor; discriminate.
Defined.

(** ** The files selected by [get_E5_ss_files] *)

Lemma when_later_false (s : files_locals) (c : Q -> bool) :
  (forall pN, c pN = false) ->
  (0 < f_ifi s -> exists p, f_prev s = Some p /\ snd p <> []) ->
  when_later s c = Ok false.
Proof.
  intros Hc Hp. unfold when_later, prev_last.
  destruct (0 <? f_ifi s) eqn:E; [| reflexivity].
  apply Nat.ltb_lt in E. destruct (Hp E) as (p & -> & Hne).
  cbn [local bind]. destruct (first_and_last_items Hne) as (_ & ->).
  cbn [bind]. now rewrite Hc.
Qed.

Lemma when_later_value (s : files_locals) (c : Q -> bool)
      (p : Dataset * list Q) :
  0 < f_ifi s -> f_prev s = Some p -> snd p <> [] ->
  when_later s c = Ok (c (nth (length (snd p) - 1) (snd p) 0%Q)).
Proof.
  intros Hi Hp Hne. unfold when_later, prev_last.
  apply Nat.ltb_lt in Hi. rewrite Hi, Hp. cbn [local bind].
  destruct (first_and_last_items Hne) as (_ & ->). reflexivity.
Qed.

Lemma strictly_between_true (a x b : Q) :
  strictly_between a x b = true <-> (a < x /\ x < b)%Q.
Proof.
  unfold strictly_between. rewrite andb_true_iff, !ltb_lt. tauto.
Qed.

Lemma strictly_between_false (a x b : Q) :
  strictly_between a x b = false <-> (x <= a \/ b <= x)%Q.
Proof.
  unfold strictly_between. rewrite andb_false_iff, !ltb_ge. tauto.
Qed.

Lemma first_last_in (l : list Q) :
  l <> [] ->
  In (nth 0 l 0%Q) l /\ In (nth (length l - 1) l 0%Q) l.
Proof.
  intro H. split; apply nth_In; destruct l; simpl; try congruence; lia.
Qed.

(** Files that end before the lower bound are passed over: nothing is
    selected, the counter advances and the file is remembered. *)
Lemma files_loop_skip (time1 time2 : Q) (rest : list Dataset) :
  (time1 <= time2)%Q ->
  forall pre s,
    Forall (fun g => time g <> []
                     /\ Forall (fun t => (t < time1)%Q) (time g)) pre ->
    f_append s = false ->
    (0 < f_ifi s -> exists p, f_prev s = Some p /\ snd p <> []) ->
    files_loop time1 time2 (pre ++ rest) s
    = files_loop time1 time2 rest
        (fold_left (fun s g => mkFilesLocals false (f_ssfiles s)
                                             (f_ifi s + 1)
                                             (Some (g, time g)))
                   pre s).
Proof.
  intro H12. induction pre as [| g pre IH]; intros s Hall Happ Hprev;
    [reflexivity |].
  apply Forall_cons_iff in Hall. destruct Hall as [[Hg Hbefore] Hall].
  destruct (first_and_last_items Hg) as (E0 & EN).
  destruct (first_last_in Hg) as (I0 & IN).
  rewrite Forall_forall in Hbefore.
  pose proof (Hbefore _ I0) as H0. pose proof (Hbefore _ IN) as HN.
  set (t0 := nth 0 (time g) 0%Q) in *.
  set (tN := nth (length (time g) - 1) (time g) 0%Q) in *.
  cbn [app files_loop fold_left]. rewrite E0. cbn [bind].
  assert (E1 : ltb time1 t0 = false) by (apply ltb_ge; lra).
  rewrite E1, andb_false_r. rewrite EN. cbn [bind].
  assert (E2 : between t0 time1 tN = false)
    by (apply between_false; right; lra).
  rewrite E2. cbn [andb].
  rewrite when_later_false; [| | exact Hprev].
  2: { intro pN. apply andb_false_iff. left.
       apply strictly_between_false. right. lra. }
  cbn [bind].
  rewrite when_later_false; [| | exact Hprev].
  2: { intro pN. apply andb_false_iff. left.
       apply strictly_between_false. right. lra. }
  cbn [bind].
  rewrite when_later_false; [| | exact Hprev].
  2: { intro pN. apply strictly_between_false. right. lra. }
  cbn [bind].
  assert (E3 : between t0 time2 tN = false)
    by (apply between_false; right; lra).
  rewrite E3, Happ.
  apply IH; [exact Hall | reflexivity |].
  intros _. cbn [f_prev]. eexists. split; [reflexivity | exact Hg].
Qed.

Lemma files_skipped (pre : list Dataset) :
  forall s,
    fold_left (fun s g => mkFilesLocals false (f_ssfiles s) (f_ifi s + 1)
                                        (Some (g, time g)))
              pre s
    = match rev pre with
      | [] => s
      | g :: _ => mkFilesLocals false (f_ssfiles s) (f_ifi s + length pre)
                                (Some (g, time g))
      end.
Proof.
  induction pre as [| g pre IH] using rev_ind; intro s; [reflexivity |].
  rewrite fold_left_app, rev_app_distr, length_app.
  cbn [rev app fold_left length]. rewrite IH.
  destruct (rev pre) eqn:E; cbn [f_ssfiles f_ifi]; f_equal; [| lia].
  apply (f_equal (@rev Dataset)) in E. rewrite rev_involutive in E.
  subst pre. reflexivity.
Qed.

(** X14. Both bounds within one file: when the files before it end
    before the lower bound and the span of the file holds both bounds,
    [get_E5_ss_files] returns that file alone. *)
Theorem bounds_in_one_file_select_it :
  forall pre f post time1 time2,
    Forall (fun g => time g <> []
                     /\ Forall (fun t => (t < time1)%Q) (time g)) pre ->
    time f <> [] ->
    (time1 <= time2)%Q ->
    within time1 f -> within time2 f ->
    get_E5_ss_files (pre ++ f :: post) time1 time2 = Ok [f].
Proof.
  intros pre f post time1 time2 Hpre Hf H12 H1 H2.
  unfold get_E5_ss_files.
  assert (E0 : exists g, item (pre ++ f :: post) 0 = Ok g)
    by (destruct pre; cbn; eauto).
  destruct E0 as (g & ->). cbn [bind].
  rewrite (@files_loop_skip time1 time2 (f :: post) H12 pre); try assumption;
    [| reflexivity | cbn; lia].
  rewrite files_skipped.
  destruct (first_and_last_items Hf) as (Ef0 & EfN).
  assert (B1 : between (nth 0 (time f) 0%Q) time1
                       (nth (length (time f) - 1) (time f) 0%Q) = true)
    by (apply between_true; exact H1).
  assert (B2 : between (nth 0 (time f) 0%Q) time2
                       (nth (length (time f) - 1) (time f) 0%Q) = true)
    by (apply between_true; exact H2).
  assert (L1 : ltb time1 (nth 0 (time f) 0%Q) = false)
    by (apply ltb_ge; apply H1).
  destruct (rev pre); cbn [files_loop]; rewrite Ef0; cbn [bind];
    rewrite L1, andb_false_r, EfN; cbn [bind]; rewrite B1, B2;
    reflexivity.
Qed.

Lemma bounds_in_one_file_select_it_witness :
  get_E5_ss_files ([file_a] ++ file_b :: [file_c]) 2 3 = Ok [file_b].
Proof.
  apply (@bounds_in_one_file_select_it [file_a] file_b [file_c] 2 3).
  - repeat constructor; try discriminate; cbn; lra.
  - discriminate.
  - lra.
  - split; vm_compute; discriminate.
  - split; vm_compute; discriminate.
Defined.

(** Once the first file is selected, every file between the bounds is
    appended, and the file whose span holds the upper bound ends the
    scan. *)
Lemma files_loop_finish (time1 time2 : Q) (f2 : Dataset)
      (post : list Dataset) :
  time f2 <> [] -> within time2 f2 -> (time1 < nth 0 (time f2) 0)%Q ->
  forall mids s,
    Forall (fun g => time g <> []
                     /\ Forall (fun t => (time1 < t /\ t < time2)%Q)
                               (time g)) mids ->
    f_append s = true -> 0 < f_ifi s ->
    (exists p, f_prev s = Some p /\ snd p <> []
               /\ (time1 <= nth (length (snd p) - 1) (snd p) 0)%Q) ->
    files_loop time1 time2 (mids ++ f2 :: post) s
    = Ok (f_ssfiles s ++ mids ++ [f2]).
Proof.
  intros Hf2 [H2a H2b] H1.
  induction mids as [| g mids IH];
    intros s Hall Happ Hifi (p & Hp & Hpne & HpN).
  - destruct (first_and_last_items Hf2) as (E0 & EN).
    set (t0 := nth 0 (time f2) 0%Q) in *.
    set (tN := nth (length (time f2) - 1) (time f2) 0%Q) in *.
    set (pN := nth (length (snd p) - 1) (snd p) 0%Q) in *.
    cbn [app files_loop]. rewrite E0. cbn [bind].
    assert (Ei : (f_ifi s =? 0) = false) by (apply Nat.eqb_neq; lia).
    rewrite Ei. cbn [andb]. rewrite EN. cbn [bind].
    assert (E2 : between t0 time1 tN = false)
      by (apply between_false; left; lra).
    rewrite E2. cbn [andb].
    rewrite !(@when_later_value s _ p Hifi Hp Hpne). fold pN.
    assert (S1 : strictly_between pN time1 t0 = false)
      by (apply strictly_between_false; left; lra).
    rewrite S1. cbn [andb bind].
    rewrite (@when_later_value s _ p Hifi Hp Hpne). fold pN.
    assert (S2 : strictly_between pN time2 t0 = false)
      by (apply strictly_between_false; right; lra).
    rewrite S2. cbn [bind].
    assert (E3 : between t0 time2 tN = true)
      by (apply between_true; split; lra).
    now rewrite E3.
  - apply Forall_cons_iff in Hall. destruct Hall as [[Hg Hin] Hall].
    destruct (first_and_last_items Hg) as (E0 & EN).
    destruct (first_last_in Hg) as (I0 & IN).
    rewrite Forall_forall in Hin.
    pose proof (Hin _ I0) as H0. pose proof (Hin _ IN) as HN.
    set (t0 := nth 0 (time g) 0%Q) in *.
    set (tN := nth (length (time g) - 1) (time g) 0%Q) in *.
    set (pN := nth (length (snd p) - 1) (snd p) 0%Q) in *.
    cbn [app files_loop]. rewrite E0. cbn [bind].
    assert (Ei : (f_ifi s =? 0) = false) by (apply Nat.eqb_neq; lia).
    rewrite Ei. cbn [andb]. rewrite EN. cbn [bind].
    assert (E2 : between t0 time1 tN = false)
      by (apply between_false; left; lra).
    rewrite E2. cbn [andb].
    rewrite !(@when_later_value s _ p Hifi Hp Hpne). fold pN.
    assert (S1 : strictly_between pN time1 t0 = false)
      by (apply strictly_between_false; left; lra).
    rewrite S1. cbn [andb bind].
    rewrite (@when_later_value s _ p Hifi Hp Hpne). fold pN.
    assert (S2 : strictly_between pN time2 t0 = false)
      by (apply strictly_between_false; right; lra).
    rewrite S2. cbn [bind].
    assert (E3 : between t0 time2 tN = false)
      by (apply between_false; right; lra).
    rewrite E3, Happ.
    rewrite IH; try assumption; cbn [f_append f_ssfiles f_ifi f_prev].
    + now rewrite <- app_assoc.
    + reflexivity.
    + lia.
    + eexists. split; [reflexivity |]. cbn [snd]. split; [exact Hg |].
      fold tN. lra.
Qed.

(** X15. Bounds in two different files: when the files before the first
    one end before the lower bound, the span of the first holds the
    lower bound only, the files after it lie strictly between the
    bounds, and the span of the last holds the upper bound only,
    [get_E5_ss_files] returns exactly this run of files, in order. *)
Theorem bounds_in_two_files_select_the_run :
  forall pre f1 mids f2 post time1 time2,
    Forall (fun g => time g <> []
                     /\ Forall (fun t => (t < time1)%Q) (time g)) pre ->
    time f1 <> [] -> within time1 f1 -> ~ within time2 f1 ->
    (time1 <= time2)%Q ->
    Forall (fun g => time g <> []
                     /\ Forall (fun t => (time1 < t /\ t < time2)%Q)
                               (time g)) mids ->
    time f2 <> [] -> within time2 f2 -> (time1 < nth 0 (time f2) 0)%Q ->
    get_E5_ss_files (pre ++ f1 :: mids ++ f2 :: post) time1 time2
    = Ok (f1 :: mids ++ [f2]).
Proof.
  intros pre f1 mids f2 post time1 time2 Hpre Hf1 H11 H12 Hle Hmids Hf2
         H22 H21.
  unfold get_E5_ss_files.
  assert (E0 : exists g, item (pre ++ f1 :: mids ++ f2 :: post) 0 = Ok g)
    by (destruct pre; cbn; eauto).
  destruct E0 as (g & ->). cbn [bind].
  rewrite (@files_loop_skip time1 time2 _ Hle pre); try assumption;
    [| reflexivity | cbn; lia].
  rewrite files_skipped.
  destruct (first_and_last_items Hf1) as (Ef0 & EfN).
  assert (B1 : between (nth 0 (time f1) 0%Q) time1
                       (nth (length (time f1) - 1) (time f1) 0%Q) = true)
    by (apply between_true; exact H11).
  assert (B2 : between (nth 0 (time f1) 0%Q) time2
                       (nth (length (time f1) - 1) (time f1) 0%Q) = false).
  { destruct (between _ time2 _) eqn:E; [| reflexivity].
    apply between_true in E. contradiction. }
  assert (L1 : ltb time1 (nth 0 (time f1) 0%Q) = false)
    by (apply ltb_ge; apply H11).
  assert (Hfin : forall s,
             f_ssfiles s = [] ->
             files_loop time1 time2 (mids ++ f2 :: post)
               (mkFilesLocals true (f_ssfiles s ++ [f1]) (f_ifi s + 1)
                              (Some (f1, time f1)))
             = Ok (f1 :: mids ++ [f2])).
  { intros s Hs.
    rewrite (@files_loop_finish time1 time2 f2 post Hf2 H22 H21 mids);
      try assumption; cbn [f_append f_ssfiles f_ifi f_prev].
    - now rewrite Hs.
    - reflexivity.
    - lia.
    - eexists. split; [reflexivity |]. cbn [snd]. split; [exact Hf1 |].
      apply H11. }
  destruct (rev pre); cbn [files_loop]; rewrite Ef0; cbn [bind];
    rewrite L1, andb_false_r, EfN; cbn [bind]; rewrite B1, B2;
    cbn [andb negb]; apply Hfin; reflexivity.
Qed.

Lemma bounds_in_two_files_select_the_run_witness :
  get_E5_ss_files ([] ++ file_a :: [file_b] ++ file_c :: []) 1 4
  = Ok (file_a :: [file_b] ++ [file_c]).
Proof.
  apply (@bounds_in_two_files_select_the_run
           [] file_a [file_b] file_c [] 1 4).
  - constructor.
  - discriminate.
  - split; vm_compute; discriminate.
  - intros [_ H]. vm_compute in H. apply H. reflexivity.
  - lra.
  - repeat constructor; try discriminate; cbn; lra.
  - discriminate.
  - split; vm_compute; discriminate.
  - vm_compute. reflexivity.
Defined.

(** The state after the files before the gap have been passed over: the
    file [p] before the gap is the remembered one. *)
Lemma files_loop_to_gap (time1 time2 : Q) (pre : list Dataset)
      (p : Dataset) (rest : list Dataset) :
  (time1 <= time2)%Q ->
  Forall (fun g => time g <> []
                   /\ Forall (fun t => (t < time1)%Q) (time g))
         (pre ++ [p]) ->
  files_loop time1 time2 (pre ++ p :: rest) (mkFilesLocals false [] 0 None)
  = files_loop time1 time2 rest
      (mkFilesLocals false [] (length pre + 1) (Some (p, time p))).
Proof.
  intros Hle Hall.
  replace (pre ++ p :: rest) with ((pre ++ [p]) ++ rest)
    by (now rewrite <- app_assoc).
  rewrite (@files_loop_skip time1 time2 rest Hle (pre ++ [p]));
    [| exact Hall | reflexivity | cbn; lia].
  rewrite files_skipped, rev_app_distr, length_app. reflexivity.
Qed.

(** X16. A lower bound in the gap between two files: the file before
    the gap is selected as well.  When the upper bound lies in the same
    gap, the two files around the gap are returned; when it lies in the
    span of a later file, the result runs from the file before the gap
    through that file. *)
Theorem lower_bound_in_gap_selects_file_before :
  forall pre p post time1 time2,
    Forall (fun g => time g <> []
                     /\ Forall (fun t => (t < time1)%Q) (time g))
           (pre ++ [p]) ->
    (time1 <= time2)%Q ->
    (forall f,
        time f <> [] -> (time2 < nth 0 (time f) 0)%Q ->
        get_E5_ss_files (pre ++ p :: f :: post) time1 time2 = Ok [p; f])
    /\ (forall mids f2,
           Forall (fun g => time g <> []
                            /\ Forall (fun t => (time1 < t /\ t < time2)%Q)
                                      (time g)) mids ->
           time f2 <> [] -> within time2 f2 ->
           (time1 < nth 0 (time f2) 0)%Q ->
           get_E5_ss_files (pre ++ p :: mids ++ f2 :: post) time1 time2
           = Ok (p :: mids ++ [f2])).
Proof.
  intros pre p post time1 time2 Hall Hle.
  assert (Hp : time p <> []
               /\ (nth (length (time p) - 1) (time p) 0 < time1)%Q).
  { apply Forall_app in Hall. destruct Hall as [_ Hall].
    apply Forall_cons_iff in Hall. destruct Hall as [[Hne Hb] _].
    split; [exact Hne |]. rewrite Forall_forall in Hb. apply Hb.
    now apply first_last_in. }
  destruct Hp as [Hpne HpN].
  set (pN := nth (length (time p) - 1) (time p) 0%Q) in *.
  set (s := mkFilesLocals false [] (length pre + 1) (Some (p, time p))).
  assert (Hifi : 0 < f_ifi s) by (cbn; lia).
  assert (Ei : (f_ifi s =? 0) = false) by (apply Nat.eqb_neq; lia).
  assert (Hitem : forall rest,
             exists g, item (pre ++ p :: rest) 0 = Ok g)
    by (intro rest; destruct pre; cbn; eauto).
  split.
  - intros f Hf H2.
    unfold get_E5_ss_files. destruct (Hitem (f :: post)) as (g & ->).
    cbn [bind]. rewrite (@files_loop_to_gap time1 time2 pre p _ Hle Hall). fold s.
    destruct (first_and_last_items Hf) as (E0 & EN).
    set (t0 := nth 0 (time f) 0%Q) in *.
    set (tN := nth (length (time f) - 1) (time f) 0%Q) in *.
    cbn [files_loop]. rewrite E0. cbn [bind].
    rewrite Ei. cbn [andb]. rewrite EN. cbn [bind].
    assert (E2 : between t0 time1 tN = false)
      by (apply between_false; left; lra).
    rewrite E2. cbn [andb].
    rewrite (@when_later_value s _ (p, time p) Hifi eq_refl Hpne).
    cbn [snd]. fold pN.
    assert (S1 : strictly_between pN time1 t0 = true)
      by (apply strictly_between_true; split; lra).
    assert (S2 : strictly_between pN time2 t0 = true)
      by (apply strictly_between_true; split; lra).
    rewrite S1, S2. reflexivity.
  - intros mids f2 Hmids Hf2 H22 H21.
    unfold get_E5_ss_files.
    destruct (Hitem (mids ++ f2 :: post)) as (g & ->). cbn [bind].
    rewrite (@files_loop_to_gap time1 time2 pre p _ Hle Hall). fold s.
    destruct mids as [| m mids].
    + destruct (first_and_last_items Hf2) as (E0 & EN).
      destruct H22 as [H2a H2b].
      set (t0 := nth 0 (time f2) 0%Q) in *.
      set (tN := nth (length (time f2) - 1) (time f2) 0%Q) in *.
      cbn [app files_loop]. rewrite E0. cbn [bind].
      rewrite Ei. cbn [andb]. rewrite EN. cbn [bind].
      assert (E2 : between t0 time1 tN = false)
        by (apply between_false; left; lra).
      rewrite E2. cbn [andb].
      rewrite !(@when_later_value s _ (p, time p) Hifi eq_refl Hpne).
      cbn [snd]. fold pN.
      assert (S1 : strictly_between pN time1 t0 = true)
        by (apply strictly_between_true; split; lra).
      assert (S2 : strictly_between pN time2 t0 = false)
        by (apply strictly_between_false; right; lra).
      rewrite S1, S2. cbn [andb negb bind local fst f_prev f_ssfiles f_ifi s].
      rewrite (@when_later_value _ _ (f2, time f2));
        cbn [f_ifi f_prev snd]; [| lia | reflexivity | exact Hf2].
      fold tN.
      assert (S3 : strictly_between tN time2 t0 = false)
        by (apply strictly_between_false; left; lra).
      rewrite S3. cbn [bind].
      assert (E3 : between t0 time2 tN = true)
        by (apply between_true; split; lra).
      rewrite E3. reflexivity.
    + apply Forall_cons_iff in Hmids. destruct Hmids as [[Hm Hin] Hmids].
      destruct (first_and_last_items Hm) as (E0 & EN).
      destruct (first_last_in Hm) as (I0 & IN).
      rewrite Forall_forall in Hin.
      pose proof (Hin _ I0) as H0. pose proof (Hin _ IN) as HN.
      set (t0 := nth 0 (time m) 0%Q) in *.
      set (tN := nth (length (time m) - 1) (time m) 0%Q) in *.
      cbn [app files_loop]. rewrite E0. cbn [bind].
      rewrite Ei. cbn [andb]. rewrite EN. cbn [bind].
      assert (E2 : between t0 time1 tN = false)
        by (apply between_false; left; lra).
      rewrite E2. cbn [andb].
      rewrite !(@when_later_value s _ (p, time p) Hifi eq_refl Hpne).
      cbn [snd]. fold pN.
      assert (S1 : strictly_between pN time1 t0 = true)
        by (apply strictly_between_true; split; lra).
      assert (S2 : strictly_between pN time2 t0 = false)
        by (apply strictly_between_false; right; lra).
      rewrite S1, S2. cbn [andb negb bind local fst f_prev f_ssfiles f_ifi s].
      rewrite (@when_later_value _ _ (m, time m));
        cbn [f_ifi f_prev snd]; [| lia | reflexivity | exact Hm].
      fold tN.
      assert (S3 : strictly_between tN time2 t0 = false)
        by (apply strictly_between_false; right; lra).
      rewrite S3. cbn [bind].
      assert (E3 : between t0 time2 tN = false)
        by (apply between_false; right; lra).
      rewrite E3. cbn [f_append f_ssfiles f_ifi s app].
      rewrite (@files_loop_finish time1 time2 f2 post Hf2 H22 H21 mids);
        try assumption; cbn [f_append f_ssfiles f_ifi f_prev].
      * reflexivity.
      * reflexivity.
      * lia.
      * eexists. split; [reflexivity |]. cbn [snd]. split; [exact Hm |].
        fold tN. lra.
Qed.

Lemma lower_bound_in_gap_selects_file_before_witness :
  get_E5_ss_files ([] ++ file_a :: file_b :: [file_c]) (5 # 4) (7 # 4)
  = Ok [file_a; file_b]
  /\ get_E5_ss_files ([] ++ file_a :: [file_b] ++ file_c :: []) (3 # 2)
                     (9 # 2)
     = Ok (file_a :: [file_b] ++ [file_c]).
Proof.
  split.
  - apply (@lower_bound_in_gap_selects_file_before
             [] file_a [file_c] (5 # 4) (7 # 4)).
    + repeat constructor; try discriminate; cbn; lra.
    + lra.
    + discriminate.
    + vm_compute. reflexivity.
  - apply (@lower_bound_in_gap_selects_file_before
             [] file_a [] (3 # 2) (9 # 2)).
    + repeat constructor; try discriminate; cbn; lra.
    + lra.
    + repeat constructor; try discriminate; cbn; lra.
    + discriminate.
    + split; vm_compute; discriminate.
    + vm_compute. reflexivity.
Defined.

(** ** The files, indices and times of [get_E5_ss_4D_fiti] *)

Lemma not_within_between (t : Q) (f : Dataset) :
  time f <> [] -> ~ within t f ->
  between (nth 0 (time f) 0%Q) t
          (nth (length (time f) - 1) (time f) 0%Q) = false.
Proof.
  intros Hf Hn. destruct (between _ t _) eqn:E; [| reflexivity].
  apply between_true in E. contradiction.
Qed.

Lemma within_between_true (t : Q) (f : Dataset) :
  within t f ->
  between (nth 0 (time f) 0%Q) t
          (nth (length (time f) - 1) (time f) 0%Q) = true.
Proof. intro H. apply between_true. exact H. Qed.

Lemma k_closest_first (l : list Q) (v : Q) :
  l <> [] ->
  exists i, mfns.k_closest l v 1 = [i] /\ i < length l
            /\ item (mfns.k_closest l v 1) 0 = Ok i.
Proof.
  intro H. destruct (@k_closest_one l v H) as (i & E & Hi & _).
  exists i. rewrite E. repeat split; assumption.
Qed.

(** Files whose span holds neither bound are passed over while nothing
    has been selected. *)
Lemma fiti_4D_loop_skip (time1 time2 : Q) (rest : list Dataset) :
  forall pre s,
    Forall (fun g => time g <> [] /\ ~ within time1 g /\ ~ within time2 g)
           pre ->
    append s = false ->
    fiti_4D_loop time1 time2 (pre ++ rest) s
    = fiti_4D_loop time1 time2 rest s.
Proof.
  induction pre as [| g pre IH]; intros s Hall Happ; [reflexivity |].
  apply Forall_cons_iff in Hall. destruct Hall as [(Hg & H1 & H2) Hall].
  destruct (first_and_last_items Hg) as (E0 & EN).
  cbn [app fiti_4D_loop]. rewrite E0, EN. cbn [bind].
  rewrite (not_within_between Hg H1), (not_within_between Hg H2).
  cbn [andb]. rewrite Happ. now apply IH.
Qed.

(** Files whose span holds neither bound are appended whole once the
    first file has been selected. *)
Lemma fiti_4D_loop_middles (time1 time2 : Q) (rest : list Dataset) :
  forall mids ss ts i1 i2,
    Forall (fun g => time g <> [] /\ ~ within time1 g /\ ~ within time2 g)
           mids ->
    fiti_4D_loop time1 time2 (mids ++ rest)
                 (mkLocals true ss (Some ts) i1 i2)
    = fiti_4D_loop time1 time2 rest
        (mkLocals true (ss ++ mids) (Some (ts ++ flat_map time mids))
                  i1 i2).
Proof.
  induction mids as [| g mids IH]; intros ss ts i1 i2 Hall.
  - cbn [app flat_map]. now rewrite !app_nil_r.
  - apply Forall_cons_iff in Hall. destruct Hall as [(Hg & H1 & H2) Hall].
    destruct (first_and_last_items Hg) as (E0 & EN).
    cbn [app fiti_4D_loop]. rewrite E0, EN. cbn [bind].
    rewrite (not_within_between Hg H1), (not_within_between Hg H2).
    cbn [andb append times local bind ssfiles timi1 timi2].
    rewrite IH by assumption. cbn [flat_map].
    now rewrite <- !app_assoc.
Qed.

(** X17. Both bounds within one file: when the span of no earlier file
    holds either bound and the span of the file holds both,
    [get_E5_ss_4D_fiti] returns that file alone, the two indices that
    [k_closest] gives for the bounds on its time axis, and its times
    from the first index through the second. *)
Theorem fiti_4D_within_one_file :
  forall pre f post time1 time2,
    Forall (fun g => time g <> [] /\ ~ within time1 g /\ ~ within time2 g)
           pre ->
    time f <> [] -> within time1 f -> within time2 f ->
    exists i1 i2,
      mfns.k_closest (time f) time1 1 = [i1]
      /\ mfns.k_closest (time f) time2 1 = [i2]
      /\ get_E5_ss_4D_fiti (pre ++ f :: post) time1 time2
         = Ok ([f], (i1, i2), slice i1 (i2 + 1) (time f)).
Proof.
  intros pre f post time1 time2 Hpre Hf H1 H2.
  destruct (@k_closest_first (time f) time1 Hf) as (i1 & K1 & _ & I1).
  destruct (@k_closest_first (time f) time2 Hf) as (i2 & K2 & _ & I2).
  exists i1, i2. split; [exact K1 |]. split; [exact K2 |].
  unfold get_E5_ss_4D_fiti.
  assert (E0 : exists g, item (pre ++ f :: post) 0 = Ok g)
    by (destruct pre; cbn; eauto).
  destruct E0 as (g & ->). cbn [bind].
  rewrite fiti_4D_loop_skip by (assumption || reflexivity).
  destruct (first_and_last_items Hf) as (Ef0 & EfN).
  cbn [fiti_4D_loop]. rewrite Ef0, EfN. cbn [bind].
  rewrite (within_between_true H1), (within_between_true H2).
  cbn [andb]. rewrite I1, I2. reflexivity.
Qed.

Lemma fiti_4D_within_one_file_witness :
  exists i1 i2,
    mfns.k_closest (time file_b) 2 1 = [i1]
    /\ mfns.k_closest (time file_b) 3 1 = [i2]
    /\ get_E5_ss_4D_fiti ([file_a] ++ file_b :: [file_c]) 2 3
       = Ok ([file_b], (i1, i2), slice i1 (i2 + 1) (time file_b)).
Proof.
  apply (@fiti_4D_within_one_file [file_a] file_b [file_c] 2 3).
  - repeat constructor; try discriminate;
      intros [H1 H2]; vm_compute in H1, H2; auto.
  - discriminate.
  - split; vm_compute; discriminate.
  - split; vm_compute; discriminate.
Defined.

(** X18. Bounds in two different files: when the span of the first
    selected file holds the lower bound only, the spans of the files
    after it hold neither bound, and the span of the last holds the
    upper bound only, [get_E5_ss_4D_fiti] returns this run of files,
    the index of the lower bound in the first and of the upper bound in
    the last, and the times of the first file from its index on, of the
    middle files whole, and of the last file through its index. *)
Theorem fiti_4D_across_files :
  forall pre f1 mids f2 post time1 time2,
    Forall (fun g => time g <> [] /\ ~ within time1 g /\ ~ within time2 g)
           (pre ++ mids) ->
    time f1 <> [] -> within time1 f1 -> ~ within time2 f1 ->
    time f2 <> [] -> within time2 f2 -> ~ within time1 f2 ->
    exists i1 i2,
      mfns.k_closest (time f1) time1 1 = [i1]
      /\ mfns.k_closest (time f2) time2 1 = [i2]
      /\ get_E5_ss_4D_fiti (pre ++ f1 :: mids ++ f2 :: post) time1 time2
         = Ok (f1 :: mids ++ [f2], (i1, i2),
               slice_from i1 (time f1) ++ flat_map time mids
               ++ slice 0 (i2 + 1) (time f2)).
Proof.
  intros pre f1 mids f2 post time1 time2 Hall Hf1 H11 H12 Hf2 H22 H21.
  apply Forall_app in Hall. destruct Hall as [Hpre Hmids].
  destruct (@k_closest_first (time f1) time1 Hf1) as (i1 & K1 & _ & I1).
  destruct (@k_closest_first (time f2) time2 Hf2) as (i2 & K2 & _ & I2).
  exists i1, i2. split; [exact K1 |]. split; [exact K2 |].
  unfold get_E5_ss_4D_fiti.
  assert (E0 : exists g, item (pre ++ f1 :: mids ++ f2 :: post) 0 = Ok g)
    by (destruct pre; cbn; eauto).
  destruct E0 as (g & ->). cbn [bind].
  rewrite fiti_4D_loop_skip by (assumption || reflexivity).
  destruct (first_and_last_items Hf1) as (E10 & E1N).
  cbn [fiti_4D_loop]. rewrite E10, E1N. cbn [bind].
  rewrite (within_between_true H11), (not_within_between Hf1 H12).
  cbn [andb negb]. rewrite I1. cbn [bind ssfiles timi2 app].
  rewrite fiti_4D_loop_middles by assumption.
  destruct (first_and_last_items Hf2) as (E20 & E2N).
  cbn [fiti_4D_loop]. rewrite E20, E2N. cbn [bind].
  rewrite (not_within_between Hf2 H21), (within_between_true H22).
  cbn [andb]. rewrite I2.
  cbn [bind local times append ssfiles timi1 timi2].
  now rewrite <- !app_assoc.
Qed.

Lemma fiti_4D_across_files_witness :
  exists i1 i2,
    mfns.k_closest (time file_a) 1 1 = [i1]
    /\ mfns.k_closest (time file_c) 4 1 = [i2]
    /\ get_E5_ss_4D_fiti ([] ++ file_a :: [file_b] ++ file_c :: []) 1 4
       = Ok (file_a :: [file_b] ++ [file_c], (i1, i2),
             slice_from i1 (time file_a) ++ flat_map time [file_b]
             ++ slice 0 (i2 + 1) (time file_c)).
Proof.
  apply (@fiti_4D_across_files [] file_a [file_b] file_c [] 1 4).
  - repeat constructor; try discriminate;
      intros [H1 H2]; vm_compute in H1, H2; auto.
  - discriminate.
  - split; vm_compute; discriminate.
  - intros [H1 H2]; vm_compute in H1, H2; auto.
  - discriminate.
  - split; vm_compute; discriminate.
  - intros [H1 H2]; vm_compute in H1, H2; auto.
Defined.

(** X19. A lower bound that the span of no file holds is not reported
    as unavailable data: [get_E5_ss_4D_fiti] ends in
    [UnboundLocalError], on [times] when the span of some file holds
    the upper bound and on [timi1] when none does. *)
Theorem fiti_4D_lower_bound_in_no_file :
  forall allfiles time1 time2,
    allfiles <> [] ->
    Forall (fun g => time g <> [] /\ ~ within time1 g) allfiles ->
    ((exists g, In g allfiles /\ within time2 g) ->
     get_E5_ss_4D_fiti allfiles time1 time2
     = Raise (UnboundLocalError "times"))
    /\ (Forall (fun g => ~ within time2 g) allfiles ->
        get_E5_ss_4D_fiti allfiles time1 time2
        = Raise (UnboundLocalError "timi1")).
Proof.
  intros allfiles time1 time2 Hne Hall.
  assert (E0 : exists g, item allfiles 0 = Ok g)
    by (destruct allfiles; [congruence | cbn; eauto]).
  destruct E0 as (g0 & E0).
  unfold get_E5_ss_4D_fiti. rewrite E0. cbn [bind].
  set (s0 := mkLocals false [] None None None).
  clear E0 Hne. split.
  - intros (g & Hin & Hw).
    assert (H : fiti_4D_loop time1 time2 allfiles s0
                = Raise (UnboundLocalError "times")).
    { induction allfiles as [| f files IH]; [destruct Hin |].
      apply Forall_cons_iff in Hall. destruct Hall as [(Hf & H1) Hall].
      destruct (first_and_last_items Hf) as (Ef0 & EfN).
      cbn [fiti_4D_loop]. rewrite Ef0, EfN. cbn [bind].
      rewrite (not_within_between Hf H1). cbn [andb].
      destruct (between _ time2 _) eqn:E2.
      - destruct (@k_closest_first (time f) time2 Hf) as (i & _ & _ & ->).
        reflexivity.
      - cbn [append s0]. apply IH; [exact Hall |].
        destruct Hin as [<- | Hin]; [| exact Hin].
        rewrite (within_between_true Hw) in E2. discriminate E2. }
    now rewrite H.
  - intro Hnone.
    assert (H : fiti_4D_loop time1 time2 allfiles s0 = Ok s0).
    { induction allfiles as [| f files IH]; [reflexivity |].
      apply Forall_cons_iff in Hall. destruct Hall as [(Hf & H1) Hall].
      apply Forall_cons_iff in Hnone. destruct Hnone as [H2 Hnone].
      destruct (first_and_last_items Hf) as (Ef0 & EfN).
      cbn [fiti_4D_loop]. rewrite Ef0, EfN. cbn [bind].
      rewrite (not_within_between Hf H1), (not_within_between Hf H2).
      cbn [andb append s0]. now apply IH. }
    now rewrite H.
Qed.

Lemma fiti_4D_lower_bound_in_no_file_witness :
  get_E5_ss_4D_fiti [file_a; file_b; file_c] (3 # 2) 3
  = Raise (UnboundLocalError "times")
  /\ get_E5_ss_4D_fiti [file_a; file_b; file_c] (3 # 2) 100
     = Raise (UnboundLocalError "timi1").
Proof.
  split.
  - apply (@fiti_4D_lower_bound_in_no_file [file_a; file_b; file_c]
             (3 # 2) 3).
    + discriminate.
    + repeat constructor; try discriminate;
        intros [H1 H2]; vm_compute in H1, H2; auto.
    + exists file_b. split; [cbn; auto |].
      split; vm_compute; discriminate.
  - apply (@fiti_4D_lower_bound_in_no_file [file_a; file_b; file_c]
             (3 # 2) 100).
    + discriminate.
    + repeat constructor; try discriminate;
        intros [H1 H2]; vm_compute in H1, H2; auto.
    + repeat constructor; intros [H1 H2]; vm_compute in H1, H2; auto.
Defined.

(** ** The elements of a field read at a stored time *)

Lemma raw_read_2D_shape f varname v (T LA LO i : nat) lati loni raw :
  variable f varname = Ok v -> shape v = [T; LA; LO] -> i < T ->
  snd lati < LA -> fst loni < LO -> snd loni < LO ->
  raw_read_2D f varname i lati loni = Ok raw ->
  shape raw
  = [snd lati + 1 - fst lati;
     if fst loni <? snd loni then snd loni + 1 - fst loni
     else LO - fst loni + (snd loni + 1)].
Proof.
  intros Hv Hs Hi Hla Hlo1 Hlo2 Hraw.
  unfold raw_read_2D in Hraw. rewrite Hv in Hraw. cbn [bind] in Hraw.
  destruct (fst loni <? snd loni) eqn:En.
  - rewrite (@getitem_window v i T LA LO _ _ _ _ Hs Hi) in Hraw.
    injection Hraw as <-. cbn [shape stop]. f_equal; [lia |].
    f_equal. lia.
  - rewrite !(@getitem_window v i T LA LO _ _ _ _ Hs Hi) in Hraw.
    cbn [bind] in Hraw.
    erewrite concatenate_columns in Hraw by reflexivity.
    injection Hraw as <-. cbn [shape stop]. f_equal; [lia |].
    f_equal. lia.
Qed.

(** X20. The field read at a stored time, element by element: for a
    well-formed three-dimensional variable and a window within the
    grid, the array returned for the one time index [i] has one row per
    latitude index of the window and one column per longitude index,
    and its element in row [r], column [c] is the stored value at time
    [i], latitude index [lati[0] + r] and longitude index
    [loni[0] + c], counted cyclically past the end of the longitude
    axis when the window crosses the seam. *)
Theorem exact_read_elements :
  forall f varname v T LA LO i lati loni times ct r c,
    variable f varname = Ok v -> wf v -> shape v = [T; LA; LO] -> i < T ->
    fst lati < snd lati -> snd lati < LA ->
    fst loni <> snd loni -> fst loni < LO -> snd loni < LO ->
    let width := if fst loni <? snd loni then snd loni + 1 - fst loni
                 else LO - fst loni + (snd loni + 1) in
    r <= snd lati - fst lati -> c < width ->
    exists arr,
      get_E5_ss_2D_var [f] varname [i] loni lati times ct = Ok arr
      /\ shape arr = [snd lati + 1 - fst lati; width]
      /\ at2 arr r c = at3 v i (fst lati + r) ((fst loni + c) mod LO).
Proof.
  intros f varname v T LA LO i lati loni times ct r c Hv Hw Hs Hi Hla1
         Hla2 Hne Hlo1 Hlo2 width Hr Hc.
  destruct (@get_E5_ss_2D_var_exact f varname v i T LA LO lati loni
              Hv Hw Hs Hi Hne) as (raw & Hraw & Hvar).
  pose proof (@raw_read_2D_shape f varname v T LA LO i lati loni raw
                Hv Hs Hi Hla2 Hlo1 Hlo2 Hraw) as Hshape.
  fold width in Hshape.
  assert (Hsq : squeeze raw = raw).
  { apply squeeze_no_unit. rewrite Hshape.
    repeat constructor; [lia |]. unfold width.
    destruct (fst loni <? snd loni) eqn:E;
      [apply Nat.ltb_lt in E |]; lia. }
  exists raw. split.
  - rewrite Hvar. rewrite Hsq. now destruct (fst loni <? snd loni).
  - split; [exact Hshape |].
    destruct (@raw_read_2D_at f varname v T LA LO i lati loni raw r c
                Hv Hw Hs Hi) as (Hnowrap & Hwrap);
      try assumption; try lia.
    unfold width in Hc.
    destruct (fst loni <? snd loni) eqn:E.
    + apply Nat.ltb_lt in E. rewrite Nat.mod_small by lia.
      apply Hnowrap; lia.
    + apply Nat.ltb_ge in E. assert (E' : snd loni < fst loni) by lia.
      destruct (Hwrap E') as (Heast & Hwest).
      destruct (Nat.lt_ge_cases c (LO - fst loni)) as [Hc' | Hc'].
      * rewrite Nat.mod_small by lia. apply Heast. exact Hc'.
      * replace ((fst loni + c) mod LO) with (c - (LO - fst loni)).
        -- apply Hwest; lia.
        -- replace (fst loni + c) with ((c - (LO - fst loni)) + 1 * LO)
             by lia.
           rewrite Nat.Div0.mod_add. rewrite Nat.mod_small; lia.
Qed.

Lemma exact_read_elements_witness :
  exists arr,
    get_E5_ss_2D_var [file_a] "CAPE" [1] (3, 1) (0, 2) (Float 1) 1 = Ok arr
    /\ shape arr = [2 + 1 - 0; 4 - 3 + (1 + 1)]
    /\ at2 arr 2 1
       = at3 (mk [2; 3; 4] (ramp 0 24)) 1 (0 + 2) ((3 + 1) mod 4).
Proof.
  apply (@exact_read_elements file_a "CAPE" (mk [2; 3; 4] (ramp 0 24))
           2 3 4 1 (0, 2) (3, 1) (Float 1) 1 2 1);
    try reflexivity; cbn; lia.
Defined.

(** ** A time in the gap between two files, end to end *)

(** X21. A time in the gap between two consecutive files is
    interpolated between them: when every file up to and including
    [pf] ends before the requested time and the next file [f] starts
    after it, [get_E5_ss_2D_fiti] returns the two files with the last
    time index of [pf] and index 0 of [f], and [get_E5_ss_2D_var] on
    that result returns, point by point, the linear interpolation at
    the requested time between the last stored field of [pf] and the
    first stored field of [f]. *)
Theorem gap_time_is_interpolated_between_files :
  forall pre pf f post ctime a b varname vp vf LA LO lati loni,
    Forall (fun g => time g <> []
                     /\ Forall (fun t => (t < ctime)%Q) (time g))
           (pre ++ [pf]) ->
    item (time f) 0 = Ok a ->
    last_item (time f) = Ok b ->
    (ctime < a)%Q -> (a <= b)%Q ->
    variable pf varname = Ok vp -> wf vp ->
    shape vp = [length (time pf); LA; LO] ->
    variable f varname = Ok vf -> wf vf ->
    shape vf = [length (time f); LA; LO] ->
    fst loni <> snd loni ->
    exists l s0 s1,
      last_item (time pf) = Ok l
      /\ (l < ctime)%Q
      /\ get_E5_ss_2D_fiti (pre ++ pf :: f :: post) ctime
         = Ok ([pf; f], [length (time pf) - 1; 0], Floats [l; a], ctime)
      /\ raw_read_2D pf varname (length (time pf) - 1) lati loni = Ok s0
      /\ raw_read_2D f varname 0 lati loni = Ok s1
      /\ shape s1 = shape s0
      /\ get_E5_ss_2D_var [pf; f] varname [length (time pf) - 1; 0]
                          loni lati (Floats [l; a]) ctime
         = Ok (mk (shape s0)
                  (zip_with (scipy.lerp l a ctime) (data s0) (data s1))).
Proof.
  intros pre pf f post ctime a b varname vp vf LA LO lati loni Hall Ea Eb
         Hlt Hab Hvp Hwp Hsp Hvf Hwf Hsf Hne.
  destruct (@get_E5_ss_2D_fiti_gap pre pf f post ctime a b Hall Ea Eb
              Hlt Hab) as (l & El & Hl & Hloc).
  assert (Hpne : time pf <> []).
  { apply Forall_app in Hall. destruct Hall as [_ Hall].
    apply Forall_cons_iff in Hall. tauto. }
  assert (Hfne : time f <> []).
  { intro E. rewrite E in Ea. discriminate Ea. }
  assert (Hi : length (time pf) - 1 < length (time pf)).
  { destruct (time pf); [congruence | simpl; lia]. }
  assert (Hj : 0 < length (time f)).
  { destruct (time f); [congruence | simpl; lia]. }
  destruct (@bracket_reads pf f varname vp vf _ _ LA LO
              (length (time pf) - 1) 0 lati loni l a ctime
              Hvp Hwp Hsp Hvf Hwf Hsf Hi Hj Hne)
    as (n1 & n2 & d0 & d1 & R0 & R1 & L0 & L1 & Two & _);
    [lra | split; lra |].
  exists l, (mk [n1; n2] d0), (mk [n1; n2] d1).
  repeat split; try assumption.
Qed.

Lemma gap_time_is_interpolated_between_files_witness :
  exists l s0 s1,
    last_item (time file_b) = Ok l
    /\ (l < 7 # 2)%Q
    /\ get_E5_ss_2D_fiti ([file_a] ++ file_b :: file_c :: []) (7 # 2)
       = Ok ([file_b; file_c], [length (time file_b) - 1; 0],
             Floats [l; 4%Q], (7 # 2)%Q)
    /\ raw_read_2D file_b "CAPE" (length (time file_b) - 1) (0, 1) (3, 1)
       = Ok s0
    /\ raw_read_2D file_c "CAPE" 0 (0, 1) (3, 1) = Ok s1
    /\ shape s1 = shape s0
    /\ get_E5_ss_2D_var [file_b; file_c] "CAPE"
                        [length (time file_b) - 1; 0] (3, 1) (0, 1)
                        (Floats [l; 4%Q]) (7 # 2)
       = Ok (mk (shape s0)
                (zip_with (scipy.lerp l 4 (7 # 2)) (data s0) (data s1))).
Proof.
  apply (@gap_time_is_interpolated_between_files
           [file_a] file_b file_c [] (7 # 2) 4 5 "CAPE"
           (mk [2; 3; 4] (ramp 100 24)) (mk [2; 3; 4] (ramp 200 24))
           3 4 (0, 1) (3, 1)); try reflexivity.
  - repeat constructor; try discriminate; cbn; lra.
  - lra.
  - cbn. lia.
Defined.

(** ** The 4-D subset across several files, end to end *)

Lemma fiti_4D_loop_run (time1 time2 : Q) pre f1 mids f2 post (i1 i2 : nat) :
  Forall (fun g => time g <> [] /\ ~ within time1 g /\ ~ within time2 g)
         (pre ++ mids) ->
  time f1 <> [] -> within time1 f1 -> ~ within time2 f1 ->
  time f2 <> [] -> within time2 f2 -> ~ within time1 f2 ->
  item (mfns.k_closest (time f1) time1 1) 0 = Ok i1 ->
  item (mfns.k_closest (time f2) time2 1) 0 = Ok i2 ->
  fiti_4D_loop time1 time2 (pre ++ f1 :: mids ++ f2 :: post)
               (mkLocals false [] None None None)
  = Ok (mkLocals true (f1 :: mids ++ [f2])
                 (Some (slice_from i1 (time f1) ++ flat_map time mids
                        ++ slice 0 (i2 + 1) (time f2)))
                 (Some i1) (Some i2)).
Proof.
  intros Hall Hf1 H11 H12 Hf2 H22 H21 I1 I2.
  apply Forall_app in Hall. destruct Hall as [Hpre Hmids].
  rewrite fiti_4D_loop_skip by (assumption || reflexivity).
  destruct (first_and_last_items Hf1) as (E10 & E1N).
  cbn [fiti_4D_loop]. rewrite E10, E1N. cbn [bind].
  rewrite (within_between_true H11), (not_within_between Hf1 H12).
  cbn [andb negb]. rewrite I1. cbn [bind ssfiles timi2 app].
  rewrite fiti_4D_loop_middles by assumption.
  destruct (first_and_last_items Hf2) as (E20 & E2N).
  cbn [fiti_4D_loop]. rewrite E20, E2N. cbn [bind].
  rewrite (not_within_between Hf2 H21), (within_between_true H22).
  cbn [andb]. rewrite I2.
  cbn [bind local times append ssfiles timi1 timi2].
  now rewrite <- !app_assoc.
Qed.

Lemma whole_files_read_times varname (L LA LO : nat) levi lati loni
      (mids : list Dataset) :
  Forall (fun f => time f <> []
                   /\ exists v, variable f varname = Ok v /\ wf v
                                /\ shape v = [length (time f); L; LA; LO])
         mids ->
  fst loni <> snd loni ->
  exists pieces,
    Forall2 (fun f a => read_4D f varname (Slice 0 None) levi lati loni
                        = Ok (Some a)) mids pieces
    /\ Forall (fun a => wf a
                        /\ tl (shape a) = window_extent L LA LO levi lati loni
                        /\ 1 <= hd 0 (shape a)) pieces
    /\ map (fun a => hd 0 (shape a)) pieces
       = map (fun f => length (time f)) mids.
Proof.
  intros HF Hne. induction HF as [| f mids Hf _ (pieces & IH1 & IH2 & IH3)].
  - exists []. repeat split; constructor.
  - destruct Hf as (Ht & v & Hv & Hw & Hs).
    destruct (@read_4D_shape f varname v _ L LA LO 0 None levi lati loni
                Hv Hs Hne) as (a & Hr & Hsa).
    cbn [stop] in Hsa. rewrite Nat.sub_0_r in Hsa.
    exists (a :: pieces). split; [now constructor |]. split.
    + constructor; [| exact IH2]. rewrite Hsa. cbn [hd tl].
      split; [exact (@read_4D_wf _ _ _ _ _ _ _ _ Hv Hw Hr) |].
      split; [reflexivity |]. destruct (time f); [congruence | simpl; lia].
    + cbn [map]. rewrite Hsa, IH3. reflexivity.
Qed.

(** The array stitched from a run of files whose variables are stored on
    one grid with the time axis of their file. *)
Lemma get_E5_ss_4D_var_run f1 mids f2 varname (i1 i2 : nat) levi lati loni
      (L LA LO : nat) :
  Forall (fun f => time f <> []
                   /\ exists v, variable f varname = Ok v /\ wf v
                                /\ shape v = [length (time f); L; LA; LO])
         (f1 :: mids ++ [f2]) ->
  i1 < length (time f1) ->
  fst loni <> snd loni ->
  mids = []
  \/ Forall (fun x => x <> 1) (window_extent L LA LO levi lati loni) ->
  exists var,
    get_E5_ss_4D_var (f1 :: mids ++ [f2]) varname (i1, i2) levi lati loni
    = Ok var
    /\ shape var
       = (length (time f1) - i1
          + list_sum (map (fun f => length (time f)) mids)
          + Nat.min (i2 + 1) (length (time f2)))
         :: window_extent L LA LO levi lati loni.
Proof.
  intros HF Hi Hne Hunit.
  apply Forall_cons_iff in HF. destruct HF as [H1 HF].
  apply Forall_app in HF. destruct HF as [Hm H2].
  apply Forall_cons_iff in H2. destruct H2 as [H2 _].
  destruct H1 as (Ht1 & v1 & Hv1 & Hw1 & Hs1).
  destruct H2 as (Ht2 & v2 & Hv2 & Hw2 & Hs2).
  destruct (@read_4D_shape f1 varname v1 _ L LA LO i1 None levi lati loni
              Hv1 Hs1 Hne) as (a0 & Hr0 & Hsa0).
  destruct (@read_4D_shape f2 varname v2 _ L LA LO 0 (Some (i2 + 1))
              levi lati loni Hv2 Hs2 Hne) as (al & Hrl & Hsal).
  cbn [stop] in Hsa0, Hsal. rewrite Nat.sub_0_r in Hsal.
  pose proof (@read_4D_wf _ _ _ _ _ _ _ _ Hv1 Hw1 Hr0) as Hwa0.
  pose proof (@read_4D_wf _ _ _ _ _ _ _ _ Hv2 Hw2 Hrl) as Hwal.
  destruct Hunit as [-> | Hunit].
  - cbn [app map list_sum fold_right]. eexists. split.
    + apply (@two_file_time_axis f1 f2 varname i1 i2 levi lati loni
               v1 v2 a0 al _ _ _ Hv1 Hw1 Hv2 Hw2 Hr0 Hrl Hsa0 Hsal).
    + cbn [shape]. f_equal. lia.
  - destruct (@whole_files_read_times varname L LA LO levi lati loni mids
                Hm Hne) as (pieces & HF2 & HP & Hhd).
    eexists. split.
    + unfold get_E5_ss_4D_var. rewrite var_loop_stitch.
      rewrite (@stitch_all
                 (fun fh ts => read_4D fh varname ts levi lati loni)
                 (length (f1 :: mids ++ [f2])) (i1, i2)
                 (window_extent L LA LO levi lati loni) Hunit
                 f1 f2 mids a0 al pieces); try assumption;
        try reflexivity.
      * constructor; [| exact HP]. rewrite Hsa0. cbn [hd tl].
        repeat split; try assumption. lia.
      * now rewrite Hsal.
      * rewrite Hsal. discriminate.
    + cbn [shape]. f_equal.
      change (list_sum (map (fun a => hd 0 (shape a)) (a0 :: pieces ++ [al])))
        with (hd 0 (shape a0)
              + list_sum (map (fun a => hd 0 (shape a)) (pieces ++ [al]))).
      rewrite map_app, list_sum_app, Hhd, Hsa0.
      cbn [map hd]. rewrite Hsal. cbn [hd list_sum fold_right]. lia.
Qed.

Lemma get_E5_ss_4D_levels_inv fh lev1 lev2 levi levs :
  get_E5_ss_4D_levels fh lev1 lev2 = Ok (levi, levs) ->
  fst levi < length (level fh) /\ snd levi < length (level fh)
  /\ length (data levs)
     = Nat.min (snd levi + 1) (length (level fh)) - fst levi.
Proof.
  unfold get_E5_ss_4D_levels. intro H.
  apply bind_ok in H as (p & Hp & H). injection H as <- <-.
  apply squeeze_pair_ok in Hp. destruct Hp as [H1 H2].
  apply k_closest_one_inv in H1, H2.
  cbn [squeeze array1 data]. rewrite slice_length. tauto.
Qed.

(** X22. The 4-D subset across two or more files, end to end: when the
    span of one file holds the lower time bound only, the span of a
    later file holds the upper bound only, the spans of the other files
    up to it hold neither, the window resolves on the first of these
    files, and every selected file stores the variable, well formed, on
    the time axis of its file and the grid of the first,
    [get_E5_ss_4D] returns the array with the coordinate lists, and
    the array has one time step per returned time, one latitude and one
    longitude per returned coordinate, and one level fewer than the
    returned level list.  With files between the two, no extent of the
    array other than time may be one. *)
Theorem subset_4D_across_files :
  forall pre f1 mids f2 post varname time1 time2 lev1 lev2
         lat1 lat2 lon1 lon2 lati loni lats lons levi levs,
    Forall (fun g => time g <> [] /\ ~ within time1 g /\ ~ within time2 g)
           (pre ++ mids) ->
    time f1 <> [] -> within time1 f1 -> ~ within time2 f1 ->
    time f2 <> [] -> within time2 f2 -> ~ within time1 f2 ->
    get_E5_ss_4D_coords f1 lat1 lat2 lon1 lon2
    = Ok (lati, loni, lats, lons) ->
    get_E5_ss_4D_levels f1 lev1 lev2 = Ok (levi, levs) ->
    Forall (fun f => exists v,
                variable f varname = Ok v /\ wf v
                /\ shape v = [length (time f); length (level f1);
                              length (latitude f1); length (longitude f1)])
           (f1 :: mids ++ [f2]) ->
    mids = []
    \/ (length (data levs) - 1 <> 1 /\ length (data lats) <> 1
        /\ length (data lons) <> 1) ->
    exists var times,
      get_E5_ss_4D (pre ++ f1 :: mids ++ f2 :: post) varname time1 time2
                   lev1 lev2 lat1 lat2 lon1 lon2
      = Ok (var, times, levs, lats, lons)
      /\ shape var = [length times; length (data levs) - 1;
                      length (data lats); length (data lons)].
Proof.
  intros pre f1 mids f2 post varname time1 time2 lev1 lev2 lat1 lat2
         lon1 lon2 lati loni lats lons levi levs Hall Hf1 H11 H12 Hf2 H22
         H21 Hc Hl Hvars Hunit.
  destruct (@k_closest_first (time f1) time1 Hf1) as (i1 & _ & B1 & I1).
  destruct (@k_closest_first (time f2) time2 Hf2) as (i2 & _ & B2 & I2).
  destruct (get_E5_ss_4D_coords_lengths _ _ _ _ _ Hc) as (Hne & Hla & Hlo).
  destruct (get_E5_ss_4D_levels_inv _ _ _ Hl) as (Hl0 & Hl1 & Hlv).
  set (Lv := length (level f1)) in *.
  set (LA := length (latitude f1)) in *.
  set (LO := length (longitude f1)) in *.
  assert (Hext : window_extent Lv LA LO levi lati loni
                 = [length (data levs) - 1; length (data lats);
                    length (data lons)]).
  { unfold window_extent. rewrite Hlv, Hla, Hlo. f_equal. lia. }
  (* every selected file has a time step *)
  assert (Hrun : Forall (fun f => time f <> []
                                  /\ exists v,
                                       variable f varname = Ok v /\ wf v
                                       /\ shape v = [length (time f); Lv;
                                                     LA; LO])
                        (f1 :: mids ++ [f2])).
  { apply Forall_cons_iff in Hvars. destruct Hvars as [V1 Hvars].
    apply Forall_app in Hvars. destruct Hvars as [Vm V2].
    apply Forall_cons_iff in V2. destruct V2 as [V2 _].
    apply Forall_app in Hall. destruct Hall as [_ Hm].
    constructor; [now split |]. apply Forall_app. split.
    - rewrite Forall_forall in *. intros g Hg. split.
      + now apply Hm.
      + now apply Vm.
    - constructor; [now split | constructor]. }
  destruct (@get_E5_ss_4D_var_run f1 mids f2 varname i1 i2 levi lati loni
              Lv LA LO Hrun B1 Hne) as (var & Hvar & Hshape).
  { destruct Hunit as [-> | (U1 & U2 & U3)]; [now left | right].
    rewrite Hext. repeat constructor; assumption. }
  exists var. eexists. split.
  - unfold get_E5_ss_4D, get_E5_ss_4D_fiti.
    assert (E0 : exists g,
               item (pre ++ f1 :: mids ++ f2 :: post) 0 = Ok g)
      by (destruct pre; cbn; eauto).
    destruct E0 as (g & ->). cbn [bind].
    rewrite (@fiti_4D_loop_run time1 time2 pre f1 mids f2 post i1 i2);
      try assumption.
    cbn [bind local timi1 timi2 times ssfiles item nth_error].
    rewrite Hc. cbn [bind]. rewrite Hl. cbn [bind].
    rewrite Hvar. reflexivity.
  - rewrite Hshape, Hext. f_equal.
    rewrite !length_app, length_flat_map, slice_length.
    unfold slice_from. rewrite length_skipn. lia.
Qed.

Lemma subset_4D_across_files_witness :
  exists var times,
    get_E5_ss_4D ([] ++ file_a :: [file_b] ++ file_c :: []) "T" 1 4
                 100 300 (-10) 10 270 90
    = Ok (var, times, mk [3] [100; 200; 300]%Q, mk [3] [10; 0; -10]%Q,
          mk [3] [-90; 0; 90]%Q)
    /\ shape var
       = [length times; length (data (mk [3] [100; 200; 300]%Q)) - 1;
          length (data (mk [3] [10; 0; -10]%Q));
          length (data (mk [3] [-90; 0; 90]%Q))].
Proof.
  apply (@subset_4D_across_files [] file_a [file_b] file_c [] "T" 1 4
           100 300 (-10) 10 270 90 (0, 2) (3, 1)
           (mk [3] [10; 0; -10]%Q) (mk [3] [-90; 0; 90]%Q)
           (0, 2) (mk [3] [100; 200; 300]%Q)).
  - repeat constructor; try discriminate;
      intros [H1 H2]; vm_compute in H1, H2; auto.
  - discriminate.
  - split; vm_compute; discriminate.
  - intros [H1 H2]; vm_compute in H1, H2; auto.
  - discriminate.
  - split; vm_compute; discriminate.
  - intros [H1 H2]; vm_compute in H1, H2; auto.
  - vm_compute. reflexivity.
  - vm_compute. reflexivity.
  - repeat constructor; eexists; (split; [reflexivity |]);
      (split; reflexivity).
  - right. cbn. lia.
Defined.

(** ** The index-only resolver *)

(** X23. [get_E5_ss_coords] resolves every request on a file with
    non-empty latitude and longitude axes: it returns two pairs of
    positions of the axes and raises nothing.  For a half-width that is
    not negative and a central latitude between the poles the latitude
    pair is ordered on a north-to-south axis and reversed on a
    south-to-north axis, and it is the latitude pair that
    [get_E5_ss_2D_coords] returns for the same request. *)
Theorem index_only_resolver_always_returns :
  forall fh clon clat hda,
    latitude fh <> [] -> longitude fh <> [] ->
    exists loni lati,
      get_E5_ss_coords fh clon clat hda = Ok (loni, lati)
      /\ (fst lati < length (latitude fh) /\ snd lati < length (latitude fh)
          /\ fst loni < length (longitude fh)
          /\ snd loni < length (longitude fh))
      /\ ((0 <= hda)%Q -> (-90 <= clat /\ clat <= 90)%Q ->
          (descending (latitude fh) -> fst lati <= snd lati)
          /\ (ascending (latitude fh) -> snd lati <= fst lati))
      /\ (forall loni' lati' lons lats,
             get_E5_ss_2D_coords fh clon clat hda
             = Ok (loni', lati', lons, lats) ->
             lati' = lati).
Proof.
  intros fh clon clat hda Hlat Hlon.
  unfold get_E5_ss_coords, get_E5_ss_2D_coords.
  set (cn := normalize_lon clon).
  set (lat_p := if ltb 90 (clat + hda) then 90%Q else (clat + hda)%Q).
  set (lat_m := if ltb (clat - hda) (-90) then (-90)%Q
                else (clat - hda)%Q).
  set (lon_p := if ltb 360 (cn + hda) then (cn + hda - 360)%Q
                else (cn + hda)%Q).
  set (lon_m := if ltb (cn - hda) 0 then (cn - hda + 360)%Q
                else (cn - hda)%Q).
  destruct (@k_closest_one (latitude fh) lat_p Hlat) as (a & Ha & Va & _).
  destruct (@k_closest_one (latitude fh) lat_m Hlat) as (b & Hb & Vb & _).
  destruct (@k_closest_one (longitude fh) lon_m Hlon) as (c & Hc & Vc & _).
  destruct (@k_closest_one (longitude fh) lon_p Hlon) as (d & Hd & Vd & _).
  rewrite Ha, Hb, Hc, Hd. cbn [squeeze_pair bind].
  exists (c, d), (a, b). split; [reflexivity |].
  split; [cbn [fst snd]; auto |]. split.
  - intros Hh [Hlo Hhi].
    assert (Hbounds : (lat_m <= lat_p)%Q).
    { unfold lat_m, lat_p.
      destruct (ltb (clat - hda) (-90)) eqn:E1;
        destruct (ltb 90 (clat + hda)) eqn:E2;
        rewrite ?ltb_lt, ?ltb_ge in *; lra. }
    cbn [fst snd]. split; intro Hs.
    + exact (nearest_descending Hs Hbounds Hb Ha).
    + exact (nearest_ascending Hs Hbounds Hb Ha).
  - intros loni' lati' lons lats H.
    apply bind_ok in H as (lonN & _ & H).
    apply bind_ok in H as (lon1 & _ & H).
    apply bind_ok in H as (lon0 & _ & H).
    apply bind_ok in H as (lo & _ & H).
    apply bind_ok in H as (l & _ & H).
    now injection H as _ <- _ _.
Qed.

Lemma index_only_resolver_always_returns_witness :
  exists loni lati,
    get_E5_ss_coords file_a 0 0 90 = Ok (loni, lati)
    /\ (fst lati < length (latitude file_a)
        /\ snd lati < length (latitude file_a)
        /\ fst loni < length (longitude file_a)
        /\ snd loni < length (longitude file_a))
    /\ ((0 <= 90)%Q -> (-90 <= 0 /\ 0 <= 90)%Q ->
        (descending (latitude file_a) -> fst lati <= snd lati)
        /\ (ascending (latitude file_a) -> snd lati <= fst lati))
    /\ (forall loni' lati' lons lats,
           get_E5_ss_2D_coords file_a 0 0 90
           = Ok (loni', lati', lons, lats) ->
           lati' = lati).
Proof.
  apply (@index_only_resolver_always_returns file_a 0 0 90);
    discriminate.
Defined.
